(** * agents/logger.py: the AgentLogger console renderers

    A shallow embedding of [AgentLogger] (src/agents/logger.py) and the
    properties of its renderers.

    - A Python [str] is a list of code points, so that [len] and slicing
      count characters as Python does.
    - Python values that reach the logger are the inductive [value]:
      JSON-like data plus attribute-bearing objects (SDK content blocks).
    - A renderer is a computation in [M]: it threads the logger instance
      and the standard output, and it may raise.  Whatever was printed, and
      whatever was assigned to the instance, before an exception stays.
    - A parameter annotated [str], [int], [bool], [dict] or [list] is taken
      at that type; what is read out of a list or a mapping, and the
      unannotated [response], is a dynamic [value].
    - Standard output is the list of the strings handed to [print], one
      entry per call: a "line" below is one such entry. *)

From Stdlib Require Import String Ascii.
From Stdlib Require Import List NArith ZArith Lia Bool.
Import ListNotations.

Set Warnings "-register-all".

(** ** Python strings *)

Definition char := N.
Definition str := list char.

(** An ASCII literal of the source. *)
Definition lit (s : string) : str := map N_of_ascii (list_ascii_of_string s).

Definition NL : char := 10%N.
Definition SPACE : char := 32%N.

Fixpoint str_eqb (a b : str) : bool :=
  match a, b with
  | [], [] => true
  | x :: a', y :: b' => N.eqb x y && str_eqb a' b'
  | _, _ => false
  end.

(** [s * n]: a non-positive count gives the empty string. *)
Definition str_mul (s : str) (n : Z) : str := concat (repeat s (Z.to_nat n)).

(** [sep.join(parts)] *)
Fixpoint join (sep : str) (parts : list str) : str :=
  match parts with
  | [] => []
  | [p] => p
  | p :: rest => p ++ sep ++ join sep rest
  end.

(** [s.split(c)] for a one-character separator. *)
Fixpoint split_on (c : char) (s : str) : list str :=
  match s with
  | [] => [[]]
  | x :: r =>
      if N.eqb x c then [] :: split_on c r
      else match split_on c r with
           | [] => [[x]]
           | l :: ls => (x :: l) :: ls
           end
  end.

(** The format spec [:<w]: left-justified, padded with spaces to width [w]. *)
Definition ljust (w : nat) (s : str) : str := s ++ repeat SPACE (w - length s).

(** [s.zfill(w)] for digit strings. *)
Definition zfill (w : nat) (s : str) : str := repeat 48%N (w - length s) ++ s.

Fixpoint prefixb (p s : str) : bool :=
  match p, s with
  | [], _ => true
  | x :: p', y :: s' => N.eqb x y && prefixb p' s'
  | _ :: _, [] => false
  end.

(** [p in s] on strings. *)
Fixpoint infixb (p s : str) : bool :=
  prefixb p s || match s with [] => false | _ :: s' => infixb p s' end.

(** Decimal digits of an integer, as [str(n)] prints them. *)
Fixpoint digits (u : Decimal.uint) : str :=
  match u with
  | Decimal.Nil => []
  | Decimal.D0 r => 48%N :: digits r
  | Decimal.D1 r => 49%N :: digits r
  | Decimal.D2 r => 50%N :: digits r
  | Decimal.D3 r => 51%N :: digits r
  | Decimal.D4 r => 52%N :: digits r
  | Decimal.D5 r => 53%N :: digits r
  | Decimal.D6 r => 54%N :: digits r
  | Decimal.D7 r => 55%N :: digits r
  | Decimal.D8 r => 56%N :: digits r
  | Decimal.D9 r => 57%N :: digits r
  end.

Definition dec_N (n : N) : str := digits (N.to_uint n).
Definition dec_nat (n : nat) : str := dec_N (N.of_nat n).
Definition dec_Z (z : Z) : str :=
  if (z <? 0)%Z then 45%N :: dec_N (Z.abs_N z) else dec_N (Z.abs_N z).

Definition hex_digit (n : N) : char :=
  if (n <? 10)%N then (48 + n)%N else (87 + n)%N.

(** ** Python values *)

(** The values the logger is handed.  Dictionary keys are strings (the
    logger only ever looks up string keys and JSON-encodes the rest); an
    association list keeps the insertion order that [json.dumps] prints.
    [VObj] is an object used through its attributes: it carries its class
    name and what [str] and [repr] give for it, next to its attribute
    table.  It is neither iterable, sliceable nor JSON-encodable. *)
Inductive value : Type :=
| VNone
| VBool (b : bool)
| VInt (z : Z)
| VStr (s : str)
| VList (l : list value)
| VDict (d : list (str * value))
| VObj (cls : str) (to_str : str) (to_repr : str) (attrs : list (str * value)).

Definition dict := list (str * value).

Inductive exn : Type :=
| KeyError (key : str)
| AttributeError (name : str)
| TypeError (msg : str)
| ValueError (msg : str).

Inductive result (A : Type) : Type :=
| Ok (a : A)
| Raise (e : exn).
Arguments Ok {A} a.
Arguments Raise {A} e.

Definition rbind {A B} (r : result A) (f : A -> result B) : result B :=
  match r with
  | Ok a => f a
  | Raise e => Raise e
  end.

Declare Scope py_scope.
Delimit Scope py_scope with py.
Open Scope py_scope.

Notation "'let?' x ':=' r 'in' k" := (rbind r (fun x => k))
  (at level 10, x name, r at level 100, k at level 200) : py_scope.

Fixpoint rmap {A B} (f : A -> result B) (l : list A) : result (list B) :=
  match l with
  | [] => Ok []
  | x :: r => let? y := f x in let? ys := rmap f r in Ok (y :: ys)
  end.

(** [d.get(k)] on an association list: the first binding of [k]. *)
Fixpoint dict_find (k : str) (d : dict) : option value :=
  match d with
  | [] => None
  | (k', v) :: r => if str_eqb k k' then Some v else dict_find k r
  end.

(** [d.get(k, default)] *)
Definition dict_get (d : dict) (k : str) (default : value) : value :=
  match dict_find k d with
  | Some v => v
  | None => default
  end.

(** [v == "literal"]: only a string equals a string. *)
Definition eq_str (v : value) (s : str) : bool :=
  match v with
  | VStr t => str_eqb t s
  | _ => false
  end.

Definition is_str (v : value) : bool := match v with VStr _ => true | _ => false end.
Definition is_list (v : value) : bool := match v with VList _ => true | _ => false end.
Definition is_dict (v : value) : bool := match v with VDict _ => true | _ => false end.

(** [getattr(v, name, default)].  The logger asks for [type], [text],
    [id], [name], [input] and [tool_use_id] only, none of which a built-in
    value has, so everything but an object answers with the default. *)
Definition getattr (v : value) (name : str) (default : value) : value :=
  match v with
  | VObj _ _ _ attrs => match dict_find name attrs with
                        | Some x => x
                        | None => default
                        end
  | _ => default
  end.

(** [v.name] *)
Definition attr (v : value) (name : str) : result value :=
  match v with
  | VObj _ _ _ attrs => match dict_find name attrs with
                        | Some x => Ok x
                        | None => Raise (AttributeError name)
                        end
  | _ => Raise (AttributeError name)
  end.

(** [v[key]] for a string key. *)
Definition getitem (v : value) (key : str) : result value :=
  match v with
  | VDict d => match dict_find key d with
               | Some x => Ok x
               | None => Raise (KeyError key)
               end
  | VStr _ => Raise (TypeError (lit "string indices must be integers"))
  | VList _ => Raise (TypeError (lit "list indices must be integers or slices"))
  | _ => Raise (TypeError (lit "object is not subscriptable"))
  end.

(** [v.get(key, default)]: only a mapping has [get]. *)
Definition get_method (v : value) (key : str) (default : value) : result value :=
  match v with
  | VDict d => Ok (dict_get d key default)
  | _ => Raise (AttributeError (lit "get"))
  end.

(** [len(v)] *)
Definition len (v : value) : result nat :=
  match v with
  | VStr s => Ok (length s)
  | VList l => Ok (length l)
  | VDict d => Ok (length d)
  | _ => Raise (TypeError (lit "object has no len()"))
  end.

(** [v[:n]].  A mapping has no slices: subscripting it with one raises
    (TypeError for the unhashable slice, KeyError on interpreters where a
    slice hashes); it raises in either case. *)
Definition slice_to (n : nat) (v : value) : result value :=
  match v with
  | VStr s => Ok (VStr (firstn n s))
  | VList l => Ok (VList (firstn n l))
  | _ => Raise (TypeError (lit "object is not subscriptable"))
  end.

(** [v + "literal"] *)
Definition add_str (v : value) (s : str) : result value :=
  match v with
  | VStr t => Ok (VStr (t ++ s))
  | _ => Raise (TypeError (lit "unsupported operand type(s) for +"))
  end.

(** [for x in v]: the items the iteration yields. *)
Definition iter (v : value) : result (list value) :=
  match v with
  | VList l => Ok l
  | VStr s => Ok (map (fun c => VStr [c]) s)
  | VDict d => Ok (map (fun kv => VStr (fst kv)) d)
  | _ => Raise (TypeError (lit "object is not iterable"))
  end.

(** [dict(v)]: a mapping is copied; any other iterable must yield
    two-item sequences, the first item being the key.  Keys are strings in
    this universe, so a pair whose first item is another hashable value
    (a number, [None], an object) has no image here and is reported as an
    error; no theorem below rests on that case. *)
Definition dict_pair (v : value) : result (str * value) :=
  match v with
  | VList [VStr k; x] => Ok (k, x)
  | VStr [a; b] => Ok ([a], VStr [b])
  | VDict [(k1, _); (k2, _)] => Ok (k1, VStr k2)
  | VList [_; _] => Raise (TypeError (lit "key outside the string-keyed universe"))
  | VList _ | VStr _ | VDict _ =>
      Raise (ValueError (lit "dictionary update sequence element has wrong length"))
  | _ => Raise (TypeError (lit "cannot convert dictionary update sequence element to a sequence"))
  end.

Fixpoint dict_set (d : dict) (k : str) (v : value) : dict :=
  match d with
  | [] => [(k, v)]
  | (k', v') :: r => if str_eqb k k' then (k', v) :: r else (k', v') :: dict_set r k v
  end.

Definition to_dict (v : value) : result value :=
  match v with
  | VDict d => Ok (VDict d)
  | VList l =>
      let? kvs := rmap dict_pair l in
      Ok (VDict (fold_left (fun d kv => dict_set d (fst kv) (snd kv)) kvs []))
  | VStr s =>
      let? kvs := rmap dict_pair (map (fun c => VStr [c]) s) in
      Ok (VDict (fold_left (fun d kv => dict_set d (fst kv) (snd kv)) kvs []))
  | _ => Raise (TypeError (lit "object is not iterable"))
  end.

(** ** json.dumps(data, ensure_ascii=False, indent=...) *)

(** One character of a JSON string: the quote, the backslash and the
    control characters below 0x20 are escaped, everything else is kept. *)
Definition json_escape_char (c : char) : str :=
  if N.eqb c 34 then [92%N; 34%N]
  else if N.eqb c 92 then lit "\\"
  else if N.eqb c 10 then lit "\n"
  else if N.eqb c 13 then lit "\r"
  else if N.eqb c 9 then lit "\t"
  else if N.eqb c 8 then lit "\b"
  else if N.eqb c 12 then lit "\f"
  else if (c <? 32)%N then lit "\u00" ++ [hex_digit (c / 16)%N; hex_digit (c mod 16)%N]
  else [c].

Definition json_string (s : str) : str :=
  [34%N] ++ flat_map json_escape_char s ++ [34%N].

(** A line break followed by the indentation of nesting depth [level]. *)
Definition newline_indent (indent : Z) (level : nat) : str :=
  NL :: str_mul [SPACE] (indent * Z.of_nat level).

Fixpoint json_encode (indent : Z) (level : nat) (v : value) : result str :=
  match v with
  | VNone => Ok (lit "null")
  | VBool true => Ok (lit "true")
  | VBool false => Ok (lit "false")
  | VInt z => Ok (dec_Z z)
  | VStr s => Ok (json_string s)
  | VList [] => Ok (lit "[]")
  | VList l =>
      let? items :=
        (fix each (l : list value) : result (list str) :=
           match l with
           | [] => Ok []
           | x :: r =>
               let? y := json_encode indent (S level) x in
               let? ys := each r in Ok (y :: ys)
           end) l in
      Ok (lit "[" ++ newline_indent indent (S level)
            ++ join (lit "," ++ newline_indent indent (S level)) items
            ++ newline_indent indent level ++ lit "]")
  | VDict [] => Ok (lit "{}")
  | VDict d =>
      let? items :=
        (fix each (d : list (str * value)) : result (list str) :=
           match d with
           | [] => Ok []
           | (k, x) :: r =>
               let? y := json_encode indent (S level) x in
               let? ys := each r in Ok ((json_string k ++ lit ": " ++ y) :: ys)
           end) d in
      Ok (lit "{" ++ newline_indent indent (S level)
            ++ join (lit "," ++ newline_indent indent (S level)) items
            ++ newline_indent indent level ++ lit "}")
  | VObj cls _ _ _ =>
      Raise (TypeError (lit "Object of type " ++ cls ++ lit " is not JSON serializable"))
  end.

Definition json_dumps (data : value) (indent : Z) : result str :=
  json_encode indent 0 data.


(** ** str() and repr() *)

(** [repr] of a string all of whose non-ASCII characters are printable:
    single quotes unless the string has a single quote and no double
    quote; the quote in use, the backslash, and the control characters are
    escaped. *)
Definition repr_escape_char (quote : char) (c : char) : str :=
  if N.eqb c quote || N.eqb c 92 then [92%N; c]
  else if N.eqb c 9 then lit "\t"
  else if N.eqb c 10 then lit "\n"
  else if N.eqb c 13 then lit "\r"
  else if (c <? 32)%N || N.eqb c 127
       then lit "\x" ++ [hex_digit (c / 16)%N; hex_digit (c mod 16)%N]
  else [c].

Definition repr_printable (s : str) : str :=
  let quote :=
    if existsb (N.eqb 39) s && negb (existsb (N.eqb 34) s) then 34%N else 39%N in
  [quote] ++ flat_map (repr_escape_char quote) s ++ [quote].

Section Logger.

(** [repr] of a string: its quoting and escaping follow the interpreter's
    Unicode tables, so it is taken as given. *)
Variable repr_str : str -> str.

Fixpoint repr (v : value) : str :=
  match v with
  | VNone => lit "None"
  | VBool true => lit "True"
  | VBool false => lit "False"
  | VInt z => dec_Z z
  | VStr s => repr_str s
  | VList l => lit "[" ++ join (lit ", ") (map repr l) ++ lit "]"
  | VDict d =>
      lit "{"
        ++ join (lit ", ")
             (map (fun kv => match kv with
                             | (k, x) => repr_str k ++ lit ": " ++ repr x
                             end) d)
        ++ lit "}"
  | VObj _ _ r _ => r
  end.

(** [str(v)], which is also what an f-string field [{v}] formats to. *)
Definition to_str (v : value) : str :=
  match v with
  | VStr s => s
  | VObj _ s _ _ => s
  | _ => repr v
  end.

(** ** The logger instance and the effects of a renderer *)

Record AgentLogger : Type := {
  verbose : bool;
  show_raw : bool;
  _iteration : Z
}.

(** [AgentLogger.__init__] *)
Definition __init__ (verbose show_raw : bool) : AgentLogger :=
  {| verbose := verbose; show_raw := show_raw; _iteration := 0 |}.

(** What a method can touch: the instance and the lines sent to standard
    output, one entry per [print] call. *)
Record world : Type := {
  self : AgentLogger;
  stdout : list str
}.

Definition M (A : Type) : Type := world -> result A * world.

Definition ret {A} (a : A) : M A := fun w => (Ok a, w).

Definition bind {A B} (m : M A) (f : A -> M B) : M B :=
  fun w => match m w with
           | (Ok a, w') => f a w'
           | (Raise e, w') => (Raise e, w')
           end.

Definition lift {A} (r : result A) : M A := fun w => (r, w).

Definition print (line : str) : M unit :=
  fun w => (Ok tt, {| self := self w; stdout := stdout w ++ [line] |}).

Definition get_verbose : M bool := fun w => (Ok (verbose (self w)), w).
Definition get_show_raw : M bool := fun w => (Ok (show_raw (self w)), w).

(** [self._iteration = n] *)
Definition set_iteration (n : Z) : M unit :=
  fun w => (Ok tt,
            {| self := {| verbose := verbose (self w);
                          show_raw := show_raw (self w);
                          _iteration := n |};
               stdout := stdout w |}).

Notation "x <- m ;; k" := (bind m (fun x => k))
  (at level 61, m at next level, right associativity).
Notation "m ;; k" := (bind m (fun _ => k))
  (at level 61, right associativity).

(** [for x in l: body(x)] *)
Fixpoint for_each {A} (l : list A) (body : A -> M unit) : M unit :=
  match l with
  | [] => ret tt
  | x :: r => body x ;; for_each r body
  end.

(** [for i, x in enumerate(l): body(i, x)], counting from [i]. *)
Fixpoint for_enumerate {A} (i : nat) (l : list A) (body : nat -> A -> M unit) : M unit :=
  match l with
  | [] => ret tt
  | x :: r => body i x ;; for_enumerate (S i) r body
  end.

Definition exec {A} (m : M A) (w : world) : world := snd (m w).
Definition outcome {A} (m : M A) (w : world) : result A := fst (m w).

(** ** Formatter core *)

Definition ESC : char := 27%N.

Definition COLORS : list (str * str) :=
  [ (lit "reset", ESC :: lit "[0m");
    (lit "bold", ESC :: lit "[1m");
    (lit "dim", ESC :: lit "[2m");
    (lit "underline", ESC :: lit "[4m");
    (lit "red", ESC :: lit "[31m");
    (lit "green", ESC :: lit "[32m");
    (lit "yellow", ESC :: lit "[33m");
    (lit "blue", ESC :: lit "[34m");
    (lit "magenta", ESC :: lit "[35m");
    (lit "cyan", ESC :: lit "[36m");
    (lit "white", ESC :: lit "[37m");
    (lit "bg_black", ESC :: lit "[40m");
    (lit "bg_red", ESC :: lit "[41m");
    (lit "bg_green", ESC :: lit "[42m");
    (lit "bg_yellow", ESC :: lit "[43m");
    (lit "bg_blue", ESC :: lit "[44m");
    (lit "bg_magenta", ESC :: lit "[45m");
    (lit "bg_cyan", ESC :: lit "[46m") ].

Fixpoint colors_get (table : list (str * str)) (name : str) (default : str) : str :=
  match table with
  | [] => default
  | (k, code) :: r => if str_eqb name k then code else colors_get r name default
  end.

(** [_color]: [COLORS.get(color, '')], the text, [COLORS['reset']]. *)
Definition _color (text : str) (color : str) : str :=
  colors_get COLORS color [] ++ text ++ colors_get COLORS (lit "reset") [].

(** The reading of the wall clock that [datetime.now()] returns. *)
Record datetime : Type := {
  hour : nat;
  minute : nat;
  second : nat;
  microsecond : nat
}.

(** [now.strftime("%H:%M:%S.%f")] *)
Definition strftime (now : datetime) : str :=
  zfill 2 (dec_nat (hour now)) ++ lit ":" ++ zfill 2 (dec_nat (minute now)) ++ lit ":"
    ++ zfill 2 (dec_nat (second now)) ++ lit "." ++ zfill 6 (dec_nat (microsecond now)).

(** [_timestamp]: the formatted time without its last three digits. *)
Definition _timestamp (now : datetime) : str :=
  let t := strftime now in
  _color (firstn (length t - 3) t) (lit "dim").

(** The non-ASCII characters of the templates. *)
Definition BOX_H : char := 9472%N.        (* U+2500 *)
Definition BOX_V : char := 9474%N.        (* U+2502 *)
Definition BOX_TL : char := 9484%N.       (* U+250C *)
Definition BOX_TR : char := 9488%N.       (* U+2510 *)
Definition BOX_BL : char := 9492%N.       (* U+2514 *)
Definition BOX_BR : char := 9496%N.       (* U+2518 *)
Definition BOX_DH : char := 9552%N.       (* U+2550 *)
Definition ICON_SECTION : char := 9654%N. (* U+25B6 *)
Definition ICON_OUTBOX : char := 128228%N.  (* U+1F4E4 *)
Definition ICON_INBOX : char := 128229%N.   (* U+1F4E5 *)
Definition ICON_PAGE : char := 128196%N.    (* U+1F4C4 *)
Definition ICON_CHART : char := 128202%N.   (* U+1F4CA *)
Definition ICON_LOOP : char := 128260%N.    (* U+1F504 *)
Definition ICON_CLIPBOARD : char := 128203%N. (* U+1F4CB *)
Definition ICON_ZAP : char := 9889%N.       (* U+26A1 *)
Definition ICON_CROSS : char := 10060%N.    (* U+274C *)
Definition ICON_CHECK : char := 10003%N.    (* U+2713 *)
Definition ICON_PACKAGE : char := 128230%N. (* U+1F4E6 *)
Definition ICON_FLAG : char := 127937%N.    (* U+1F3C1 *)
Definition ICON_STOP : char := 128721%N.    (* U+1F6D1 *)

(** ** Basic output methods *)

Definition default_char : str := [BOX_H].
Definition default_width : Z := 80.
Definition default_icon : str := [ICON_SECTION].
Definition default_max_tokens : Z := 8000.
Definition default_title : str := lit "MESSAGES SNAPSHOT".

Definition separator (title : str) (char : str) (width : Z) : M unit :=
  v <- get_verbose ;;
  if negb v then ret tt
  else
    let line :=
      match title with
      | _ :: _ =>
          str_mul char 10 ++ (lit " " ++ title ++ lit " ")
            ++ str_mul char (width - 12 - Z.of_nat (length title))
      | [] => str_mul char width
      end in
    print (_color (NL :: line) (lit "dim")).

Definition header (text : str) (session_name : str) : M unit :=
  print (_color (NL :: str_mul [BOX_DH] 80) (lit "cyan")) ;;
  match session_name with
  | _ :: _ => print (_color (lit "  [" ++ session_name ++ lit "]") (lit "dim"))
  | [] => ret tt
  end ;;
  print (_color (lit "  " ++ text) (lit "bold")) ;;
  print (_color (str_mul [BOX_DH] 80) (lit "cyan")).

Definition section (text : str) (icon : str) : M unit :=
  v <- get_verbose ;;
  if negb v then ret tt
  else print (_color (NL :: icon ++ lit " " ++ text) (lit "cyan")).

Definition key_value (key : str) (val : value) (indent : Z) (color : str) : M unit :=
  let spaces := str_mul (lit " ") indent in
  let key_str := _color (key ++ lit ":") color in
  print (spaces ++ key_str ++ lit " " ++ to_str val).

Definition json_block (title : str) (data : value) (indent : Z) (color : str) : M unit :=
  v <- get_verbose ;;
  if negb v then ret tt
  else
    let spaces := str_mul (lit " ") indent in
    let title_str := _color (title ++ lit ":") color in
    print (spaces ++ title_str) ;;
    match json_dumps data (indent + 2) with
    | Ok formatted =>
        for_each (split_on NL formatted)
          (fun line => print (_color (spaces ++ lit "  " ++ line) (lit "dim")))
    | Raise _ => print (_color (spaces ++ lit "  " ++ to_str data) (lit "dim"))
    end.

(** ** Serializer *)

(** The body of the loop of [_serialize_content]. *)
Definition serialize_block (block : value) : result value :=
  if is_dict block then Ok block
  else
    let block_type := getattr block (lit "type") VNone in
    if eq_str block_type (lit "text") then
      Ok (VDict [ (lit "type", VStr (lit "text"));
                  (lit "text", getattr block (lit "text") (VStr [])) ])
    else if eq_str block_type (lit "tool_use") then
      let id := getattr block (lit "id") (VStr []) in
      let name := getattr block (lit "name") (VStr []) in
      let? input := to_dict (getattr block (lit "input") (VDict [])) in
      Ok (VDict [ (lit "type", VStr (lit "tool_use"));
                  (lit "id", id);
                  (lit "name", name);
                  (lit "input", input) ])
    else Ok (VDict [ (lit "type", VStr (to_str block_type)) ]).

Definition _serialize_content (content : value) : result value :=
  let? blocks := iter content in
  let? result := rmap serialize_block blocks in
  Ok (VList result).

(** The body of the loop of [_serialize_messages]. *)
Definition serialize_message (msg : value) : result value :=
  let? role := getitem msg (lit "role") in
  let? content := get_method msg (lit "content") (VStr []) in
  let? shown :=
    if is_str content then Ok content
    else if is_list content then _serialize_content content
    else Ok (VStr (to_str content)) in
  Ok (VDict [ (lit "role", role); (lit "content", shown) ]).

Definition _serialize_messages (messages : list value) : result value :=
  let? result := rmap serialize_message messages in
  Ok (VList result).

(** [str(e)] of a caught exception. *)
Definition exn_str (e : exn) : str :=
  match e with
  | KeyError k => repr_str k
  | AttributeError name => lit "object has no attribute " ++ repr_str name
  | TypeError msg => msg
  | ValueError msg => msg
  end.

Definition _print_structured_json (data : value) (title : str) : M unit :=
  print (_color (NL :: lit "  " ++ [ICON_CHART] ++ lit " " ++ title ++ lit ":") (lit "cyan")) ;;
  match json_dumps data 4 with
  | Ok formatted =>
      for_each (split_on NL formatted)
        (fun line => print (_color (lit "    " ++ line) (lit "dim")))
  | Raise e => print (_color (lit "    Error formatting: " ++ exn_str e) (lit "red"))
  end.

(** The body of the loop of [_print_code_block]: a line longer than 74
    characters is cut to 71 and an ellipsis, then framed. *)
Definition code_block_line (line : str) : str :=
  let line := if 74 <? length line then firstn 71 line ++ lit "..." else line in
  _color (lit "  " ++ [BOX_V] ++ lit " " ++ ljust 74 line ++ lit " " ++ [BOX_V]) (lit "dim").

Definition _print_code_block (data : value) : M unit :=
  match json_dumps data 2 with
  | Ok formatted =>
      print (_color (lit "  " ++ [BOX_TL] ++ str_mul [BOX_H] 76 ++ [BOX_TR]) (lit "dim")) ;;
      for_each (split_on NL formatted) (fun line => print (code_block_line line)) ;;
      print (_color (lit "  " ++ [BOX_BL] ++ str_mul [BOX_H] 76 ++ [BOX_BR]) (lit "dim"))
  | Raise e => print (_color (lit "    Error: " ++ exn_str e) (lit "red"))
  end.

(** ** Raw API data *)

(** One entry of the [tools] comprehension of [request_raw]. *)
Definition tool_summary (t : value) : result value :=
  let? name := getitem t (lit "name") in
  let? description := getitem t (lit "description") in
  let? cut := slice_to 50 description in
  let? shown := add_str cut (lit "...") in
  Ok (VDict [ (lit "name", name); (lit "description", shown) ]).

(** [request_raw], the block loop for a [list] content. *)
Definition block_summary (block : value) : result value :=
  let block_type :=
    match block with
    | VDict d => dict_get d (lit "type") (VStr (lit "unknown"))
    | _ => getattr block (lit "type") (VStr (lit "unknown"))
    end in
  if eq_str block_type (lit "tool_result") then
    let tool_id :=
      match block with
      | VDict d => dict_get d (lit "tool_use_id") (VStr [])
      | _ => getattr block (lit "tool_use_id") (VStr [])
      end in
    let? cut := slice_to 16 tool_id in
    Ok (VStr (lit "tool_result(id=" ++ to_str cut ++ lit "...)"))
  else if eq_str block_type (lit "tool_use") then
    let name :=
      match block with
      | VDict d => dict_get d (lit "name") (VStr [])
      | _ => getattr block (lit "name") (VStr [])
      end in
    Ok (VStr (lit "tool_use(name=" ++ to_str name ++ lit ")"))
  else Ok block_type.

(** [request_raw], the block loop for a content that is neither a [str]
    nor a [list]. *)
Definition block_summary_attr (block : value) : result value :=
  let block_type := getattr block (lit "type") (VStr (lit "unknown")) in
  if eq_str block_type (lit "tool_result") then
    let tool_id := getattr block (lit "tool_use_id") (VStr []) in
    let? cut := slice_to 16 tool_id in
    Ok (VStr (lit "tool_result(id=" ++ to_str cut ++ lit "...)"))
  else if eq_str block_type (lit "tool_use") then
    let name := getattr block (lit "name") (VStr []) in
    Ok (VStr (lit "tool_use(name=" ++ to_str name ++ lit ")"))
  else Ok block_type.

(** [request_raw], the body of the message loop: the [msg_entry] appended
    to [request_data["messages"]]. *)
Definition message_entry (msg : value) : result value :=
  let? role := getitem msg (lit "role") in
  let? content := get_method msg (lit "content") (VStr []) in
  let? shown :=
    match content with
    | VStr s => Ok (VStr (lit "<text: " ++ dec_nat (length s) ++ lit " chars>"))
    | VList blocks =>
        let? blocks_summary := rmap block_summary blocks in
        Ok (VList blocks_summary)
    | _ =>
        let? blocks := iter content in
        let? blocks_summary := rmap block_summary_attr blocks in
        Ok (VList blocks_summary)
    end in
  Ok (VDict [ (lit "role", role); (lit "content", shown) ]).

(** [request_raw], the preview structure [request_data] after the loop. *)
Definition request_data (model system : str) (messages tools : list value)
    (max_tokens : Z) : result value :=
  let shown := if 100 <? length system then firstn 100 system ++ lit "..." else system in
  let? tools_summary := rmap tool_summary tools in
  let? entries := rmap message_entry messages in
  Ok (VDict [ (lit "model", VStr model);
              (lit "max_tokens", VInt max_tokens);
              (lit "system", VStr shown);
              (lit "tools", VList tools_summary);
              (lit "messages", VList entries) ]).

(** [request_raw], the full structure [full_request]. *)
Definition full_request (model system : str) (messages tools : list value)
    (max_tokens : Z) : result value :=
  let? serialized := _serialize_messages messages in
  Ok (VDict [ (lit "model", VStr model);
              (lit "max_tokens", VInt max_tokens);
              (lit "system", VStr system);
              (lit "tools", VList tools);
              (lit "messages", serialized) ]).

Definition request_raw (model system : str) (messages tools : list value)
    (max_tokens : Z) : M unit :=
  raw <- get_show_raw ;;
  if negb raw then ret tt
  else
    print (_color (NL :: [BOX_TL] ++ str_mul [BOX_H] 78 ++ [BOX_TR]) (lit "magenta")) ;;
    print (_color ([BOX_V] ++ lit "  " ++ [ICON_OUTBOX] ++ lit " RAW API REQUEST"
                     ++ str_mul (lit " ") 57 ++ [BOX_V]) (lit "magenta")) ;;
    print (_color ([BOX_BL] ++ str_mul [BOX_H] 78 ++ [BOX_BR]) (lit "magenta")) ;;
    data <- lift (request_data model system messages tools max_tokens) ;;
    _print_structured_json data (lit "Request Structure") ;;
    print (_color (NL :: lit "  " ++ [ICON_PAGE] ++ lit " Full Request JSON (copy-paste ready):")
             (lit "cyan")) ;;
    full <- lift (full_request model system messages tools max_tokens) ;;
    _print_code_block full.

(** [response_raw], the body of the block loop: the [block_entry] appended
    to [response_data["content"]]. *)
Definition response_block_entry (block : value) : result value :=
  let block_type := getattr block (lit "type") (VStr (lit "unknown")) in
  if eq_str block_type (lit "text") then
    let text := getattr block (lit "text") (VStr []) in
    let? n := len text in
    Ok (VDict [ (lit "type", block_type);
                (lit "text", VStr (lit "<" ++ dec_nat n ++ lit " chars>")) ])
  else if eq_str block_type (lit "tool_use") then
    Ok (VDict [ (lit "type", block_type);
                (lit "id", getattr block (lit "id") (VStr []));
                (lit "name", getattr block (lit "name") (VStr []));
                (lit "input", getattr block (lit "input") (VDict [])) ])
  else Ok (VDict [ (lit "type", block_type) ]).

(** The fields both structures of [response_raw] read off the response,
    in the order the dictionary display evaluates them. *)
Definition response_fields (response : value) : result (list (str * value)) :=
  let? id := attr response (lit "id") in
  let? model := attr response (lit "model") in
  let? role := attr response (lit "role") in
  let? stop_reason := attr response (lit "stop_reason") in
  let? stop_sequence := attr response (lit "stop_sequence") in
  let? usage := attr response (lit "usage") in
  let? input_tokens := attr usage (lit "input_tokens") in
  let? usage' := attr response (lit "usage") in
  let? output_tokens := attr usage' (lit "output_tokens") in
  Ok [ (lit "id", id);
       (lit "model", model);
       (lit "role", role);
       (lit "stop_reason", stop_reason);
       (lit "stop_sequence", stop_sequence);
       (lit "usage", VDict [ (lit "input_tokens", input_tokens);
                             (lit "output_tokens", output_tokens) ]) ].

(** [response_raw], the preview structure [response_data] after the loop. *)
Definition response_data (response : value) : result value :=
  let? fields := response_fields response in
  let? content := attr response (lit "content") in
  let? blocks := iter content in
  let? entries := rmap response_block_entry blocks in
  Ok (VDict (fields ++ [ (lit "content", VList entries) ])).

(** [response_raw], the full structure [full_response]. *)
Definition full_response (response : value) : result value :=
  let? fields := response_fields response in
  let? content := attr response (lit "content") in
  let? serialized := _serialize_content content in
  Ok (VDict (fields ++ [ (lit "content", serialized) ])).

Definition response_raw (response : value) : M unit :=
  raw <- get_show_raw ;;
  if negb raw then ret tt
  else
    print (_color (NL :: [BOX_TL] ++ str_mul [BOX_H] 78 ++ [BOX_TR]) (lit "blue")) ;;
    print (_color ([BOX_V] ++ lit "  " ++ [ICON_INBOX] ++ lit " RAW API RESPONSE"
                     ++ str_mul (lit " ") 56 ++ [BOX_V]) (lit "blue")) ;;
    print (_color ([BOX_BL] ++ str_mul [BOX_H] 78 ++ [BOX_BR]) (lit "blue")) ;;
    data <- lift (response_data response) ;;
    _print_structured_json data (lit "Response Structure") ;;
    print (_color (NL :: lit "  " ++ [ICON_PAGE] ++ lit " Full Response JSON (copy-paste ready):")
             (lit "cyan")) ;;
    full <- lift (full_response response) ;;
    _print_code_block full.

(** ** Loop and message tracking *)

Definition loop_iteration (iteration : Z) : M unit :=
  v <- get_verbose ;;
  if negb v then ret tt
  else
    set_iteration iteration ;;
    print (_color (NL :: [BOX_TL] ++ str_mul [BOX_H] 78 ++ [BOX_TR]) (lit "cyan")) ;;
    print (_color ([BOX_V] ++ lit "  " ++ [ICON_LOOP] ++ lit " LOOP ITERATION #"
                     ++ ljust 62 (dec_Z iteration) ++ [BOX_V]) (lit "cyan")) ;;
    print (_color ([BOX_BL] ++ str_mul [BOX_H] 78 ++ [BOX_BR]) (lit "cyan")).

(** [role_color] of [messages_snapshot]. *)
Definition role_color (role : value) : str :=
  if eq_str role (lit "user") then lit "green"
  else if eq_str role (lit "assistant") then lit "yellow"
  else lit "white".

(** [messages_snapshot], the tag of one block of a [list] content. *)
Definition block_tag (b : value) : value :=
  match b with
  | VDict d => dict_get d (lit "type") (VStr (lit "unknown"))
  | _ => getattr b (lit "type") (VStr (lit "unknown"))
  end.

(** [messages_snapshot], the preview of a [str] content. *)
Definition snapshot_preview (content : str) : str :=
  firstn 60 content ++ (if 60 <? length content then lit "..." else []).

(** [messages_snapshot], the body of the message loop. *)
Definition snapshot_message (i : nat) (msg : value) : M unit :=
  role <- lift (get_method msg (lit "role") (VStr (lit "unknown"))) ;;
  content <- lift (get_method msg (lit "content") (VStr [])) ;;
  match content with
  | VStr s =>
      print (lit "    [" ++ dec_nat i ++ lit "] " ++ _color (to_str role) (role_color role)
               ++ lit ": " ++ _color (snapshot_preview s) (lit "dim"))
  | VList blocks =>
      let block_types := map block_tag blocks in
      print (lit "    [" ++ dec_nat i ++ lit "] " ++ _color (to_str role) (role_color role)
               ++ lit ": " ++ _color (to_str (VList block_types)) (lit "dim"))
  | _ => ret tt
  end.

Definition messages_snapshot (messages : list value) (title : str) : M unit :=
  v <- get_verbose ;;
  if negb v then ret tt
  else
    print (_color (NL :: lit "  " ++ [ICON_CLIPBOARD] ++ lit " " ++ title) (lit "blue")) ;;
    print (_color (lit "  Total messages: " ++ dec_nat (length messages)) (lit "dim")) ;;
    for_enumerate 0 messages snapshot_message.

(** ** Tool calls *)

(** [tool_call], the body of the loop over [input_data.items()]. *)
Definition tool_call_item (kv : str * value) : M unit :=
  let v_str := to_str (snd kv) in
  let v_str := if 60 <? length v_str then firstn 60 v_str ++ lit "..." else v_str in
  print (_color (lit "      " ++ fst kv ++ lit ": " ++ v_str) (lit "dim")).

(** [tool_call]; an omitted [tool_id] takes the default [""]. *)
Definition tool_call (name : str) (input_data : dict) (tool_id : option str) : M unit :=
  let tool_id := match tool_id with Some id => id | None => [] end in
  print (_color (NL :: lit "  " ++ [ICON_ZAP] ++ lit " TOOL CALL") (lit "green")) ;;
  match tool_id with
  | _ :: _ =>
      key_value (lit "id") (VStr (_color (firstn 24 tool_id ++ lit "...") (lit "dim")))
        4 (lit "green")
  | [] => ret tt
  end ;;
  key_value (lit "name") (VStr (_color name (lit "green"))) 4 (lit "green") ;;
  key_value (lit "input") (VStr []) 4 (lit "green") ;;
  for_each input_data tool_call_item.

Definition tool_result (tool_id : str) (content : str) (is_error : bool) : M unit :=
  let color := if is_error then lit "red" else lit "blue" in
  let icon := if is_error then ICON_CROSS else ICON_CHECK in
  print (_color (NL :: lit "  " ++ [icon] ++ lit " TOOL RESULT") color) ;;
  key_value (lit "tool_use_id") (VStr (firstn 24 tool_id ++ lit "...")) 4 color ;;
  let content_preview :=
    firstn 300 content ++ (if 300 <? length content then lit "..." else []) in
  key_value (lit "content") (VStr (_color ([34%N] ++ content_preview ++ [34%N]) (lit "dim")))
    4 color.

(** ** LLM interaction summaries *)

(** [llm_request_summary]; [now] is the clock reading [_timestamp] takes. *)
Definition llm_request_summary (now : datetime) (model : str)
    (messages_count tools_count : Z) : M unit :=
  v <- get_verbose ;;
  if negb v then ret tt
  else
    print (_color (NL :: lit "  " ++ [ICON_OUTBOX] ++ lit " LLM REQUEST SUMMARY") (lit "magenta")) ;;
    key_value (lit "model") (VStr model) 4 (lit "magenta") ;;
    key_value (lit "messages_count") (VStr (dec_Z messages_count)) 4 (lit "magenta") ;;
    key_value (lit "tools_count") (VStr (dec_Z tools_count)) 4 (lit "magenta") ;;
    key_value (lit "timestamp") (VStr (_timestamp now)) 4 (lit "magenta").

Definition llm_response_summary (stop_reason : str) (usage : dict)
    (content_blocks : Z) : M unit :=
  v <- get_verbose ;;
  if negb v then ret tt
  else
    print (_color (NL :: lit "  " ++ [ICON_INBOX] ++ lit " LLM RESPONSE SUMMARY") (lit "magenta")) ;;
    let stop_color := if str_eqb stop_reason (lit "tool_use") then lit "yellow" else lit "green" in
    key_value (lit "stop_reason") (VStr (_color stop_reason stop_color)) 4 (lit "magenta") ;;
    key_value (lit "content_blocks") (VStr (dec_Z content_blocks)) 4 (lit "magenta") ;;
    key_value (lit "usage")
      (VStr (lit "input=" ++ to_str (dict_get usage (lit "input_tokens") (VInt 0))
               ++ lit ", output=" ++ to_str (dict_get usage (lit "output_tokens") (VInt 0))))
      4 (lit "magenta").

(** [response_content_blocks], the body of the block loop. *)
Definition content_block_line (i : nat) (block : value) : M unit :=
  let field (name : str) (default : value) :=
    match block with
    | VDict d => dict_get d name default
    | _ => getattr block name default
    end in
  let block_type := field (lit "type") (VStr (lit "unknown")) in
  if eq_str block_type (lit "text") then
    let text := field (lit "text") (VStr []) in
    cut <- lift (slice_to 100 text) ;;
    n <- lift (len text) ;;
    text_preview <- lift (add_str cut (if 100 <? n then lit "..." else [])) ;;
    key_value (lit "Block [" ++ dec_nat i ++ lit "]")
      (VStr (lit "type=" ++ to_str block_type ++ lit ", text=" ++ [34%N]
               ++ to_str text_preview ++ [34%N]))
      4 (lit "yellow")
  else if eq_str block_type (lit "tool_use") then
    let name := field (lit "name") (VStr []) in
    key_value (lit "Block [" ++ dec_nat i ++ lit "]")
      (VStr (lit "type=" ++ to_str block_type ++ lit ", name=" ++ to_str name))
      4 (lit "yellow")
  else ret tt.

Definition response_content_blocks (content_blocks : list value) : M unit :=
  v <- get_verbose ;;
  if negb v then ret tt
  else
    section (lit "Response Content Blocks") [ICON_PACKAGE] ;;
    for_enumerate 0 content_blocks content_block_line.

Definition loop_end (reason : str) : M unit :=
  section ([ICON_FLAG] ++ lit " LOOP END: " ++ reason) [ICON_STOP].

Definition user_input (query : str) : M unit :=
  separator (lit "USER INPUT") default_char default_width ;;
  print (lit "  " ++ query).

(** The module-level default instance, [AgentLogger()]. *)
Definition _default_logger : AgentLogger := __init__ true true.

(** [get_logger] *)
Definition get_logger (verbose show_raw : bool) : AgentLogger :=
  __init__ verbose show_raw.


(** ** Observations on a run *)

(** An escape sequence of the terminal, written out: [esc "[2m"] is the
    text ["\033[2m"] that switches to dim, [esc "[0m"] the one that resets. *)
Definition esc (code : string) : str := 27%N :: lit code.

(** The line that [key_value] prints. *)
Definition key_value_line (key : str) (val : value) (indent : Z) (color : str) : str :=
  str_mul (lit " ") indent ++ _color (key ++ lit ":") color ++ lit " " ++ to_str val.

(** The line that [tool_call] prints for one input field. *)
Definition tool_call_item_line (kv : str * value) : str :=
  let v_str := to_str (snd kv) in
  _color (lit "      " ++ fst kv ++ lit ": "
            ++ (if 60 <? length v_str then firstn 60 v_str ++ lit "..." else v_str))
    (lit "dim").

(** The id line of [tool_call]: [key_value("id", ..., indent=4, color="green")]
    starts with this prefix, whatever the id. *)
Definition id_line_prefix : str :=
  lit "    " ++ _color (lit "id:") (lit "green") ++ lit " ".

Definition is_id_line (line : str) : bool := prefixb id_line_prefix line.

(** No line break occurs in a string. *)
Definition no_nl (s : str) : bool := forallb (fun c => negb (N.eqb c NL)) s.

(** A computation leaves the whole instance alone. *)
Definition keeps_self {A} (m : M A) : Prop :=
  forall w, self (exec m w) = self w.

(** The same keys with the same values, whatever the order of the keys. *)
Definition same_mapping (a b : value) : Prop :=
  match a, b with
  | VDict da, VDict db => forall k, dict_find k da = dict_find k db
  | _, _ => False
  end.

(** A block in attribute form, given as the mapping of its attributes. *)
Definition as_mapping (block : value) : value :=
  match block with
  | VObj _ _ _ attrs => VDict attrs
  | v => v
  end.

(** The summary token of a content block, after section 4.2 of the
    specification: a field is read from either form of block; where the
    specification leaves the token open (an id or a name that is not a
    string) there is none. *)
Definition block_field (block : value) (name : str) : option value :=
  match block with
  | VDict d => dict_find name d
  | VObj _ _ _ attrs => dict_find name attrs
  | _ => None
  end.






(** The lines that [_print_structured_json] prints. *)
Definition structured_json_lines (data : value) (title : str) : list str :=
  _color (NL :: lit "  " ++ [ICON_CHART] ++ lit " " ++ title ++ lit ":") (lit "cyan")
  :: match json_dumps data 4 with
     | Ok formatted =>
         map (fun line => _color (lit "    " ++ line) (lit "dim")) (split_on NL formatted)
     | Raise e => [_color (lit "    Error formatting: " ++ exn_str e) (lit "red")]
     end.

(** The lines that [_print_code_block] prints. *)
Definition code_block_lines (data : value) : list str :=
  match json_dumps data 2 with
  | Ok formatted =>
      [_color (lit "  " ++ [BOX_TL] ++ str_mul [BOX_H] 76 ++ [BOX_TR]) (lit "dim")]
        ++ map code_block_line (split_on NL formatted)
        ++ [_color (lit "  " ++ [BOX_BL] ++ str_mul [BOX_H] 76 ++ [BOX_BR]) (lit "dim")]
  | Raise e => [_color (lit "    Error: " ++ exn_str e) (lit "red")]
  end.

(** The three banner lines of [request_raw]. *)
Definition request_banner : list str :=
  [ _color (NL :: [BOX_TL] ++ str_mul [BOX_H] 78 ++ [BOX_TR]) (lit "magenta");
    _color ([BOX_V] ++ lit "  " ++ [ICON_OUTBOX] ++ lit " RAW API REQUEST"
              ++ str_mul (lit " ") 57 ++ [BOX_V]) (lit "magenta");
    _color ([BOX_BL] ++ str_mul [BOX_H] 78 ++ [BOX_BR]) (lit "magenta") ].

(** The heading that [request_raw] prints before the full dump. *)
Definition full_request_heading : str :=
  _color (NL :: lit "  " ++ [ICON_PAGE] ++ lit " Full Request JSON (copy-paste ready):")
    (lit "cyan").

(** The supported variants of a block in attribute form: the attributes a
    text block, respectively a tool-use block, carries. *)
Definition text_variant (attrs : dict) : Prop :=
  dict_find (lit "type") attrs = Some (VStr (lit "text"))
  /\ (exists text, dict_find (lit "text") attrs = Some text)
  /\ (forall k, k <> lit "type" -> k <> lit "text" -> dict_find k attrs = None).

Definition tool_use_variant (attrs : dict) : Prop :=
  dict_find (lit "type") attrs = Some (VStr (lit "tool_use"))
  /\ (exists id, dict_find (lit "id") attrs = Some id)
  /\ (exists name, dict_find (lit "name") attrs = Some name)
  /\ (exists input, dict_find (lit "input") attrs = Some (VDict input))
  /\ (forall k, k <> lit "type" -> k <> lit "id" -> k <> lit "name" -> k <> lit "input" ->
       dict_find k attrs = None).

(** ** Sample inputs *)

(** The value of a result, or a default when it raised. *)
Definition result_or {A} (default : A) (r : result A) : A :=
  match r with
  | Ok a => a
  | Raise _ => default
  end.

(** What the terminal receives: every printed line and its line break. *)
Definition stdout_text (out : list str) : str :=
  concat (map (fun line => line ++ [NL]) out).

Definition default_world : world := {| self := __init__ true true; stdout := [] |}.
Definition quiet_world : world := {| self := __init__ false true; stdout := [] |}.
Definition raw_off_world : world := {| self := __init__ true false; stdout := [] |}.

Definition sample_model : str := lit "claude-sonnet".
Definition sample_system : str := repeat 97%N 150.
Definition sample_id : str := lit "toolu_01".
Definition sample_long_id : str := lit "toolu_0123456789abcdefghij".
Definition sample_input : dict := [ (lit "path", VStr (lit "/tmp/x.txt")) ].
Definition sample_usage : dict :=
  [ (lit "input_tokens", VInt 12); (lit "output_tokens", VInt 34) ].
Definition sample_now : datetime :=
  {| hour := 9; minute := 5; second := 7; microsecond := 4567 |}.

Definition sample_text_attrs : dict :=
  [ (lit "type", VStr (lit "text")); (lit "text", VStr (lit "hello")) ].
Definition sample_tool_use_attrs : dict :=
  [ (lit "type", VStr (lit "tool_use"));
    (lit "id", VStr sample_id);
    (lit "name", VStr (lit "bash"));
    (lit "input", VDict [ (lit "command", VStr (lit "ls")) ]) ].
Definition sample_tool_result_attrs : dict :=
  [ (lit "type", VStr (lit "tool_result"));
    (lit "tool_use_id", VStr sample_long_id);
    (lit "content", VStr (lit "out")) ].

Definition sample_text_object : value :=
  VObj (lit "TextBlock") (lit "TextBlock()") (lit "TextBlock()") sample_text_attrs.
Definition sample_tool_use_object : value :=
  VObj (lit "ToolUseBlock") (lit "ToolUseBlock()") (lit "ToolUseBlock()")
    sample_tool_use_attrs.
Definition sample_tool_result_object : value :=
  VObj (lit "ToolResultBlock") (lit "ToolResultBlock()") (lit "ToolResultBlock()")
    sample_tool_result_attrs.

Definition sample_blocks : list value := [ sample_text_object; sample_tool_use_object ].

Definition sample_user_message : dict :=
  [ (lit "role", VStr (lit "user")); (lit "content", VStr (lit "hello")) ].

Definition sample_messages : list value :=
  [ VDict sample_user_message;
    VDict [ (lit "role", VStr (lit "assistant"));
            (lit "content", VList [ sample_tool_use_object ]) ];
    VDict [ (lit "role", VStr (lit "user"));
            (lit "content", VList [ VDict sample_tool_result_attrs ]) ] ].


Definition sample_tools : list value :=
  [ VDict [ (lit "name", VStr (lit "bash"));
            (lit "description", VStr (lit "Run a shell command."));
            (lit "input_schema", VDict []) ] ].

Definition sample_tools_summary : list value :=
  [ VDict [ (lit "name", VStr (lit "bash"));
            (lit "description", VStr (lit "Run a shell command....")) ] ].

Definition sample_tool_without_name : dict :=
  [ (lit "description", VStr (lit "Run a shell command.")) ].
Definition sample_tool_without_description : dict :=
  [ (lit "name", VStr (lit "bash")) ].
Definition sample_message_without_role : dict :=
  [ (lit "content", VStr (lit "hi")) ].

(** ** Further observations *)

(** The class of the first object a value holds, in the order in which
    [json.dumps] walks it: the elements of a list and the values of a
    mapping from first to last, depth first. *)
Fixpoint first_object_class (v : value) : option str :=
  match v with
  | VObj cls _ _ _ => Some cls
  | VList l =>
      fold_right (fun x rest =>
                    match first_object_class x with
                    | Some cls => Some cls
                    | None => rest
                    end) None l
  | VDict d =>
      fold_right (fun kv rest =>
                    match kv with
                    | (_, x) => match first_object_class x with
                                | Some cls => Some cls
                                | None => rest
                                end
                    end) None d
  | _ => None
  end.

(** A value holds an object somewhere, which is what [json.dumps] cannot
    encode. *)
Fixpoint has_object (v : value) : bool :=
  match v with
  | VObj _ _ _ _ => true
  | VList l => existsb has_object l
  | VDict d => existsb (fun kv => match kv with (_, x) => has_object x end) d
  | _ => false
  end.

(** A message that [messages_snapshot] gives a line: a mapping whose
    content is a string or a list. *)
Definition snapshot_shown (msg : value) : bool :=
  match msg with
  | VDict d =>
      match dict_get d (lit "content") (VStr []) with
      | VStr _ | VList _ => true
      | _ => false
      end
  | _ => false
  end.

(** A message that is already plain: a mapping of a role and a content,
    in that order, the content being a string or a list of mappings. *)
Definition plain_message (msg : value) : bool :=
  match msg with
  | VDict [ (k1, _); (k2, content) ] =>
      str_eqb k1 (lit "role") && str_eqb k2 (lit "content")
      && match content with
         | VStr _ => true
         | VList blocks => forallb is_dict blocks
         | _ => false
         end
  | _ => false
  end.

(** The three banner lines of [response_raw]. *)
Definition response_banner : list str :=
  [ _color (NL :: [BOX_TL] ++ str_mul [BOX_H] 78 ++ [BOX_TR]) (lit "blue");
    _color ([BOX_V] ++ lit "  " ++ [ICON_INBOX] ++ lit " RAW API RESPONSE"
              ++ str_mul (lit " ") 56 ++ [BOX_V]) (lit "blue");
    _color ([BOX_BL] ++ str_mul [BOX_H] 78 ++ [BOX_BR]) (lit "blue") ].

(** A field of a content block in either form, as
    [response_content_blocks] reads it. *)
Definition block_get (block : value) (name : str) (default : value) : value :=
  match block with
  | VDict d => dict_get d name default
  | _ => getattr block name default
  end.

(** The line [response_content_blocks] prints for the text block at
    position [i]: the label in yellow, then the type and the text between
    quotes, cut after 100 characters. *)
Definition text_block_line (i : nat) (text : str) : str :=
  lit "    " ++ esc "[33m" ++ (lit "Block [" ++ dec_nat i ++ lit "]:") ++ esc "[0m"
    ++ lit " type=text, text=" ++ [34%N]
    ++ (if 100 <? length text then firstn 100 text ++ lit "..." else text)
    ++ [34%N].

(** A block whose type tag is ["tool_use"]. *)
Definition is_tool_use (block : value) : bool :=
  eq_str (block_get block (lit "type") (VStr (lit "unknown"))) (lit "tool_use").

(** A block whose type tag is ["text"]. *)
Definition is_text (block : value) : bool :=
  eq_str (block_get block (lit "type") (VStr (lit "unknown"))) (lit "text").

(** A block that [response_content_blocks] gives a line: a text block or
    a tool-use block. *)
Definition block_shown (block : value) : bool := is_text block || is_tool_use block.

(** A block that [response_content_blocks] can render: any block that is
    not a text block, and a text block whose text is a string. *)
Definition text_is_str (block : value) : bool :=
  negb (is_text block) || is_str (block_get block (lit "text") (VStr [])).

(** A test holds for every number below a bound; it is run by counting up. *)
Definition all_below (test : N -> bool) (bound : N) : bool :=
  snd (N.iter bound (fun p => (N.succ (fst p), snd p && test (fst p))) (0%N, true)).

(** The six digits of a number of microseconds start with the three
    digits of its milliseconds. *)
Definition milliseconds_ok (m : N) : bool :=
  str_eqb (firstn 3 (zfill 6 (dec_N m))) (zfill 3 (dec_N (m / 1000)))
  && Nat.eqb (length (zfill 6 (dec_N m))) 6.

(** A number below 100 is written on two digits. *)
Definition two_digits_ok (m : N) : bool :=
  Nat.eqb (length (zfill 2 (dec_N m))) 2.

(** More sample inputs. *)
Definition sample_role_only : dict := [ (lit "role", VStr (lit "user")) ].
Definition sample_none_content : dict :=
  [ (lit "role", VStr (lit "user")); (lit "content", VNone) ].
Definition sample_untagged_object : value :=
  VObj (lit "Block") (lit "Block()") (lit "Block()") [ (lit "text", VStr (lit "x")) ].
Definition sample_untagged_mapping : dict := [ (lit "text", VStr (lit "x")) ].
Definition sample_tool : dict :=
  [ (lit "name", VStr (lit "bash"));
    (lit "description", VStr (lit "Run a shell command."));
    (lit "input_schema", VDict []) ].
Definition sample_tool_none_description : dict :=
  [ (lit "name", VStr (lit "bash")); (lit "description", VNone) ].
Definition sample_plain_messages : list value :=
  [ VDict sample_user_message;
    VDict [ (lit "role", VStr (lit "user"));
            (lit "content", VList [ VDict sample_tool_result_attrs ]) ] ].
Definition sample_short_system : str := lit "You are a coding agent.".

(** A text of 130 characters, a message and a text block that carry it. *)
Definition sample_long_text : str := repeat 98%N 130.
Definition sample_long_message : dict :=
  [ (lit "role", VStr (lit "assistant")); (lit "content", VStr sample_long_text) ].
Definition sample_long_text_block : dict :=
  [ (lit "type", VStr (lit "text")); (lit "text", VStr sample_long_text) ].

(** Blocks in both forms: a text block in attribute form, a tool-result
    block given as a mapping, and an object without a type. *)
Definition sample_mixed_blocks : list value :=
  [ sample_text_object; VDict sample_tool_result_attrs; sample_untagged_object ].
Definition sample_mixed_serialized : value :=
  VList [ VDict sample_text_attrs;
          VDict sample_tool_result_attrs;
          VDict [ (lit "type", VStr (lit "None")) ] ].

(** Data that [json.dumps] cannot encode: a mapping that holds an object. *)
Definition sample_unencodable : value :=
  VDict [ (lit "role", VStr (lit "assistant"));
          (lit "content", VList [ VDict sample_text_attrs; sample_tool_use_object ]) ].

(** A tool-use block whose input is a number: the preview does not read
    the input, the serializer cannot convert it. *)
Definition sample_bad_tool_use : value :=
  VObj (lit "ToolUseBlock") (lit "ToolUseBlock()") (lit "ToolUseBlock()")
    [ (lit "type", VStr (lit "tool_use"));
      (lit "id", VStr sample_id);
      (lit "name", VStr (lit "bash"));
      (lit "input", VInt 5) ].
Definition sample_bad_messages : list value :=
  [ VDict [ (lit "role", VStr (lit "assistant"));
            (lit "content", VList [ sample_bad_tool_use ]) ] ].

(** ** Strings and the monad: basic facts *)

Lemma str_eqb_eq : forall a b, str_eqb a b = true <-> a = b.
Proof.
  induction a as [|x a IH]; destruct b as [|y b]; simpl; split; intro H;
    try reflexivity; try discriminate.
  - apply andb_true_iff in H. destruct H as [Hxy Hab].
    apply N.eqb_eq in Hxy. apply IH in Hab. congruence.
  - inversion H; subst. rewrite N.eqb_refl. simpl. apply IH. reflexivity.
Qed.

Lemma str_eqb_refl : forall a, str_eqb a a = true.
Proof. intro a. apply str_eqb_eq. reflexivity. Qed.

Lemma str_eqb_neq : forall a b, a <> b -> str_eqb a b = false.
Proof.
  intros a b H. destruct (str_eqb a b) eqn:E; [|reflexivity].
  apply str_eqb_eq in E. contradiction.
Qed.

Lemma eq_str_true : forall v s, eq_str v s = true -> v = VStr s.
Proof.
  intros v s H. destruct v; try discriminate. cbn [eq_str] in H.
  apply str_eqb_eq in H. subst. reflexivity.
Qed.

Lemma dict_get_found : forall d k default v,
  dict_find k d = Some v -> dict_get d k default = v.
Proof. intros d k default v H. unfold dict_get. rewrite H. reflexivity. Qed.

Lemma dict_get_missing : forall d k default,
  dict_find k d = None -> dict_get d k default = default.
Proof. intros d k default H. unfold dict_get. rewrite H. reflexivity. Qed.

Lemma world_eta : forall w, {| self := self w; stdout := stdout w |} = w.
Proof. destruct w; reflexivity. Qed.

Lemma for_each_print : forall A (f : A -> str) (l : list A) w,
  for_each l (fun x => print (f x)) w
  = (Ok tt, {| self := self w; stdout := stdout w ++ map f l |}).
Proof.
  induction l as [|x l IH]; intro w; simpl.
  - unfold ret. rewrite app_nil_r, world_eta. reflexivity.
  - unfold bind, print at 1. rewrite IH. simpl. rewrite <- app_assoc. reflexivity.
Qed.

Lemma bind_print : forall B line (f : unit -> M B) w,
  bind (print line) f w = f tt {| self := self w; stdout := stdout w ++ [line] |}.
Proof. reflexivity. Qed.

Lemma bind_for_each_print : forall A B (g : A -> str) (l : list A) (f : unit -> M B) w,
  bind (for_each l (fun x => print (g x))) f w
  = f tt {| self := self w; stdout := stdout w ++ map g l |}.
Proof. intros A B g l f w. unfold bind. rewrite for_each_print. reflexivity. Qed.

Lemma bind_lift_ok : forall A B (a : A) (f : A -> M B) w,
  bind (lift (Ok a)) f w = f a w.
Proof. reflexivity. Qed.

Lemma bind_lift_raise : forall A B e (f : A -> M B) w,
  bind (lift (Raise e)) f w = (Raise e, w).
Proof. reflexivity. Qed.

Lemma bind_get_verbose : forall B (f : bool -> M B) w,
  bind get_verbose f w = f (verbose (self w)) w.
Proof. reflexivity. Qed.

Lemma bind_get_show_raw : forall B (f : bool -> M B) w,
  bind get_show_raw f w = f (show_raw (self w)) w.
Proof. reflexivity. Qed.

Lemma bind_ok : forall A B (m : M A) (f : A -> M B) w a w',
  m w = (Ok a, w') -> bind m f w = f a w'.
Proof. intros A B m f w a w' H. unfold bind. rewrite H. reflexivity. Qed.

Lemma key_value_run : forall key val indent color w,
  key_value key val indent color w
  = (Ok tt, {| self := self w; stdout := stdout w ++ [key_value_line key val indent color] |}).
Proof. reflexivity. Qed.

Lemma tool_call_item_run : forall kv w,
  tool_call_item kv w
  = (Ok tt, {| self := self w; stdout := stdout w ++ [tool_call_item_line kv] |}).
Proof. reflexivity. Qed.

Lemma for_each_tool_call_item : forall (l : dict) w,
  for_each l tool_call_item w
  = (Ok tt, {| self := self w; stdout := stdout w ++ map tool_call_item_line l |}).
Proof.
  induction l as [|x l IH]; intro w; simpl.
  - unfold ret. rewrite app_nil_r, world_eta. reflexivity.
  - unfold bind. rewrite tool_call_item_run, IH. simpl.
    rewrite <- app_assoc. reflexivity.
Qed.

(** What [tool_call] does, for every input: it returns normally, leaves
    the instance alone and prints the heading, the id line when the id is
    not empty, the name and input lines and one line per input field. *)
Lemma tool_call_run : forall name input_data tool_id w,
  tool_call name input_data tool_id w
  = (Ok tt,
     {| self := self w;
        stdout :=
          stdout w
            ++ [_color (NL :: lit "  " ++ [ICON_ZAP] ++ lit " TOOL CALL") (lit "green")]
            ++ match tool_id with
               | Some (c :: id) =>
                   [key_value_line (lit "id")
                      (VStr (_color (firstn 24 (c :: id) ++ lit "...") (lit "dim")))
                      4 (lit "green")]
               | _ => []
               end
            ++ [key_value_line (lit "name") (VStr (_color name (lit "green"))) 4 (lit "green");
                key_value_line (lit "input") (VStr []) 4 (lit "green")]
            ++ map tool_call_item_line input_data |}).
Proof.
  intros name input_data tool_id w. unfold tool_call.
  destruct tool_id as [[|c id]|];
    cbv beta iota zeta delta [bind print key_value ret];
    rewrite for_each_tool_call_item; simpl; rewrite <- !app_assoc; reflexivity.
Qed.

Lemma tool_result_run : forall tool_id content is_error w,
  tool_result tool_id content is_error w
  = (Ok tt,
     {| self := self w;
        stdout :=
          stdout w
            ++ [_color (NL :: lit "  " ++ [if is_error then ICON_CROSS else ICON_CHECK]
                          ++ lit " TOOL RESULT")
                  (if is_error then lit "red" else lit "blue");
                key_value_line (lit "tool_use_id") (VStr (firstn 24 tool_id ++ lit "..."))
                  4 (if is_error then lit "red" else lit "blue");
                key_value_line (lit "content")
                  (VStr (_color ([34%N] ++ firstn 300 content
                                   ++ (if 300 <? length content then lit "..." else [])
                                   ++ [34%N]) (lit "dim")))
                  4 (if is_error then lit "red" else lit "blue")] |}).
Proof.
  intros tool_id content is_error w.
  cbv beta iota zeta delta [tool_result bind print key_value ret].
  simpl. rewrite <- !app_assoc. reflexivity.
Qed.

(** ** The frame: what a renderer may write on the instance *)

Lemma keeps_ret : forall A (a : A), keeps_self (ret a).
Proof. intros A a w. reflexivity. Qed.

Lemma keeps_lift : forall A (r : result A), keeps_self (lift r).
Proof. intros A r w. reflexivity. Qed.

Lemma keeps_print : forall line, keeps_self (print line).
Proof. intros line w. reflexivity. Qed.

Lemma keeps_get_verbose : keeps_self get_verbose.
Proof. intro w. reflexivity. Qed.

Lemma keeps_get_show_raw : keeps_self get_show_raw.
Proof. intro w. reflexivity. Qed.

Lemma keeps_bind : forall A B (m : M A) (f : A -> M B),
  keeps_self m -> (forall a, keeps_self (f a)) -> keeps_self (bind m f).
Proof.
  intros A B m f Hm Hf w. unfold exec, bind.
  specialize (Hm w). unfold exec in Hm.
  destruct (m w) as [[a|e] w']; simpl in *.
  - rewrite <- Hm. apply Hf.
  - exact Hm.
Qed.

Lemma keeps_for_each : forall A (body : A -> M unit) (l : list A),
  (forall x, keeps_self (body x)) -> keeps_self (for_each l body).
Proof.
  intros A body l Hbody. induction l as [|x l IH]; simpl.
  - apply keeps_ret.
  - apply keeps_bind; [apply Hbody | intros _; exact IH].
Qed.

Lemma keeps_for_enumerate : forall A (body : nat -> A -> M unit) (l : list A) (i : nat),
  (forall j x, keeps_self (body j x)) -> keeps_self (for_enumerate i l body).
Proof.
  intros A body l. induction l as [|x l IH]; intros i Hbody; simpl.
  - apply keeps_ret.
  - apply keeps_bind; [apply Hbody | intros _; apply IH; exact Hbody].
Qed.

Create HintDb frame.

Ltac frame :=
  repeat first
    [ solve [auto with frame nocore]
    | apply keeps_ret | apply keeps_lift | apply keeps_print
    | apply keeps_get_verbose | apply keeps_get_show_raw
    | apply keeps_for_each | apply keeps_for_enumerate
    | apply keeps_bind
    | match goal with
      | |- forall _, _ => intro
      | |- keeps_self (if ?b then _ else _) => destruct b
      | |- keeps_self (match ?x with _ => _ end) => destruct x
      | |- keeps_self (let _ := _ in _) => cbv zeta
      end ].

Lemma keeps_separator : forall title char width, keeps_self (separator title char width).
Proof. intros. unfold separator. frame. Qed.

Lemma keeps_section : forall text icon, keeps_self (section text icon).
Proof. intros. unfold section. frame. Qed.

Lemma keeps_key_value : forall key val indent color,
  keeps_self (key_value key val indent color).
Proof. intros. unfold key_value. frame. Qed.

Lemma keeps_print_structured_json : forall data title,
  keeps_self (_print_structured_json data title).
Proof. intros. unfold _print_structured_json. frame. Qed.

Lemma keeps_print_code_block : forall data, keeps_self (_print_code_block data).
Proof. intros. unfold _print_code_block. frame. Qed.

#[local] Hint Resolve keeps_separator keeps_section keeps_key_value
  keeps_print_structured_json keeps_print_code_block : frame.

Lemma keeps_header : forall text session_name, keeps_self (header text session_name).
Proof. intros. unfold header. frame. Qed.

Lemma keeps_json_block : forall title data indent color,
  keeps_self (json_block title data indent color).
Proof. intros. unfold json_block. frame. Qed.

Lemma keeps_request_raw : forall model system messages tools max_tokens,
  keeps_self (request_raw model system messages tools max_tokens).
Proof. intros. unfold request_raw. frame. Qed.

Lemma keeps_response_raw : forall response, keeps_self (response_raw response).
Proof. intros. unfold response_raw. frame. Qed.

Lemma keeps_messages_snapshot : forall messages title,
  keeps_self (messages_snapshot messages title).
Proof. intros. unfold messages_snapshot, snapshot_message. frame. Qed.

Lemma keeps_tool_call : forall name input_data tool_id,
  keeps_self (tool_call name input_data tool_id).
Proof. intros name input_data tool_id w. unfold exec. rewrite tool_call_run. reflexivity. Qed.

Lemma keeps_tool_result : forall tool_id content is_error,
  keeps_self (tool_result tool_id content is_error).
Proof. intros tool_id content is_error w. unfold exec. rewrite tool_result_run. reflexivity. Qed.

Lemma keeps_llm_request_summary : forall now model messages_count tools_count,
  keeps_self (llm_request_summary now model messages_count tools_count).
Proof. intros. unfold llm_request_summary. frame. Qed.

Lemma keeps_llm_response_summary : forall stop_reason usage content_blocks,
  keeps_self (llm_response_summary stop_reason usage content_blocks).
Proof. intros. unfold llm_response_summary. frame. Qed.

Lemma keeps_response_content_blocks : forall content_blocks,
  keeps_self (response_content_blocks content_blocks).
Proof. intros. unfold response_content_blocks, content_block_line. frame. Qed.

Lemma keeps_loop_end : forall reason, keeps_self (loop_end reason).
Proof. intros. unfold loop_end. frame. Qed.

Lemma keeps_user_input : forall query, keeps_self (user_input query).
Proof. intros. unfold user_input. frame. Qed.

(** C9. Frame of the logger state.  [verbose] and [show_raw] are never
    assigned after construction: every renderer other than
    [loop_iteration] leaves the three fields of the instance as they were,
    on every input and also when it raises; [loop_iteration] leaves
    [verbose] and [show_raw] alone and is the one renderer that assigns
    [_iteration] (to its argument, when [verbose] is set). *)
Theorem logger_state_frame :
  forall (w : world),
    (forall title char width, self (exec (separator title char width) w) = self w)
    /\ (forall text session_name, self (exec (header text session_name) w) = self w)
    /\ (forall text icon, self (exec (section text icon) w) = self w)
    /\ (forall key val indent color, self (exec (key_value key val indent color) w) = self w)
    /\ (forall title data indent color,
          self (exec (json_block title data indent color) w) = self w)
    /\ (forall model system messages tools max_tokens,
          self (exec (request_raw model system messages tools max_tokens) w) = self w)
    /\ (forall response, self (exec (response_raw response) w) = self w)
    /\ (forall messages title, self (exec (messages_snapshot messages title) w) = self w)
    /\ (forall name input_data tool_id,
          self (exec (tool_call name input_data tool_id) w) = self w)
    /\ (forall tool_id content is_error,
          self (exec (tool_result tool_id content is_error) w) = self w)
    /\ (forall now model messages_count tools_count,
          self (exec (llm_request_summary now model messages_count tools_count) w) = self w)
    /\ (forall stop_reason usage content_blocks,
          self (exec (llm_response_summary stop_reason usage content_blocks) w) = self w)
    /\ (forall content_blocks, self (exec (response_content_blocks content_blocks) w) = self w)
    /\ (forall reason, self (exec (loop_end reason) w) = self w)
    /\ (forall query, self (exec (user_input query) w) = self w)
    /\ (forall iteration,
          verbose (self (exec (loop_iteration iteration) w)) = verbose (self w)
          /\ show_raw (self (exec (loop_iteration iteration) w)) = show_raw (self w)
          /\ _iteration (self (exec (loop_iteration iteration) w))
             = if verbose (self w) then iteration else _iteration (self w)).
Proof.
  intro w.
  repeat match goal with |- _ /\ _ => split end; intros.
  - apply keeps_separator.
  - apply keeps_header.
  - apply keeps_section.
  - apply keeps_key_value.
  - apply keeps_json_block.
  - apply keeps_request_raw.
  - apply keeps_response_raw.
  - apply keeps_messages_snapshot.
  - apply keeps_tool_call.
  - apply keeps_tool_result.
  - apply keeps_llm_request_summary.
  - apply keeps_llm_response_summary.
  - apply keeps_response_content_blocks.
  - apply keeps_loop_end.
  - apply keeps_user_input.
  - destruct w as [[v r i] out]; destruct v; repeat split; reflexivity.
Qed.

(** ** Gating by [verbose] and [show_raw] *)

Ltac run_gate w H :=
  destruct w as [[v r i] out]; simpl in H; subst; reflexivity.

Lemma header_prints : forall text session_name w,
  exists line more, stdout (exec (header text session_name) w) = stdout w ++ line :: more.
Proof.
  intros text session_name w. destruct session_name as [|c session_name];
    do 2 eexists; cbv beta iota zeta delta [header exec bind print ret snd];
    simpl; rewrite <- !app_assoc; reflexivity.
Qed.

Lemma tool_call_prints : forall name input_data tool_id w,
  exists line more,
    stdout (exec (tool_call name input_data tool_id) w) = stdout w ++ line :: more.
Proof.
  intros name input_data tool_id w. unfold exec. rewrite tool_call_run. simpl.
  do 2 eexists. reflexivity.
Qed.

Lemma tool_result_prints : forall tool_id content is_error w,
  exists line more,
    stdout (exec (tool_result tool_id content is_error) w) = stdout w ++ line :: more.
Proof.
  intros tool_id content is_error w. unfold exec. rewrite tool_result_run. simpl.
  do 2 eexists. reflexivity.
Qed.

Lemma user_input_prints : forall query w,
  exists line more, stdout (exec (user_input query) w) = stdout w ++ line :: more.
Proof.
  intros query w. destruct w as [[v r i] out]. destruct v;
    do 2 eexists; cbv beta iota zeta delta [user_input separator exec bind print ret
                                            get_verbose snd negb verbose self stdout];
    simpl; rewrite <- ?app_assoc; reflexivity.
Qed.

(** C2, as the code has it.  With [verbose] off, [section], [json_block],
    [loop_iteration], [messages_snapshot], [llm_request_summary],
    [llm_response_summary], [response_content_blocks] and [separator] print
    nothing; [header], [tool_call], [tool_result] and [user_input] still
    print at least one line; [loop_end] prints nothing, because it prints
    through [section]. *)
Theorem verbose_off_gating :
  forall (w : world) text icon title data indent color iteration messages mtitle
         now model messages_count tools_count stop_reason usage content_blocks blocks
         stitle char width htext session_name name input_data tool_id
         rid content is_error reason query,
    verbose (self w) = false ->
    stdout (exec (section text icon) w) = stdout w
    /\ stdout (exec (json_block title data indent color) w) = stdout w
    /\ stdout (exec (loop_iteration iteration) w) = stdout w
    /\ stdout (exec (messages_snapshot messages mtitle) w) = stdout w
    /\ stdout (exec (llm_request_summary now model messages_count tools_count) w) = stdout w
    /\ stdout (exec (llm_response_summary stop_reason usage content_blocks) w) = stdout w
    /\ stdout (exec (response_content_blocks blocks) w) = stdout w
    /\ stdout (exec (separator stitle char width) w) = stdout w
    /\ (exists line more,
          stdout (exec (header htext session_name) w) = stdout w ++ line :: more)
    /\ (exists line more,
          stdout (exec (tool_call name input_data tool_id) w) = stdout w ++ line :: more)
    /\ (exists line more,
          stdout (exec (tool_result rid content is_error) w) = stdout w ++ line :: more)
    /\ (exists line more,
          stdout (exec (user_input query) w) = stdout w ++ line :: more)
    /\ stdout (exec (loop_end reason) w) = stdout w.
Proof.
  intros w text icon title data indent color iteration messages mtitle
         now model messages_count tools_count stop_reason usage content_blocks blocks
         stitle char width htext session_name name input_data tool_id
         rid content is_error reason query H.
  repeat match goal with |- _ /\ _ => split end;
    try solve [run_gate w H].
  - apply header_prints.
  - apply tool_call_prints.
  - apply tool_result_prints.
  - apply user_input_prints.
Qed.

(** C5. With [show_raw] off, [request_raw] and [response_raw] return at
    once and print nothing, on every input; with [verbose] at its default,
    [tool_call], [tool_result], [loop_end] and [user_input] still print. *)
Theorem show_raw_off_gating :
  forall (w : world) model system messages tools max_tokens response
         name input_data tool_id rid content is_error reason query,
    show_raw (self w) = false ->
    verbose (self w) = true ->
    request_raw model system messages tools max_tokens w = (Ok tt, w)
    /\ response_raw response w = (Ok tt, w)
    /\ (exists line more,
          stdout (exec (tool_call name input_data tool_id) w) = stdout w ++ line :: more)
    /\ (exists line more,
          stdout (exec (tool_result rid content is_error) w) = stdout w ++ line :: more)
    /\ (exists line more,
          stdout (exec (loop_end reason) w) = stdout w ++ line :: more)
    /\ (exists line more,
          stdout (exec (user_input query) w) = stdout w ++ line :: more).
Proof.
  intros w model system messages tools max_tokens response
         name input_data tool_id rid content is_error reason query Hraw Hv.
  repeat match goal with |- _ /\ _ => split end.
  - destruct w as [[v r i] out]; simpl in Hraw; subst; reflexivity.
  - destruct w as [[v r i] out]; simpl in Hraw; subst; reflexivity.
  - apply tool_call_prints.
  - apply tool_result_prints.
  - destruct w as [[v r i] out]; simpl in Hv; subst.
    do 2 eexists. reflexivity.
  - apply user_input_prints.
Qed.

(** ** Identifiers in [tool_call] and [tool_result] *)

(** C7. The id that [tool_result] shows, whatever its length and also
    when it is empty, and a tool-use id that [tool_call] shows, which it
    does for every id but the empty one, appear as their first 24
    characters followed by an ellipsis: the second printed line is the
    label, then exactly that text (in dim for [tool_call]).  An id of at
    most 24 characters is therefore shown whole, then the ellipsis.
    Neither renderer raises, on any id. *)
Theorem id_display_24 :
  forall name input_data tool_id content is_error w,
    outcome (tool_call name input_data (Some tool_id)) w = Ok tt
    /\ outcome (tool_result tool_id content is_error) w = Ok tt
    /\ nth_error (stdout (exec (tool_result tool_id content is_error) w))
         (length (stdout w) + 1)
       = Some (lit "    " ++ esc (if is_error then "[31m" else "[34m")
                 ++ lit "tool_use_id:" ++ esc "[0m" ++ lit " "
                 ++ firstn 24 tool_id ++ lit "...")
    /\ (tool_id <> [] ->
        nth_error (stdout (exec (tool_call name input_data (Some tool_id)) w))
          (length (stdout w) + 1)
        = Some (lit "    " ++ esc "[32m" ++ lit "id:" ++ esc "[0m" ++ lit " "
                  ++ esc "[2m" ++ (firstn 24 tool_id ++ lit "...") ++ esc "[0m"))
    /\ (length tool_id <= 24 ->
        nth_error (stdout (exec (tool_result tool_id content is_error) w))
          (length (stdout w) + 1)
        = Some (lit "    " ++ esc (if is_error then "[31m" else "[34m")
                  ++ lit "tool_use_id:" ++ esc "[0m" ++ lit " "
                  ++ tool_id ++ lit "...")
        /\ (tool_id <> [] ->
            nth_error (stdout (exec (tool_call name input_data (Some tool_id)) w))
              (length (stdout w) + 1)
            = Some (lit "    " ++ esc "[32m" ++ lit "id:" ++ esc "[0m" ++ lit " "
                      ++ esc "[2m" ++ (tool_id ++ lit "...") ++ esc "[0m"))).
Proof.
  intros name input_data tool_id content is_error w.
  assert (Hresult :
    nth_error (stdout (exec (tool_result tool_id content is_error) w))
      (length (stdout w) + 1)
    = Some (lit "    " ++ esc (if is_error then "[31m" else "[34m")
              ++ lit "tool_use_id:" ++ esc "[0m" ++ lit " "
              ++ firstn 24 tool_id ++ lit "...")).
  { unfold exec. rewrite tool_result_run. cbn [snd stdout].
    rewrite nth_error_app2 by lia.
    replace (length (stdout w) + 1 - length (stdout w)) with 1 by lia.
    destruct is_error; reflexivity. }
  assert (Hcall : tool_id <> [] ->
    nth_error (stdout (exec (tool_call name input_data (Some tool_id)) w))
      (length (stdout w) + 1)
    = Some (lit "    " ++ esc "[32m" ++ lit "id:" ++ esc "[0m" ++ lit " "
              ++ esc "[2m" ++ (firstn 24 tool_id ++ lit "...") ++ esc "[0m")).
  { intro Hid. unfold exec. rewrite tool_call_run. cbn [snd stdout].
    destruct tool_id as [|c id]; [congruence|].
    rewrite nth_error_app2 by lia.
    replace (length (stdout w) + 1 - length (stdout w)) with 1 by lia.
    reflexivity. }
  unfold outcome. rewrite tool_call_run, tool_result_run. cbn [fst].
  split; [reflexivity|]. split; [reflexivity|].
  split; [exact Hresult|]. split; [exact Hcall|].
  intro Hlen. rewrite (firstn_all2 tool_id Hlen) in Hresult, Hcall.
  split; [exact Hresult | exact Hcall].
Qed.

Lemma no_id_line_among_items : forall (input_data : dict),
  filter is_id_line (map tool_call_item_line input_data) = [].
Proof.
  induction input_data as [|kv l IH]; simpl; [reflexivity|exact IH].
Qed.

(** C10. A call of [tool_call] without an id is the call with the empty
    id, and it prints no id line; a call with a non-empty id prints exactly
    one id line, the second line of its output. *)
Theorem tool_call_id_line :
  forall name input_data tool_id w,
    tool_id <> [] ->
    tool_call name input_data None w = tool_call name input_data (Some []) w
    /\ (exists lines,
          stdout (exec (tool_call name input_data (Some [])) w) = stdout w ++ lines
          /\ filter is_id_line lines = [])
    /\ (exists heading rest,
          stdout (exec (tool_call name input_data (Some tool_id)) w)
          = stdout w ++ heading :: key_value_line (lit "id")
                           (VStr (_color (firstn 24 tool_id ++ lit "...") (lit "dim")))
                           4 (lit "green") :: rest
          /\ filter is_id_line
               (heading :: key_value_line (lit "id")
                             (VStr (_color (firstn 24 tool_id ++ lit "...") (lit "dim")))
                             4 (lit "green") :: rest)
             = [key_value_line (lit "id")
                  (VStr (_color (firstn 24 tool_id ++ lit "...") (lit "dim")))
                  4 (lit "green")]).
Proof.
  intros name input_data tool_id w Hid.
  split; [reflexivity|]. unfold exec. rewrite !tool_call_run. cbn [snd stdout].
  split.
  - eexists. split; [reflexivity|].
    simpl. apply no_id_line_among_items.
  - destruct tool_id as [|c id]; [congruence|].
    do 2 eexists. split; [reflexivity|].
    simpl. rewrite no_id_line_among_items. reflexivity.
Qed.

(** ** The message snapshot *)

Lemma for_enumerate_app : forall A (body : nat -> A -> M unit) (l1 l2 : list A) i w,
  for_enumerate i (l1 ++ l2) body w
  = bind (for_enumerate i l1 body) (fun _ => for_enumerate (i + length l1) l2 body) w.
Proof.
  intros A body l1 l2. induction l1 as [|x l1 IH]; intros i w; simpl.
  - unfold bind, ret. rewrite Nat.add_0_r. reflexivity.
  - unfold bind. destruct (body i x w) as [[[]|e] w1]; [|reflexivity].
    rewrite IH. unfold bind.
    replace (S i + length l1) with (i + S (length l1)) by lia.
    reflexivity.
Qed.

Lemma snapshot_message_dict : forall i d w,
  exists lines,
    snapshot_message i (VDict d) w
    = (Ok tt, {| self := self w; stdout := stdout w ++ lines |})
    /\ length lines = length (filter snapshot_shown [VDict d]).
Proof.
  intros i d w. unfold snapshot_message. cbn [filter snapshot_shown get_method lift bind].
  destruct (dict_get d (lit "content") (VStr [])); cbn [print ret];
    try (exists []; rewrite app_nil_r, world_eta; split; reflexivity);
    eexists; split; reflexivity.
Qed.

Lemma snapshot_messages_dicts : forall pre i w,
  Forall (fun m => is_dict m = true) pre ->
  exists lines,
    for_enumerate i pre snapshot_message w
    = (Ok tt, {| self := self w; stdout := stdout w ++ lines |})
    /\ length lines = length (filter snapshot_shown pre).
Proof.
  induction pre as [|m pre IH]; intros i w Hpre; simpl.
  - exists []. unfold ret. rewrite app_nil_r, world_eta. split; reflexivity.
  - inversion Hpre as [|m' pre' Hm Hrest]; subst.
    destruct m; try discriminate.
    destruct (snapshot_message_dict i d w) as (l1 & E1 & Hl1).
    unfold bind. rewrite E1.
    destruct (IH (S i) {| self := self w; stdout := stdout w ++ l1 |} Hrest)
      as (l2 & E2 & Hl2).
    rewrite E2. cbn [self stdout]. exists (l1 ++ l2). split.
    + rewrite app_assoc. reflexivity.
    + rewrite length_app, Hl1, Hl2. cbn [filter].
      destruct (snapshot_shown (VDict d)); cbn [length]; lia.
Qed.

(** Whatever a loop of [snapshot_message] does, it only adds lines. *)
Lemma snapshot_messages_extend : forall post i w,
  exists lines,
    stdout (exec (for_enumerate i post snapshot_message) w) = stdout w ++ lines.
Proof.
  induction post as [|m post IH]; intros i w; simpl.
  - exists []. rewrite app_nil_r. reflexivity.
  - unfold exec, bind.
    assert (Hstep : exists l1, stdout (snd (snapshot_message i m w)) = stdout w ++ l1).
    { destruct m; try (exists []; rewrite app_nil_r; reflexivity).
      destruct (snapshot_message_dict i d w) as (l1 & E1 & _). rewrite E1.
      exists l1. reflexivity. }
    destruct Hstep as [l1 E1].
    destruct (snapshot_message i m w) as [[[]|e] w1]; cbn [snd] in *.
    + destruct (IH (S i) w1) as [l2 E2]. unfold exec in E2. rewrite E2, E1.
      exists (l1 ++ l2). rewrite app_assoc. reflexivity.
    + exists l1. exact E1.
Qed.

Lemma nth_error_middle : forall A (a : list A) (x : A) (b : list A) n,
  n = length a -> nth_error ((a ++ [x]) ++ b) n = Some x.
Proof.
  intros A a x b n Hn. subst n. rewrite <- app_assoc.
  rewrite nth_error_app2 by lia. rewrite Nat.sub_diag. reflexivity.
Qed.

(** A colored text followed by more text, with the escape sequences of
    the color table. *)
Lemma color_then : forall text color rest,
  _color text color ++ rest
  = colors_get COLORS color [] ++ text ++ colors_get COLORS (lit "reset") [] ++ rest.
Proof.
  intros text color rest. unfold _color. rewrite <- !app_assoc. reflexivity.
Qed.

(** C8. In [messages_snapshot], the line of a message whose content is a
    string is the line after the two heading lines and the lines of the
    earlier messages; it carries the position of the message, its role in
    the color of the role, and, in dim, the first 60 characters of the
    content and an ellipsis when the content is longer than 60 characters,
    and the content itself, with no ellipsis, when it has at most 60. *)
Theorem snapshot_preview_60 :
  forall pre d s post title w,
    verbose (self w) = true ->
    Forall (fun m => is_dict m = true) pre ->
    dict_find (lit "content") d = Some (VStr s) ->
    nth_error (stdout (exec (messages_snapshot (pre ++ VDict d :: post) title) w))
      (length (stdout w) + 2 + length (filter snapshot_shown pre))
    = Some (lit "    [" ++ dec_nat (length pre) ++ lit "] "
              ++ esc (if eq_str (dict_get d (lit "role") (VStr (lit "unknown"))) (lit "user")
                      then "[32m"
                      else if eq_str (dict_get d (lit "role") (VStr (lit "unknown")))
                                (lit "assistant")
                           then "[33m" else "[37m")
              ++ to_str (dict_get d (lit "role") (VStr (lit "unknown")))
              ++ esc "[0m" ++ lit ": "
              ++ esc "[2m"
              ++ (if 60 <? length s then firstn 60 s ++ lit "..." else s)
              ++ esc "[0m").
Proof.
  intros pre d s post title w Hv Hpre Hcontent.
  destruct w as [[v r it] out]. simpl in Hv. subst v.
  unfold messages_snapshot, exec.
  cbn [bind get_verbose print negb verbose self stdout snd].
  rewrite for_enumerate_app. unfold bind at 1.
  match goal with
  | |- context [for_enumerate 0 pre snapshot_message ?w0] =>
      destruct (snapshot_messages_dicts pre 0 w0 Hpre) as (l1 & E1 & Hl1)
  end.
  rewrite E1. cbn [for_enumerate self stdout].
  unfold bind at 1. unfold snapshot_message at 1.
  cbn [get_method lift bind]. rewrite (@dict_get_found _ _ (VStr []) _ Hcontent).
  cbn [print self stdout].
  match goal with
  | |- context [for_enumerate ?i post snapshot_message ?w0] =>
      destruct (snapshot_messages_extend post i w0) as [l2 E2]
  end.
  unfold exec in E2. rewrite E2. cbn [stdout].
  assert (Hp : snapshot_preview s = if 60 <? length s then firstn 60 s ++ lit "..." else s).
  { unfold snapshot_preview. destruct (60 <? length s) eqn:E; [reflexivity|].
    apply Nat.ltb_ge in E. rewrite firstn_all2 by exact E. apply app_nil_r. }
  rewrite Hp.
  etransitivity;
    [apply nth_error_middle; rewrite !length_app; cbn [length]; lia|].
  f_equal. rewrite color_then. unfold role_color.
  destruct (eq_str (dict_get d (lit "role") (VStr (lit "unknown"))) (lit "user"));
    [reflexivity|].
  destruct (eq_str (dict_get d (lit "role") (VStr (lit "unknown"))) (lit "assistant"));
    reflexivity.
Qed.

(** ** The request preview *)

Lemma print_structured_json_run : forall data title w,
  _print_structured_json data title w
  = (Ok tt, {| self := self w; stdout := stdout w ++ structured_json_lines data title |}).
Proof.
  intros data title w. unfold _print_structured_json, structured_json_lines.
  cbn [bind print]. destruct (json_dumps data 4) as [formatted|e].
  - rewrite for_each_print. cbn [self stdout]. rewrite <- app_assoc. reflexivity.
  - unfold print. cbn [self stdout]. rewrite <- app_assoc. reflexivity.
Qed.

Lemma print_code_block_run : forall data w,
  _print_code_block data w
  = (Ok tt, {| self := self w; stdout := stdout w ++ code_block_lines data |}).
Proof.
  intros data w. unfold _print_code_block, code_block_lines.
  destruct (json_dumps data 2) as [formatted|e]; [|reflexivity].
  rewrite bind_print, bind_for_each_print. unfold print. cbn [self stdout].
  rewrite <- !app_assoc. reflexivity.
Qed.

(** [request_raw] up to the preview: once [request_data] is built, the
    banner and the preview are on standard output, whatever follows. *)
Lemma request_raw_preview : forall model system messages tools max_tokens data w,
  show_raw (self w) = true ->
  request_data model system messages tools max_tokens = Ok data ->
  exists more,
    stdout (exec (request_raw model system messages tools max_tokens) w)
    = stdout w ++ request_banner ++ structured_json_lines data (lit "Request Structure")
        ++ more.
Proof.
  intros model system messages tools max_tokens data w Hraw Hdata.
  unfold request_raw, exec.
  rewrite bind_get_show_raw, Hraw. cbn [negb].
  rewrite !bind_print, Hdata, bind_lift_ok.
  erewrite bind_ok by apply print_structured_json_run.
  rewrite bind_print. cbn [self stdout].
  destruct (full_request model system messages tools max_tokens) as [full|e].
  - rewrite bind_lift_ok, print_code_block_run. cbn [snd self stdout].
    exists ([full_request_heading] ++ code_block_lines full).
    unfold request_banner. rewrite <- !app_assoc. reflexivity.
  - rewrite bind_lift_raise. cbn [snd self stdout].
    exists [full_request_heading].
    unfold request_banner. rewrite <- !app_assoc. reflexivity.
Qed.

(** [request_raw] to its end, when both structures can be built. *)
Lemma request_raw_run : forall model system messages tools max_tokens data full w,
  show_raw (self w) = true ->
  request_data model system messages tools max_tokens = Ok data ->
  full_request model system messages tools max_tokens = Ok full ->
  request_raw model system messages tools max_tokens w
  = (Ok tt,
     {| self := self w;
        stdout := stdout w ++ request_banner
                    ++ structured_json_lines data (lit "Request Structure")
                    ++ [full_request_heading] ++ code_block_lines full |}).
Proof.
  intros model system messages tools max_tokens data full w Hraw Hdata Hfull.
  unfold request_raw.
  rewrite bind_get_show_raw, Hraw. cbn [negb].
  rewrite !bind_print, Hdata, bind_lift_ok.
  erewrite bind_ok by apply print_structured_json_run.
  rewrite bind_print, Hfull, bind_lift_ok, print_code_block_run. cbn [self stdout].
  unfold request_banner, full_request_heading. rewrite <- !app_assoc. reflexivity.
Qed.

(** [request_raw] stops where [request_data] raises. *)
Lemma request_raw_raises : forall model system messages tools max_tokens e w,
  show_raw (self w) = true ->
  request_data model system messages tools max_tokens = Raise e ->
  request_raw model system messages tools max_tokens w
  = (Raise e, {| self := self w; stdout := stdout w ++ request_banner |}).
Proof.
  intros model system messages tools max_tokens e w Hraw Hdata.
  unfold request_raw.
  rewrite bind_get_show_raw, Hraw. cbn [negb].
  rewrite !bind_print, Hdata, bind_lift_raise. cbn [self stdout].
  unfold request_banner. rewrite <- !app_assoc. reflexivity.
Qed.






(** ** Missing fields in [request_raw] *)

(** C1, at the inputs where it fails.  With [show_raw] set, [request_raw]
    raises [KeyError] on a tool mapping without ["name"], on a tool mapping
    without ["description"] and on a message mapping without ["role"]: the
    three are read by subscription, with no default.  [_serialize_messages]
    reads the role the same way. *)
Theorem request_raw_missing_field_raises :
  forall model system messages tools max_tokens tools_summary dn dd dr name w,
    show_raw (self w) = true ->
    dict_find (lit "name") dn = None ->
    dict_find (lit "name") dd = Some name ->
    dict_find (lit "description") dd = None ->
    dict_find (lit "role") dr = None ->
    rmap tool_summary tools = Ok tools_summary ->
    outcome (request_raw model system messages (VDict dn :: tools) max_tokens) w
      = Raise (KeyError (lit "name"))
    /\ outcome (request_raw model system messages (VDict dd :: tools) max_tokens) w
      = Raise (KeyError (lit "description"))
    /\ outcome (request_raw model system (VDict dr :: messages) tools max_tokens) w
      = Raise (KeyError (lit "role"))
    /\ _serialize_messages (VDict dr :: messages) = Raise (KeyError (lit "role")).
Proof.
  intros model system messages tools max_tokens tools_summary dn dd dr name w
         Hraw Hdn Hdd1 Hdd2 Hdr Htools.
  unfold outcome.
  repeat match goal with |- _ /\ _ => split end.
  - rewrite (request_raw_raises model system messages (VDict dn :: tools) max_tokens
               (KeyError (lit "name")) w Hraw); [reflexivity|].
    unfold request_data. cbn [rmap]. unfold tool_summary at 1. cbn [getitem].
    rewrite Hdn. reflexivity.
  - rewrite (request_raw_raises model system messages (VDict dd :: tools) max_tokens
               (KeyError (lit "description")) w Hraw); [reflexivity|].
    unfold request_data. cbn [rmap]. unfold tool_summary at 1. cbn [getitem].
    rewrite Hdd1, Hdd2. reflexivity.
  - rewrite (request_raw_raises model system (VDict dr :: messages) tools max_tokens
               (KeyError (lit "role")) w Hraw); [reflexivity|].
    unfold request_data. rewrite Htools.
    cbn [rbind rmap]. unfold message_entry at 1. cbn [getitem]. rewrite Hdr. reflexivity.
  - unfold _serialize_messages. cbn [rmap]. unfold serialize_message at 1.
    cbn [getitem]. rewrite Hdr. reflexivity.
Qed.

(** The sibling path: [messages_snapshot] reads the role with a default
    and prints a message without ["role"] under the role ["unknown"]. *)
Lemma snapshot_message_missing_role : forall i d s w,
  dict_find (lit "role") d = None ->
  dict_find (lit "content") d = Some (VStr s) ->
  snapshot_message i (VDict d) w
  = (Ok tt,
     {| self := self w;
        stdout := stdout w
          ++ [ lit "    [" ++ dec_nat i ++ lit "] " ++ _color (lit "unknown") (lit "white")
                 ++ lit ": " ++ _color (snapshot_preview s) (lit "dim") ] |}).
Proof.
  intros i d s w Hrole Hcontent. unfold snapshot_message.
  cbn [get_method]. rewrite !bind_lift_ok.
  rewrite (dict_get_missing d (lit "role") (VStr (lit "unknown")) Hrole).
  rewrite (dict_get_found d (lit "content") (VStr []) (VStr s) Hcontent).
  reflexivity.
Qed.

(** ** Representation independence of the serializer *)

Lemma serialize_text_object : forall cls s r attrs,
  dict_find (lit "type") attrs = Some (VStr (lit "text")) ->
  serialize_block (VObj cls s r attrs)
  = Ok (VDict [ (lit "type", VStr (lit "text"));
                (lit "text", getattr (VObj cls s r attrs) (lit "text") (VStr [])) ]).
Proof.
  intros cls s r attrs H. unfold serialize_block. cbn [is_dict getattr].
  rewrite H. reflexivity.
Qed.

Lemma serialize_tool_use_object : forall cls s r attrs input,
  dict_find (lit "type") attrs = Some (VStr (lit "tool_use")) ->
  dict_find (lit "input") attrs = Some (VDict input) ->
  serialize_block (VObj cls s r attrs)
  = Ok (VDict [ (lit "type", VStr (lit "tool_use"));
                (lit "id", getattr (VObj cls s r attrs) (lit "id") (VStr []));
                (lit "name", getattr (VObj cls s r attrs) (lit "name") (VStr []));
                (lit "input", VDict input) ]).
Proof.
  intros cls s r attrs input H Hin. unfold serialize_block. cbn [is_dict getattr].
  rewrite H, Hin. reflexivity.
Qed.

Lemma serialize_other_object : forall cls s r attrs tag,
  dict_find (lit "type") attrs = Some (VStr tag) ->
  tag <> lit "text" -> tag <> lit "tool_use" ->
  serialize_block (VObj cls s r attrs) = Ok (VDict [ (lit "type", VStr tag) ]).
Proof.
  intros cls s r attrs tag H Ht Hu. unfold serialize_block. cbn [is_dict getattr].
  rewrite H. cbn [eq_str]. rewrite (str_eqb_neq _ _ Ht), (str_eqb_neq _ _ Hu). reflexivity.
Qed.

Lemma same_mapping_text : forall attrs text,
  dict_find (lit "type") attrs = Some (VStr (lit "text")) ->
  dict_find (lit "text") attrs = Some text ->
  (forall k, k <> lit "type" -> k <> lit "text" -> dict_find k attrs = None) ->
  same_mapping (VDict [ (lit "type", VStr (lit "text")); (lit "text", text) ]) (VDict attrs).
Proof.
  intros attrs text Htype Htext Hrest k. cbn [dict_find].
  destruct (str_eqb k (lit "type")) eqn:E1.
  { apply str_eqb_eq in E1. subst k. symmetry. exact Htype. }
  destruct (str_eqb k (lit "text")) eqn:E2.
  { apply str_eqb_eq in E2. subst k. symmetry. exact Htext. }
  symmetry. apply Hrest; intro Hk; subst k.
  - rewrite str_eqb_refl in E1. discriminate.
  - rewrite str_eqb_refl in E2. discriminate.
Qed.

Lemma same_mapping_tool_use : forall attrs id name input,
  dict_find (lit "type") attrs = Some (VStr (lit "tool_use")) ->
  dict_find (lit "id") attrs = Some id ->
  dict_find (lit "name") attrs = Some name ->
  dict_find (lit "input") attrs = Some input ->
  (forall k, k <> lit "type" -> k <> lit "id" -> k <> lit "name" -> k <> lit "input" ->
     dict_find k attrs = None) ->
  same_mapping
    (VDict [ (lit "type", VStr (lit "tool_use")); (lit "id", id);
             (lit "name", name); (lit "input", input) ])
    (VDict attrs).
Proof.
  intros attrs id name input Htype Hid Hname Hinput Hrest k. cbn [dict_find].
  destruct (str_eqb k (lit "type")) eqn:E1.
  { apply str_eqb_eq in E1. subst k. symmetry. exact Htype. }
  destruct (str_eqb k (lit "id")) eqn:E2.
  { apply str_eqb_eq in E2. subst k. symmetry. exact Hid. }
  destruct (str_eqb k (lit "name")) eqn:E3.
  { apply str_eqb_eq in E3. subst k. symmetry. exact Hname. }
  destruct (str_eqb k (lit "input")) eqn:E4.
  { apply str_eqb_eq in E4. subst k. symmetry. exact Hinput. }
  symmetry. apply Hrest; intro Hk; subst k.
  - rewrite str_eqb_refl in E1. discriminate.
  - rewrite str_eqb_refl in E2. discriminate.
  - rewrite str_eqb_refl in E3. discriminate.
  - rewrite str_eqb_refl in E4. discriminate.
Qed.

(** C3, as the code has it.  For the text and the tool-use variant, a
    block in attribute form serializes to a mapping with the keys and
    values of the same block given as a mapping.  A tool-result block in
    attribute form does not: it serializes to its type tag alone, while the
    mapping form passes through with all its fields. *)
Theorem serialize_representation :
  forall cls s r attrs cls' s' r' attrs',
    text_variant attrs \/ tool_use_variant attrs ->
    dict_find (lit "type") attrs' = Some (VStr (lit "tool_result")) ->
    (exists a b,
        _serialize_content (VList [VObj cls s r attrs]) = Ok (VList [a])
        /\ _serialize_content (VList [as_mapping (VObj cls s r attrs)]) = Ok (VList [b])
        /\ same_mapping a b)
    /\ _serialize_content (VList [VObj cls' s' r' attrs'])
       = Ok (VList [VDict [ (lit "type", VStr (lit "tool_result")) ]])
    /\ _serialize_content (VList [as_mapping (VObj cls' s' r' attrs')])
       = Ok (VList [VDict attrs']).
Proof.
  intros cls s r attrs cls' s' r' attrs' Hvariant Hresult.
  unfold _serialize_content. cbn [iter rbind rmap as_mapping].
  split; [|split].
  - destruct Hvariant as [(Htype & (text & Htext) & Hrest)
                         | (Htype & (id & Hid) & (name & Hname) & (input & Hinput) & Hrest)].
    + rewrite (serialize_text_object cls s r attrs Htype).
      do 2 eexists. split; [reflexivity|]. split; [reflexivity|].
      cbn [getattr]. rewrite Htext.
      apply same_mapping_text; assumption.
    + rewrite (serialize_tool_use_object cls s r attrs input Htype Hinput).
      do 2 eexists. split; [reflexivity|]. split; [reflexivity|].
      cbn [getattr]. rewrite Hid, Hname.
      apply same_mapping_tool_use; assumption.
  - rewrite (serialize_other_object cls' s' r' attrs' (lit "tool_result") Hresult).
    + reflexivity.
    + intro H. vm_compute in H. discriminate.
    + intro H. vm_compute in H. discriminate.
  - reflexivity.
Qed.

(** ** Lines of the JSON text *)

Lemma split_on_not_nil : forall c s, split_on c s <> [].
Proof.
  intros c s. destruct s as [|x s]; simpl; [discriminate|].
  destruct (N.eqb x c); [discriminate|].
  destruct (split_on c s); discriminate.
Qed.

Lemma split_on_nl : forall b, split_on NL (NL :: b) = [] :: split_on NL b.
Proof. reflexivity. Qed.

Lemma split_on_nl_app : forall a b,
  split_on NL ((NL :: a) ++ b) = [] :: split_on NL (a ++ b).
Proof. reflexivity. Qed.

Lemma split_on_app_no_nl : forall a b,
  no_nl a = true ->
  split_on NL (a ++ b)
  = match split_on NL b with
    | [] => [a]
    | l :: ls => (a ++ l) :: ls
    end.
Proof.
  induction a as [|x a IH]; intros b Ha.
  - simpl. destruct (split_on NL b) eqn:E; [|reflexivity].
    exfalso. exact (split_on_not_nil NL b E).
  - unfold no_nl in Ha. simpl in Ha. apply andb_true_iff in Ha. destruct Ha as [Hx Ha].
    apply negb_true_iff in Hx. simpl. rewrite Hx. rewrite (IH b Ha).
    destruct (split_on NL b); reflexivity.
Qed.

Lemma no_nl_app : forall a b, no_nl a = true -> no_nl b = true -> no_nl (a ++ b) = true.
Proof.
  intros a b Ha Hb. unfold no_nl in *. rewrite forallb_app.
  apply andb_true_iff. split; assumption.
Qed.

Lemma hex_digit_not_nl : forall n, negb (N.eqb (hex_digit n) NL) = true.
Proof.
  intro n. apply negb_true_iff, N.eqb_neq. unfold hex_digit, NL.
  destruct (n <? 10)%N; lia.
Qed.

Lemma json_escape_char_no_nl : forall c, no_nl (json_escape_char c) = true.
Proof.
  intro c. unfold json_escape_char.
  repeat match goal with
         | |- context [if ?b then _ else _] => destruct b eqn:?
         end; try reflexivity.
  - unfold no_nl. cbn [lit String.list_ascii_of_string map app forallb].
    rewrite !hex_digit_not_nl. reflexivity.
  - unfold no_nl, NL. cbn [forallb].
    match goal with H : N.eqb c 10 = false |- _ => rewrite H end. reflexivity.
Qed.

Lemma no_nl_escaped : forall s, no_nl (flat_map json_escape_char s) = true.
Proof.
  induction s as [|c s IH]; [reflexivity|]. cbn [flat_map].
  apply no_nl_app; [apply json_escape_char_no_nl | exact IH].
Qed.

Lemma no_nl_json_string : forall s, no_nl (json_string s) = true.
Proof.
  intro s. unfold json_string.
  apply no_nl_app; [reflexivity|]. apply no_nl_app; [apply no_nl_escaped|reflexivity].
Qed.

Lemma no_nl_digits : forall u, no_nl (digits u) = true.
Proof. induction u; simpl; auto. Qed.

Lemma no_nl_dec_Z : forall z, no_nl (dec_Z z) = true.
Proof.
  intro z. unfold dec_Z, dec_N. destruct (z <? 0)%Z; [|apply no_nl_digits].
  change (no_nl ([45%N] ++ digits (N.to_uint (Z.abs_N z))) = true).
  apply no_nl_app; [reflexivity|apply no_nl_digits].
Qed.

Lemma no_nl_spaces : forall z, no_nl (str_mul [SPACE] z) = true.
Proof.
  intro z. unfold str_mul. induction (Z.to_nat z) as [|n IH]; [reflexivity|].
  cbn [repeat concat]. apply no_nl_app; [reflexivity|exact IH].
Qed.

Ltac no_nl :=
  first [ apply no_nl_json_string | apply no_nl_dec_Z | apply no_nl_spaces
        | vm_compute; reflexivity ].

Ltac split_lines :=
  repeat first [ rewrite split_on_nl_app
               | rewrite split_on_nl
               | rewrite split_on_app_no_nl by no_nl ];
  cbn beta iota.

Opaque lit json_string dec_Z str_mul.

(** The first lines of the JSON text of a request structure: the opening
    brace, then one line per field for [model], [max_tokens] and [system],
    each indented by one step and closed by a comma. *)
Lemma request_json_lines : forall indent model max_tokens system tools messages text,
  json_dumps (VDict [ (lit "model", VStr model);
                      (lit "max_tokens", VInt max_tokens);
                      (lit "system", VStr system);
                      (lit "tools", tools);
                      (lit "messages", messages) ]) indent = Ok text ->
  exists more,
    split_on NL text
    = lit "{"
      :: (str_mul [SPACE] (indent * 1) ++ json_string (lit "model") ++ lit ": "
            ++ json_string model ++ lit ",")
      :: (str_mul [SPACE] (indent * 1) ++ json_string (lit "max_tokens") ++ lit ": "
            ++ dec_Z max_tokens ++ lit ",")
      :: (str_mul [SPACE] (indent * 1) ++ json_string (lit "system") ++ lit ": "
            ++ json_string system ++ lit ",")
      :: more.
Proof.
  intros indent model max_tokens system tools messages text H.
  unfold json_dumps in H. cbn [json_encode rbind] in H.
  destruct (json_encode indent 1 tools) as [y4|]; [|discriminate].
  destruct (json_encode indent 1 messages) as [y5|]; [|discriminate].
  cbn [rbind join] in H. injection H as H. subst text.
  unfold newline_indent. change (Z.of_nat 1) with 1%Z.
  rewrite <- !app_assoc.
  split_lines. rewrite !app_nil_r.
  eexists. reflexivity.
Qed.

Transparent lit json_string dec_Z str_mul.

(** ** The framed code block *)

Lemma json_escape_char_length : forall c, 1 <= length (json_escape_char c).
Proof.
  intro c. unfold json_escape_char.
  repeat match goal with
         | |- context [if ?b then _ else _] => destruct b
         end; simpl; lia.
Qed.

Lemma escaped_length : forall s, length s <= length (flat_map json_escape_char s).
Proof.
  induction s as [|c s IH]; [reflexivity|]. cbn [flat_map length].
  rewrite length_app. pose proof (json_escape_char_length c). lia.
Qed.

Lemma prefixb_length : forall p s, prefixb p s = true -> length p <= length s.
Proof.
  induction p as [|x p IH]; intros s H; simpl; [lia|].
  destruct s as [|y s]; simpl in H; [discriminate|].
  apply andb_true_iff in H. destruct H as [_ H]. apply IH in H. simpl. lia.
Qed.

Lemma infixb_length : forall p s, infixb p s = true -> length p <= length s.
Proof.
  intros p s. induction s as [|y s IH]; intro H; simpl in H.
  - apply orb_true_iff in H. destruct H as [H|H]; [|discriminate].
    apply prefixb_length in H. exact H.
  - apply orb_true_iff in H. destruct H as [H|H].
    + apply prefixb_length in H. exact H.
    + apply IH in H. simpl. lia.
Qed.

Ltac lit_lengths :=
  repeat match goal with
         | |- context [length (lit ?s)] =>
             let n := eval vm_compute in (length (lit s)) in
             change (length (lit s)) with n
         end;
  cbn [length].

Lemma color_dim_length : forall x, length (_color x (lit "dim")) = length x + 8.
Proof.
  intro x. unfold _color.
  change (colors_get COLORS (lit "dim") []) with (ESC :: lit "[2m").
  change (colors_get COLORS (lit "reset") []) with (ESC :: lit "[0m").
  rewrite !length_app. simpl. lia.
Qed.

(** Every framed line of the code block is 88 characters long: the color
    codes, the frame, and 74 characters of text. *)
Lemma code_block_line_length : forall line, length (code_block_line line) = 88.
Proof.
  intro line. unfold code_block_line, ljust. rewrite color_dim_length.
  destruct (74 <? length line) eqn:E.
  - apply Nat.ltb_lt in E.
    repeat first [rewrite length_app | rewrite repeat_length | rewrite length_firstn].
    rewrite !Nat.min_l by lia. lit_lengths. lia.
  - apply Nat.ltb_ge in E.
    repeat first [rewrite length_app | rewrite repeat_length].
    lit_lengths. lia.
Qed.

Lemma code_block_border_length :
  length (_color (lit "  " ++ [BOX_TL] ++ str_mul [BOX_H] 76 ++ [BOX_TR]) (lit "dim")) = 88
  /\ length (_color (lit "  " ++ [BOX_BL] ++ str_mul [BOX_H] 76 ++ [BOX_BR]) (lit "dim")) = 88.
Proof. split; reflexivity. Qed.

(** In the code block, the line of a [system] field of at least 60
    characters is longer than 74 characters and is cut after the 71st. *)
Lemma code_block_system_line : forall system,
  60 <= length system ->
  code_block_line (lit "  " ++ json_string (lit "system") ++ lit ": "
                     ++ json_string system ++ lit ",")
  = _color (lit "  " ++ [BOX_V] ++ lit " "
              ++ ((lit "  " ++ json_string (lit "system") ++ lit ": " ++ [34%N])
                    ++ firstn 58 (flat_map json_escape_char system) ++ lit "...")
              ++ lit " " ++ [BOX_V])
      (lit "dim").
Proof.
  intros system Hlen.
  pose proof (escaped_length system) as Hesc.
  set (E := flat_map json_escape_char system) in *.
  set (P := lit "  " ++ json_string (lit "system") ++ lit ": " ++ [34%N]).
  assert (HP : length P = 13) by reflexivity.
  assert (HL : lit "  " ++ json_string (lit "system") ++ lit ": "
                 ++ json_string system ++ lit ","
               = P ++ E ++ ([34%N] ++ lit ",")).
  { unfold P, json_string at 2. fold E. rewrite <- !app_assoc. reflexivity. }
  rewrite HL. unfold code_block_line.
  assert (Hlong : (74 <? length (P ++ E ++ [34%N] ++ lit ",")) = true).
  { apply Nat.ltb_lt. rewrite !length_app, HP. lit_lengths. lia. }
  rewrite Hlong.
  rewrite firstn_app, HP. rewrite (firstn_all2 (n := 71) P) by (rewrite HP; lia).
  change (71 - 13) with 58.
  rewrite firstn_app. replace (58 - length E) with 0 by lia.
  rewrite firstn_0, app_nil_r.
  unfold ljust.
  replace (74 - length ((P ++ firstn 58 E) ++ lit "...")) with 0.
  2:{ rewrite !length_app, HP, firstn_length_le by lia. lit_lengths. lia. }
  cbn [repeat]. rewrite app_nil_r. rewrite <- !app_assoc. reflexivity.
Qed.

(** ** A system prompt of 150 characters *)

(** C4, as the code has it.  For a system prompt of 150 characters, in a
    call of [request_raw] that builds and encodes both structures: the
    preview shows the system field as the first 100 characters and an
    ellipsis; the full structure holds the whole prompt, and its JSON text
    has the whole prompt on its fourth line; but the code block prints that
    line cut to 71 characters and an ellipsis, that is the first 58
    characters of the escaped prompt, and no line of the code block
    contains the prompt. *)
Theorem request_raw_system_150 :
  forall model system messages tools max_tokens data preview full dump w,
    show_raw (self w) = true ->
    length system = 150 ->
    request_data model system messages tools max_tokens = Ok data ->
    json_dumps data 4 = Ok preview ->
    full_request model system messages tools max_tokens = Ok full ->
    json_dumps full 2 = Ok dump ->
    request_raw model system messages tools max_tokens w
      = (Ok tt,
         {| self := self w;
            stdout :=
              stdout w ++ request_banner
                ++ [_color (NL :: lit "  " ++ [ICON_CHART] ++ lit " Request Structure:")
                      (lit "cyan")]
                ++ map (fun line => _color (lit "    " ++ line) (lit "dim"))
                     (split_on NL preview)
                ++ [full_request_heading]
                ++ [_color (lit "  " ++ [BOX_TL] ++ str_mul [BOX_H] 76 ++ [BOX_TR])
                      (lit "dim")]
                ++ map code_block_line (split_on NL dump)
                ++ [_color (lit "  " ++ [BOX_BL] ++ str_mul [BOX_H] 76 ++ [BOX_BR])
                      (lit "dim")] |})
    /\ nth_error (split_on NL preview) 3
       = Some (lit "    " ++ json_string (lit "system") ++ lit ": "
                 ++ json_string (firstn 100 system ++ lit "...") ++ lit ",")
    /\ block_field full (lit "system") = Some (VStr system)
    /\ nth_error (split_on NL dump) 3
       = Some (lit "  " ++ json_string (lit "system") ++ lit ": "
                 ++ json_string system ++ lit ",")
    /\ nth_error (map code_block_line (split_on NL dump)) 3
       = Some (_color (lit "  " ++ [BOX_V] ++ lit " "
                         ++ ((lit "  " ++ json_string (lit "system") ++ lit ": " ++ [34%N])
                               ++ firstn 58 (flat_map json_escape_char system)
                               ++ lit "...")
                         ++ lit " " ++ [BOX_V])
                 (lit "dim"))
    /\ (forall line, In line (code_block_lines full) -> infixb system line = false).
Proof.
  intros model system messages tools max_tokens data preview full dump w
         Hraw Hlen Hdata Hpreview Hfull Hdump.
  assert (Hd : exists tools_summary entries,
             data = VDict [ (lit "model", VStr model);
                            (lit "max_tokens", VInt max_tokens);
                            (lit "system", VStr (firstn 100 system ++ lit "..."));
                            (lit "tools", VList tools_summary);
                            (lit "messages", VList entries) ]).
  { unfold request_data in Hdata. rewrite Hlen in Hdata.
    change (100 <? 150) with true in Hdata. cbv zeta in Hdata.
    destruct (rmap tool_summary tools) as [ts|]; [|discriminate].
    destruct (rmap message_entry messages) as [es|]; [|discriminate].
    cbn [rbind] in Hdata. injection Hdata as Hdata. exists ts, es.
    subst data. reflexivity. }
  assert (Hf : exists serialized,
             full = VDict [ (lit "model", VStr model);
                            (lit "max_tokens", VInt max_tokens);
                            (lit "system", VStr system);
                            (lit "tools", VList tools);
                            (lit "messages", serialized) ]).
  { unfold full_request in Hfull.
    destruct (_serialize_messages messages) as [ser|]; [|discriminate].
    cbn [rbind] in Hfull. injection Hfull as Hfull. exists ser.
    subst full. reflexivity. }
  destruct Hd as (ts & es & Hd). destruct Hf as (ser & Hf).
  assert (Hp3 : nth_error (split_on NL preview) 3
                = Some (lit "    " ++ json_string (lit "system") ++ lit ": "
                          ++ json_string (firstn 100 system ++ lit "...") ++ lit ",")).
  { rewrite Hd in Hpreview.
    destruct (request_json_lines 4 model max_tokens (firstn 100 system ++ lit "...")
                (VList ts) (VList es) preview Hpreview) as [more Hlines].
    rewrite Hlines. reflexivity. }
  assert (Hd3 : nth_error (split_on NL dump) 3
                = Some (lit "  " ++ json_string (lit "system") ++ lit ": "
                          ++ json_string system ++ lit ",")).
  { rewrite Hf in Hdump.
    destruct (request_json_lines 2 model max_tokens system
                (VList tools) ser dump Hdump) as [more Hlines].
    rewrite Hlines. reflexivity. }
  repeat match goal with |- _ /\ _ => split end.
  - rewrite (request_raw_run model system messages tools max_tokens data full w
               Hraw Hdata Hfull).
    unfold structured_json_lines, code_block_lines. rewrite Hpreview, Hdump.
    reflexivity.
  - exact Hp3.
  - rewrite Hf. reflexivity.
  - exact Hd3.
  - rewrite nth_error_map, Hd3. cbn [option_map].
    rewrite code_block_system_line by lia. reflexivity.
  - intros line Hin. unfold code_block_lines in Hin. rewrite Hdump in Hin.
    assert (Hl : length line = 88).
    { apply in_app_or in Hin. destruct Hin as [Hin|Hin].
      - destruct Hin as [Hin|[]]. subst line. apply code_block_border_length.
      - apply in_app_or in Hin. destruct Hin as [Hin|Hin].
        + apply in_map_iff in Hin. destruct Hin as (l & Hl & _). subst line.
          apply code_block_line_length.
        + destruct Hin as [Hin|[]]. subst line. apply code_block_border_length. }
    destruct (infixb system line) eqn:E; [|reflexivity].
    apply infixb_length in E. lia.
Qed.

(** ** What [json.dumps] can encode *)

Lemma value_nested_ind : forall (P : value -> Prop),
  P VNone ->
  (forall b, P (VBool b)) ->
  (forall z, P (VInt z)) ->
  (forall s, P (VStr s)) ->
  (forall l, Forall P l -> P (VList l)) ->
  (forall d, Forall (fun kv => P (snd kv)) d -> P (VDict d)) ->
  (forall cls s r attrs, P (VObj cls s r attrs)) ->
  forall v, P v.
Proof.
  intros P Hnone Hbool Hint Hstr Hlist Hdict Hobj.
  fix IH 1. intro v. destruct v as [| b | z | s | l | d | cls s r attrs].
  - exact Hnone.
  - apply Hbool.
  - apply Hint.
  - apply Hstr.
  - apply Hlist.
    exact ((fix all (l : list value) : Forall P l :=
              match l with
              | [] => Forall_nil P
              | x :: r => Forall_cons x (IH x) (all r)
              end) l).
  - apply Hdict.
    exact ((fix all (d : list (str * value)) : Forall (fun kv => P (snd kv)) d :=
              match d with
              | [] => Forall_nil _
              | kv :: r => Forall_cons kv (IH (snd kv)) (all r)
              end) d).
  - apply Hobj.
Qed.

(** [json.dumps] returns a text exactly for the values that hold no
    object, at every indentation and depth. *)
Lemma json_encode_ok_iff : forall v indent level,
  (exists text, json_encode indent level v = Ok text) <-> has_object v = false.
Proof.
  intro v. induction v as [| b | z | s | l IHl | d IHd | cls s r attrs]
    using value_nested_ind; intros indent level.
  - split; [reflexivity | intros _; eexists; reflexivity].
  - split; [reflexivity | intros _; destruct b; eexists; reflexivity].
  - split; [reflexivity | intros _; eexists; reflexivity].
  - split; [reflexivity | intros _; eexists; reflexivity].
  - destruct l as [|x l]; [split; [reflexivity | intros _; eexists; reflexivity]|].
    cbn [json_encode has_object].
    set (each := fix each (l : list value) : result (list str) :=
                   match l with
                   | [] => Ok []
                   | x :: r =>
                       let? y := json_encode indent (S level) x in
                       let? ys := each r in Ok (y :: ys)
                   end).
    assert (Heach : forall l', Forall
                      (fun v => forall indent level,
                         (exists text, json_encode indent level v = Ok text)
                         <-> has_object v = false) l' ->
                    ((exists items, each l' = Ok items) <-> existsb has_object l' = false)).
    { induction l' as [|y l' IH]; intro Hall.
      - split; [reflexivity | intros _; eexists; reflexivity].
      - inversion Hall as [|y' l'' Hy Hrest]; subst.
        cbn [existsb]. unfold each; fold each.
        specialize (Hy indent (S level)). specialize (IH Hrest).
        destruct (json_encode indent (S level) y) as [ty|e].
        + assert (Hyf : has_object y = false) by (apply Hy; eexists; reflexivity).
          rewrite Hyf. cbn [rbind orb].
          destruct (each l') as [ys|e].
          * split; [intros _; apply IH; eexists; reflexivity
                   | intros _; eexists; reflexivity].
          * split; [intros [items Hi]; discriminate Hi|].
            intro Hf. apply IH in Hf. destruct Hf as [items Hi]. discriminate Hi.
        + cbn [rbind]. split; [intros [items Hi]; discriminate Hi|].
          intro Hf. apply orb_false_iff in Hf. destruct Hf as [Hf _].
          apply Hy in Hf. destruct Hf as [t Ht]. discriminate Ht. }
    specialize (Heach (x :: l) IHl).
    change (let? y := json_encode indent (S level) x in
            let? ys := each l in Ok (y :: ys)) with (each (x :: l)).
    destruct (each (x :: l)) as [items|e]; cbn [rbind].
    + split; [intros _; apply Heach; eexists; reflexivity
             | intros _; eexists; reflexivity].
    + split; [intros [t Ht]; discriminate Ht|].
      intro Hf. apply Heach in Hf. destruct Hf as [items Hi]. discriminate Hi.
  - destruct d as [|kv d]; [split; [reflexivity | intros _; eexists; reflexivity]|].
    cbn [json_encode has_object].
    set (each := fix each (d : list (str * value)) : result (list str) :=
                   match d with
                   | [] => Ok []
                   | (k, x) :: r =>
                       let? y := json_encode indent (S level) x in
                       let? ys := each r in
                       Ok ((json_string k ++ lit ": " ++ y) :: ys)
                   end).
    assert (Heach : forall d', Forall
                      (fun kv => forall indent level,
                         (exists text, json_encode indent level (snd kv) = Ok text)
                         <-> has_object (snd kv) = false) d' ->
                    ((exists items, each d' = Ok items)
                     <-> existsb (fun kv => match kv with (_, x) => has_object x end) d'
                         = false)).
    { induction d' as [|[k y] d' IH]; intro Hall.
      - split; [reflexivity | intros _; eexists; reflexivity].
      - inversion Hall as [|y' d'' Hy Hrest]; subst. cbn [snd] in Hy.
        cbn [existsb]. unfold each; fold each.
        specialize (Hy indent (S level)). specialize (IH Hrest).
        destruct (json_encode indent (S level) y) as [ty|e].
        + assert (Hyf : has_object y = false) by (apply Hy; eexists; reflexivity).
          rewrite Hyf. cbn [rbind orb].
          destruct (each d') as [ys|e].
          * split; [intros _; apply IH; eexists; reflexivity
                   | intros _; eexists; reflexivity].
          * split; [intros [items Hi]; discriminate Hi|].
            intro Hf. apply IH in Hf. destruct Hf as [items Hi]. discriminate Hi.
        + cbn [rbind]. split; [intros [items Hi]; discriminate Hi|].
          intro Hf. apply orb_false_iff in Hf. destruct Hf as [Hf _].
          apply Hy in Hf. destruct Hf as [t Ht]. discriminate Ht. }
    specialize (Heach (kv :: d) IHd).
    destruct kv as [k0 x0].
    change (let? y := json_encode indent (S level) x0 in
            let? ys := each d in Ok ((json_string k0 ++ lit ": " ++ y) :: ys))
      with (each ((k0, x0) :: d)).
    destruct (each ((k0, x0) :: d)) as [items|e]; cbn [rbind].
    + split; [intros _; apply Heach; eexists; reflexivity
             | intros _; eexists; reflexivity].
    + split; [intros [t Ht]; discriminate Ht|].
      intro Hf. apply Heach in Hf. destruct Hf as [items Hi]. discriminate Hi.
  - split; [intros [t Ht]; discriminate Ht | discriminate].
Qed.

(** The encoder fails on the first object it meets and names its class;
    it returns a text when it meets none. *)
Lemma json_encode_first_object : forall v indent level,
  match first_object_class v with
  | Some cls =>
      json_encode indent level v
      = Raise (TypeError (lit "Object of type " ++ cls ++ lit " is not JSON serializable"))
  | None => exists text, json_encode indent level v = Ok text
  end.
Proof.
  intro v. induction v as [| b | z | s | l IHl | d IHd | cls s r attrs]
    using value_nested_ind; intros indent level.
  - eexists; reflexivity.
  - destruct b; eexists; reflexivity.
  - eexists; reflexivity.
  - eexists; reflexivity.
  - destruct l as [|x l]; [eexists; reflexivity|].
    cbn [json_encode first_object_class].
    set (each := fix each (l : list value) : result (list str) :=
                   match l with
                   | [] => Ok []
                   | x :: r =>
                       let? y := json_encode indent (S level) x in
                       let? ys := each r in Ok (y :: ys)
                   end).
    set (first := fun (x : value) (rest : option str) =>
                    match first_object_class x with
                    | Some cls => Some cls
                    | None => rest
                    end).
    assert (Heach : forall l',
              Forall (fun v => forall indent level,
                        match first_object_class v with
                        | Some cls =>
                            json_encode indent level v
                            = Raise (TypeError (lit "Object of type " ++ cls
                                                  ++ lit " is not JSON serializable"))
                        | None => exists text, json_encode indent level v = Ok text
                        end) l' ->
              match fold_right first None l' with
              | Some cls =>
                  each l' = Raise (TypeError (lit "Object of type " ++ cls
                                                ++ lit " is not JSON serializable"))
              | None => exists items, each l' = Ok items
              end).
    { induction l' as [|y l' IH]; intro Hall.
      - eexists; reflexivity.
      - inversion Hall as [|y' l'' Hy Hrest]; subst.
        cbn [fold_right]. unfold first at 1. unfold each; fold each.
        specialize (Hy indent (S level)). specialize (IH Hrest).
        destruct (first_object_class y) as [cls|].
        + rewrite Hy. reflexivity.
        + destruct Hy as [ty Hy]. rewrite Hy. cbn [rbind].
          destruct (fold_right first None l') as [cls|].
          * rewrite IH. reflexivity.
          * destruct IH as [items Hi]. rewrite Hi. eexists; reflexivity. }
    specialize (Heach (x :: l) IHl).
    change (let? y := json_encode indent (S level) x in
            let? ys := each l in Ok (y :: ys)) with (each (x :: l)).
    destruct (fold_right first None (x :: l)) as [cls|].
    + rewrite Heach. reflexivity.
    + destruct Heach as [items Hi]. rewrite Hi. eexists; reflexivity.
  - destruct d as [|kv d]; [eexists; reflexivity|].
    cbn [json_encode first_object_class].
    set (each := fix each (d : list (str * value)) : result (list str) :=
                   match d with
                   | [] => Ok []
                   | (k, x) :: r =>
                       let? y := json_encode indent (S level) x in
                       let? ys := each r in
                       Ok ((json_string k ++ lit ": " ++ y) :: ys)
                   end).
    set (first := fun (kv : str * value) (rest : option str) =>
                    match kv with
                    | (_, x) => match first_object_class x with
                                | Some cls => Some cls
                                | None => rest
                                end
                    end).
    assert (Heach : forall d',
              Forall (fun kv => forall indent level,
                        match first_object_class (snd kv) with
                        | Some cls =>
                            json_encode indent level (snd kv)
                            = Raise (TypeError (lit "Object of type " ++ cls
                                                  ++ lit " is not JSON serializable"))
                        | None => exists text, json_encode indent level (snd kv) = Ok text
                        end) d' ->
              match fold_right first None d' with
              | Some cls =>
                  each d' = Raise (TypeError (lit "Object of type " ++ cls
                                                ++ lit " is not JSON serializable"))
              | None => exists items, each d' = Ok items
              end).
    { induction d' as [|[k y] d' IH]; intro Hall.
      - eexists; reflexivity.
      - inversion Hall as [|y' d'' Hy Hrest]; subst. cbn [snd] in Hy.
        cbn [fold_right]. unfold first at 1. unfold each; fold each.
        specialize (Hy indent (S level)). specialize (IH Hrest).
        destruct (first_object_class y) as [cls|].
        + rewrite Hy. reflexivity.
        + destruct Hy as [ty Hy]. rewrite Hy. cbn [rbind].
          destruct (fold_right first None d') as [cls|].
          * rewrite IH. reflexivity.
          * destruct IH as [items Hi]. rewrite Hi. eexists; reflexivity. }
    specialize (Heach (kv :: d) IHd).
    destruct kv as [k0 x0].
    change (let? y := json_encode indent (S level) x0 in
            let? ys := each d in Ok ((json_string k0 ++ lit ": " ++ y) :: ys))
      with (each ((k0, x0) :: d)).
    destruct (fold_right first None ((k0, x0) :: d)) as [cls|].
    + rewrite Heach. reflexivity.
    + destruct Heach as [items Hi]. rewrite Hi. eexists; reflexivity.
  - reflexivity.
Qed.

(** X1. The error of the JSON encoder never leaves the three renderers
    that encode: for data that holds an object, [json.dumps] raises the
    [TypeError] that names the class of the first object it meets, at
    every indentation, and [json_block], [_print_structured_json] and
    [_print_code_block] still return normally.  The last two print the
    message of the error, in red, in place of the JSON text:
    [_print_structured_json] after its title line, [_print_code_block] as
    its only line, without the box. *)
Theorem encoder_error_is_caught :
  forall data cls title indent color w,
    first_object_class data = Some cls ->
    (forall n,
       json_dumps data n
       = Raise (TypeError (lit "Object of type " ++ cls ++ lit " is not JSON serializable")))
    /\ outcome (json_block title data indent color) w = Ok tt
    /\ outcome (_print_structured_json data title) w = Ok tt
    /\ outcome (_print_code_block data) w = Ok tt
    /\ stdout (exec (_print_structured_json data title) w)
       = stdout w
           ++ [ esc "[36m" ++ (NL :: lit "  " ++ [ICON_CHART] ++ lit " " ++ title ++ lit ":")
                  ++ esc "[0m";
                esc "[31m"
                  ++ (lit "    Error formatting: "
                        ++ lit "Object of type " ++ cls ++ lit " is not JSON serializable")
                  ++ esc "[0m" ]
    /\ stdout (exec (_print_code_block data) w)
       = stdout w
           ++ [ esc "[31m"
                  ++ (lit "    Error: "
                        ++ lit "Object of type " ++ cls ++ lit " is not JSON serializable")
                  ++ esc "[0m" ].
Proof.
  intros data cls title indent color w Hcls.
  assert (Hdumps : forall n,
            json_dumps data n
            = Raise (TypeError (lit "Object of type " ++ cls
                                  ++ lit " is not JSON serializable"))).
  { intro n. unfold json_dumps.
    pose proof (json_encode_first_object data n 0) as H. rewrite Hcls in H. exact H. }
  split; [exact Hdumps|].
  split.
  { unfold outcome, json_block. unfold bind at 1. unfold get_verbose.
    destruct (negb (verbose (self w))); [reflexivity|].
    cbv zeta. rewrite bind_print, Hdumps. reflexivity. }
  unfold outcome, exec.
  rewrite print_structured_json_run, print_code_block_run.
  unfold structured_json_lines, code_block_lines. rewrite !Hdumps.
  cbn [fst snd stdout exn_str].
  repeat split.
Qed.

(** X2. With [verbose] set, [json_block] prints its title line and then
    the JSON text of the data, one printed line per line of the text,
    exactly when the data holds no object; when it holds one, the encoder
    fails and the block falls back to a single line with [str(data)]. *)
Theorem json_block_fallback :
  forall title data indent color w,
    verbose (self w) = true ->
    if has_object data
    then stdout (exec (json_block title data indent color) w)
         = stdout w
             ++ [ str_mul (lit " ") indent ++ _color (title ++ lit ":") color;
                  _color (str_mul (lit " ") indent ++ lit "  " ++ to_str data) (lit "dim") ]
    else exists formatted,
           json_dumps data (indent + 2) = Ok formatted
           /\ stdout (exec (json_block title data indent color) w)
              = stdout w
                  ++ (str_mul (lit " ") indent ++ _color (title ++ lit ":") color)
                  :: map (fun line =>
                            _color (str_mul (lit " ") indent ++ lit "  " ++ line) (lit "dim"))
                       (split_on NL formatted).
Proof.
  intros title data indent color w Hv.
  unfold json_block, exec. rewrite bind_get_verbose, Hv. cbn [negb].
  cbv zeta. rewrite bind_print.
  destruct (has_object data) eqn:Hobj.
  - destruct (json_dumps data (indent + 2)) as [formatted|e] eqn:E.
    + assert (Hf : has_object data = false).
      { apply (json_encode_ok_iff data (indent + 2) 0). exists formatted. exact E. }
      congruence.
    + unfold print. cbn [snd self stdout]. rewrite <- app_assoc. reflexivity.
  - destruct (proj2 (json_encode_ok_iff data (indent + 2) 0) Hobj) as [formatted E].
    exists formatted. split; [exact E|].
    unfold json_dumps. rewrite E. rewrite for_each_print. cbn [snd self stdout].
    rewrite <- app_assoc. reflexivity.
Qed.

(** X3. The code block is a box of fixed width.  When the data holds no
    object, [_print_code_block] prints, in dim, the top border, one framed
    line per line of the JSON text and the bottom border; a framed line
    carries the JSON line followed by spaces up to 74 columns, or, for a
    JSON line longer than 74 characters, its first 71 characters and an
    ellipsis; every printed line has the same 88 characters.  When the
    data holds an object it prints a single line instead, the message of
    the encoder's error in red. *)
Theorem code_block_aligned :
  forall data w,
    if has_object data
    then exists e,
           json_dumps data 2 = Raise e
           /\ stdout (exec (_print_code_block data) w)
              = stdout w ++ [esc "[31m" ++ (lit "    Error: " ++ exn_str e) ++ esc "[0m"]
    else exists dump lines,
           json_dumps data 2 = Ok dump
           /\ stdout (exec (_print_code_block data) w) = stdout w ++ lines
           /\ lines
              = [esc "[2m" ++ (lit "  " ++ [BOX_TL] ++ repeat BOX_H 76 ++ [BOX_TR])
                   ++ esc "[0m"]
                  ++ map (fun line =>
                            esc "[2m"
                              ++ (lit "  " ++ [BOX_V] ++ lit " "
                                    ++ (if 74 <? length line
                                        then firstn 71 line ++ lit "..."
                                        else line ++ repeat SPACE (74 - length line))
                                    ++ lit " " ++ [BOX_V])
                              ++ esc "[0m")
                       (split_on NL dump)
                  ++ [esc "[2m" ++ (lit "  " ++ [BOX_BL] ++ repeat BOX_H 76 ++ [BOX_BR])
                        ++ esc "[0m"]
           /\ Forall (fun line => length line = 88) lines.
Proof.
  intros data w. unfold exec. rewrite print_code_block_run. cbn [snd stdout].
  unfold code_block_lines.
  destruct (has_object data) eqn:Hobj.
  - destruct (json_dumps data 2) as [dump|e] eqn:E.
    + assert (Hf : has_object data = false).
      { apply (json_encode_ok_iff data 2 0). exists dump. exact E. }
      congruence.
    + exists e. split; reflexivity.
  - destruct (proj2 (json_encode_ok_iff data 2 0) Hobj) as [dump E].
    unfold json_dumps. rewrite E. exists dump. eexists.
    split; [reflexivity|]. split; [reflexivity|]. split.
    + f_equal. f_equal. apply map_ext. intro line.
      unfold code_block_line, ljust.
      destruct (74 <? length line) eqn:Hlong; [|reflexivity].
      apply Nat.ltb_lt in Hlong.
      assert (Hcut : length (firstn 71 line ++ lit "...") = 74).
      { rewrite length_app, length_firstn, Nat.min_l by lia. reflexivity. }
      rewrite Hcut, Nat.sub_diag. cbn [repeat]. rewrite app_nil_r. reflexivity.
    + apply Forall_app. split.
      * constructor; [apply code_block_border_length|constructor].
      * apply Forall_app. split.
        -- apply Forall_forall. intros line Hin. apply in_map_iff in Hin.
           destruct Hin as (l & Hl & _). subst line. apply code_block_line_length.
        -- constructor; [apply code_block_border_length|constructor].
Qed.

(** ** The serializer on its own output *)

Lemma rmap_length : forall A B (f : A -> result B) (l : list A) (l' : list B),
  rmap f l = Ok l' -> length l' = length l.
Proof.
  intros A B f. induction l as [|x l IH]; intros l' H; simpl in H.
  - inversion H. reflexivity.
  - destruct (f x) as [y|e]; [|discriminate]. cbn [rbind] in H.
    destruct (rmap f l) as [ys|e]; [|discriminate]. cbn [rbind] in H.
    inversion H. simpl. rewrite (IH ys eq_refl). reflexivity.
Qed.

Lemma serialize_block_is_dict : forall block out,
  serialize_block block = Ok out -> is_dict out = true.
Proof.
  intros block out. unfold serialize_block.
  destruct (is_dict block) eqn:Hd.
  - intro H. inversion H. subst out. exact Hd.
  - destruct (eq_str (getattr block (lit "type") VNone) (lit "text")).
    + intro H. inversion H. reflexivity.
    + destruct (eq_str (getattr block (lit "type") VNone) (lit "tool_use")).
      * destruct (to_dict (getattr block (lit "input") (VDict []))) as [input|e];
          [|discriminate].
        intro H. inversion H. reflexivity.
      * intro H. inversion H. reflexivity.
Qed.

Lemma serialize_blocks_dicts : forall blocks out,
  rmap serialize_block blocks = Ok out -> forallb is_dict out = true.
Proof.
  induction blocks as [|b blocks IH]; intros out H; simpl in H.
  - inversion H. reflexivity.
  - destruct (serialize_block b) as [y|e] eqn:Eb; [|discriminate]. cbn [rbind] in H.
    destruct (rmap serialize_block blocks) as [ys|e]; [|discriminate]. cbn [rbind] in H.
    inversion H. cbn [forallb]. rewrite (serialize_block_is_dict b y Eb).
    apply (IH ys eq_refl).
Qed.

Lemma serialize_dicts_unchanged : forall blocks,
  forallb is_dict blocks = true -> rmap serialize_block blocks = Ok blocks.
Proof.
  induction blocks as [|b blocks IH]; intro H; [reflexivity|].
  cbn [forallb] in H. apply andb_true_iff in H. destruct H as [Hb Hrest].
  cbn [rmap]. unfold serialize_block at 1. rewrite Hb. cbn [rbind].
  rewrite (IH Hrest). reflexivity.
Qed.

Lemma rmap_nth_error : forall A B (f : A -> result B) (l : list A) (l' : list B) i x,
  rmap f l = Ok l' -> nth_error l i = Some x ->
  exists y, nth_error l' i = Some y /\ f x = Ok y.
Proof.
  intros A B f. induction l as [|a l IH]; intros l' i x H Hi.
  - destruct i; discriminate Hi.
  - simpl in H. destruct (f a) as [y|e] eqn:Ea; [|discriminate]. cbn [rbind] in H.
    destruct (rmap f l) as [ys|e]; [|discriminate]. cbn [rbind] in H.
    inversion H. subst l'. destruct i as [|i].
    + inversion Hi. subst a. exists y. split; [reflexivity|exact Ea].
    + apply (IH ys i x eq_refl Hi).
Qed.

(** The tag and the text that the serializer writes for a block in
    attribute form. *)
Lemma serialize_block_tag : forall block out,
  is_dict block = false ->
  serialize_block block = Ok out ->
  exists d,
    out = VDict d
    /\ dict_find (lit "type") d
       = Some (VStr (to_str (getattr block (lit "type") VNone)))
    /\ (eq_str (getattr block (lit "type") VNone) (lit "text") = true ->
        dict_find (lit "text") d = Some (getattr block (lit "text") (VStr []))).
Proof.
  intros block out Hd. unfold serialize_block. rewrite Hd.
  destruct (eq_str (getattr block (lit "type") VNone) (lit "text")) eqn:Et.
  - intro H. inversion H. eexists. split; [reflexivity|].
    rewrite (eq_str_true _ _ Et). split; [reflexivity|]. intros _. reflexivity.
  - destruct (eq_str (getattr block (lit "type") VNone) (lit "tool_use")) eqn:Eu.
    + destruct (to_dict (getattr block (lit "input") (VDict []))) as [input|e];
        [|discriminate].
      intro H. inversion H. eexists. split; [reflexivity|].
      rewrite (eq_str_true _ _ Eu). split; [reflexivity|]. discriminate.
    + intro H. inversion H. eexists. split; [reflexivity|].
      split; [reflexivity|]. discriminate.
Qed.

(** X4. [_serialize_content] keeps every block, in order, and returns
    mappings only: the block at each position of the result is the input
    block at that position itself when that one is a mapping, and
    otherwise a mapping tagged with the type of that block, which for a
    text block also holds its text, whole.  So serializing its own result
    changes nothing. *)
Theorem serialize_content_idempotent :
  forall blocks out,
    _serialize_content (VList blocks) = Ok out ->
    exists serialized,
      out = VList serialized
      /\ length serialized = length blocks
      /\ forallb is_dict serialized = true
      /\ (forall i block,
            nth_error blocks i = Some block ->
            exists d,
              nth_error serialized i = Some (VDict d)
              /\ (is_dict block = true -> VDict d = block)
              /\ (is_dict block = false ->
                  dict_find (lit "type") d
                  = Some (VStr (to_str (getattr block (lit "type") VNone)))
                  /\ (eq_str (getattr block (lit "type") VNone) (lit "text") = true ->
                      dict_find (lit "text") d
                      = Some (getattr block (lit "text") (VStr [])))))
      /\ _serialize_content out = Ok out.
Proof.
  intros blocks out H. unfold _serialize_content in H. cbn [iter rbind] in H.
  destruct (rmap serialize_block blocks) as [serialized|e] eqn:E; [|discriminate].
  cbn [rbind] in H. inversion H. subst out. exists serialized.
  split; [reflexivity|]. split; [apply (rmap_length _ _ _ _ _ E)|].
  pose proof (serialize_blocks_dicts blocks serialized E) as Hd.
  split; [exact Hd|]. split.
  - intros i block Hi.
    destruct (rmap_nth_error _ _ _ _ _ _ _ E Hi) as (y & Hy & Hser).
    destruct (is_dict block) eqn:Hb.
    + unfold serialize_block in Hser. rewrite Hb in Hser. inversion Hser. subst y.
      destruct block as [| | | | | d |]; try discriminate.
      exists d. split; [exact Hy|]. split; [reflexivity|discriminate].
    + destruct (serialize_block_tag block y Hb Hser) as (d & Hout & Htag & Htext).
      subst y. exists d. split; [exact Hy|]. split; [discriminate|].
      intros _. split; [exact Htag|exact Htext].
  - unfold _serialize_content. cbn [iter rbind].
    rewrite (serialize_dicts_unchanged serialized Hd). reflexivity.
Qed.

Lemma serialize_plain_message : forall msg,
  plain_message msg = true -> serialize_message msg = Ok msg.
Proof.
  intros msg H. unfold plain_message in H.
  destruct msg as [| | | | | d |]; try discriminate.
  destruct d as [|[k1 role] [|[k2 content] [|]]]; try discriminate.
  apply andb_true_iff in H. destruct H as [H Hc].
  apply andb_true_iff in H. destruct H as [H1 H2].
  apply str_eqb_eq in H1. apply str_eqb_eq in H2. subst k1 k2.
  unfold serialize_message. cbn [getitem get_method].
  change (dict_find (lit "role") [(lit "role", role); (lit "content", content)])
    with (Some role).
  change (dict_get [(lit "role", role); (lit "content", content)] (lit "content") (VStr []))
    with content.
  cbn [rbind].
  destruct content as [| | | s | blocks | |]; try discriminate.
  - reflexivity.
  - cbn [is_str is_list]. unfold _serialize_content. cbn [iter rbind].
    rewrite (serialize_dicts_unchanged blocks Hc). reflexivity.
Qed.

(** X5. Messages that are already plain, a mapping of a role and a
    content whose content is a string or a list of mappings, go through
    [_serialize_messages] unchanged: nothing is cut, added or reordered. *)
Theorem serialize_messages_plain :
  forall messages,
    forallb plain_message messages = true ->
    _serialize_messages messages = Ok (VList messages).
Proof.
  intros messages H. unfold _serialize_messages.
  assert (Hmap : rmap serialize_message messages = Ok messages).
  { induction messages as [|m messages IH]; [reflexivity|].
    cbn [forallb] in H. apply andb_true_iff in H. destruct H as [Hm Hrest].
    cbn [rmap]. rewrite (serialize_plain_message m Hm). cbn [rbind].
    rewrite (IH Hrest). reflexivity. }
  rewrite Hmap. reflexivity.
Qed.

(** ** Defaults for what a message or a block leaves out *)

(** X6. A message without ["content"] is read with the empty string in
    all three places that read it: the request preview shows
    ["<text: 0 chars>"], the serializer gives it the content [""], and the
    snapshot prints its line with an empty preview. *)
Theorem missing_content_defaults :
  forall d role i w,
    dict_find (lit "role") d = Some role ->
    dict_find (lit "content") d = None ->
    message_entry (VDict d)
      = Ok (VDict [ (lit "role", role); (lit "content", VStr (lit "<text: 0 chars>")) ])
    /\ serialize_message (VDict d)
       = Ok (VDict [ (lit "role", role); (lit "content", VStr []) ])
    /\ snapshot_message i (VDict d) w
       = (Ok tt,
          {| self := self w;
             stdout := stdout w
               ++ [ lit "    [" ++ dec_nat i ++ lit "] "
                      ++ _color (to_str role) (role_color role)
                      ++ lit ": " ++ _color [] (lit "dim") ] |}).
Proof.
  intros d role i w Hrole Hcontent.
  split; [|split].
  - unfold message_entry. cbn [getitem get_method]. rewrite Hrole.
    rewrite (dict_get_missing d (lit "content") (VStr []) Hcontent). reflexivity.
  - unfold serialize_message. cbn [getitem get_method]. rewrite Hrole.
    rewrite (dict_get_missing d (lit "content") (VStr []) Hcontent). reflexivity.
  - unfold snapshot_message. cbn [get_method]. rewrite !bind_lift_ok.
    rewrite (dict_get_found d (lit "role") (VStr (lit "unknown")) role Hrole).
    rewrite (dict_get_missing d (lit "content") (VStr []) Hcontent). reflexivity.
Qed.

(** X7. A message whose content is [None] is treated three ways: the
    request preview iterates it and raises [TypeError], so [request_raw]
    stops after its banner; the serializer stringifies it to ["None"]; the
    snapshot prints no line for it and goes on. *)
Theorem content_none_three_ways :
  forall model system messages tools max_tokens tools_summary d role i w,
    show_raw (self w) = true ->
    rmap tool_summary tools = Ok tools_summary ->
    dict_find (lit "role") d = Some role ->
    dict_find (lit "content") d = Some VNone ->
    message_entry (VDict d) = Raise (TypeError (lit "object is not iterable"))
    /\ request_raw model system (VDict d :: messages) tools max_tokens w
       = (Raise (TypeError (lit "object is not iterable")),
          {| self := self w; stdout := stdout w ++ request_banner |})
    /\ serialize_message (VDict d)
       = Ok (VDict [ (lit "role", role); (lit "content", VStr (lit "None")) ])
    /\ snapshot_message i (VDict d) w = (Ok tt, w).
Proof.
  intros model system messages tools max_tokens tools_summary d role i w
         Hraw Htools Hrole Hcontent.
  assert (Hentry : message_entry (VDict d)
                   = Raise (TypeError (lit "object is not iterable"))).
  { unfold message_entry. cbn [getitem get_method]. rewrite Hrole.
    rewrite (dict_get_found d (lit "content") (VStr []) VNone Hcontent). reflexivity. }
  split; [exact Hentry|]. split; [|split].
  - apply request_raw_raises; [exact Hraw|].
    unfold request_data. rewrite Htools. cbn [rbind rmap]. rewrite Hentry. reflexivity.
  - unfold serialize_message. cbn [getitem get_method]. rewrite Hrole.
    rewrite (dict_get_found d (lit "content") (VStr []) VNone Hcontent). reflexivity.
  - unfold snapshot_message. cbn [get_method]. rewrite !bind_lift_ok.
    rewrite (dict_get_found d (lit "content") (VStr []) VNone Hcontent). reflexivity.
Qed.

Lemma getattr_untagged : forall block name default,
  is_dict block = false ->
  block_field block name = None ->
  getattr block name default = default.
Proof.
  intros block name default Hd Hf.
  destruct block; try reflexivity; try discriminate.
  cbn [block_field] in Hf. cbn [getattr]. rewrite Hf. reflexivity.
Qed.

(** X8. A block without a type tag gets two different stand-ins.  In
    attribute form the serializer writes the text ["None"] for the tag,
    while the request preview, the response preview and the snapshot all
    write ["unknown"]; in mapping form the serializer passes the block
    through without adding a tag, and the preview writes ["unknown"]. *)
Theorem untagged_block_stand_ins :
  forall block d,
    is_dict block = false ->
    block_field block (lit "type") = None ->
    dict_find (lit "type") d = None ->
    serialize_block block = Ok (VDict [ (lit "type", VStr (lit "None")) ])
    /\ block_summary block = Ok (VStr (lit "unknown"))
    /\ block_summary_attr block = Ok (VStr (lit "unknown"))
    /\ response_block_entry block = Ok (VDict [ (lit "type", VStr (lit "unknown")) ])
    /\ block_tag block = VStr (lit "unknown")
    /\ serialize_block (VDict d) = Ok (VDict d)
    /\ block_summary (VDict d) = Ok (VStr (lit "unknown"))
    /\ block_tag (VDict d) = VStr (lit "unknown").
Proof.
  intros block d Hd Hf Hdt.
  repeat match goal with |- _ /\ _ => split end.
  - unfold serialize_block. rewrite Hd.
    rewrite (getattr_untagged block (lit "type") VNone Hd Hf). reflexivity.
  - unfold block_summary.
    assert (E : match block with
                | VDict d0 => dict_get d0 (lit "type") (VStr (lit "unknown"))
                | _ => getattr block (lit "type") (VStr (lit "unknown"))
                end = VStr (lit "unknown")).
    { destruct block; try discriminate;
        apply (getattr_untagged _ (lit "type") (VStr (lit "unknown")) Hd Hf). }
    rewrite E. reflexivity.
  - unfold block_summary_attr.
    rewrite (getattr_untagged block (lit "type") (VStr (lit "unknown")) Hd Hf).
    reflexivity.
  - unfold response_block_entry.
    rewrite (getattr_untagged block (lit "type") (VStr (lit "unknown")) Hd Hf).
    reflexivity.
  - unfold block_tag. destruct block; try discriminate;
      apply (getattr_untagged _ (lit "type") (VStr (lit "unknown")) Hd Hf).
  - reflexivity.
  - unfold block_summary.
    rewrite (dict_get_missing d (lit "type") (VStr (lit "unknown")) Hdt). reflexivity.
  - unfold block_tag. apply dict_get_missing. exact Hdt.
Qed.

(** ** How far [request_raw] and [response_raw] get *)

(** X9. [request_raw] has three ways to end, and what it has printed
    tells which.  If the preview structure cannot be built it raises after
    the banner alone; if the preview is built but the full structure cannot
    be serialized it raises after the banner, the whole preview and the
    heading of the full dump; otherwise it returns normally after the code
    block. *)
Theorem request_raw_stages :
  forall model system messages tools max_tokens w,
    show_raw (self w) = true ->
    request_raw model system messages tools max_tokens w
    = match request_data model system messages tools max_tokens with
      | Raise e => (Raise e, {| self := self w; stdout := stdout w ++ request_banner |})
      | Ok data =>
          match full_request model system messages tools max_tokens with
          | Raise e =>
              (Raise e,
               {| self := self w;
                  stdout := stdout w ++ request_banner
                              ++ structured_json_lines data (lit "Request Structure")
                              ++ [full_request_heading] |})
          | Ok full =>
              (Ok tt,
               {| self := self w;
                  stdout := stdout w ++ request_banner
                              ++ structured_json_lines data (lit "Request Structure")
                              ++ [full_request_heading] ++ code_block_lines full |})
          end
      end.
Proof.
  intros model system messages tools max_tokens w Hraw.
  destruct (request_data model system messages tools max_tokens) as [data|e] eqn:Hdata.
  - destruct (full_request model system messages tools max_tokens) as [full|e] eqn:Hfull.
    + apply request_raw_run; assumption.
    + unfold request_raw.
      rewrite bind_get_show_raw, Hraw. cbn [negb].
      rewrite !bind_print, Hdata, bind_lift_ok.
      erewrite bind_ok by apply print_structured_json_run.
      rewrite bind_print, Hfull, bind_lift_raise. cbn [self stdout].
      unfold request_banner, full_request_heading. rewrite <- !app_assoc. reflexivity.
  - apply request_raw_raises; assumption.
Qed.

(** X10. [response_raw] reads the response through attributes only: a
    response that is not an object with an [id], for one a response given
    as a plain mapping, makes it raise [AttributeError] after the banner,
    before anything of the response is shown. *)
Theorem response_raw_needs_attributes :
  forall response w,
    show_raw (self w) = true ->
    (forall cls s r attrs,
        response = VObj cls s r attrs -> dict_find (lit "id") attrs = None) ->
    response_raw response w
    = (Raise (AttributeError (lit "id")),
       {| self := self w; stdout := stdout w ++ response_banner |}).
Proof.
  intros response w Hraw Hid.
  assert (Hattr : attr response (lit "id") = Raise (AttributeError (lit "id"))).
  { destruct response as [| | | | | | cls s r attrs]; try reflexivity.
    cbn [attr]. rewrite (Hid cls s r attrs eq_refl). reflexivity. }
  unfold response_raw.
  rewrite bind_get_show_raw, Hraw. cbn [negb].
  rewrite !bind_print.
  unfold response_data, response_fields. rewrite Hattr. cbn [rbind].
  rewrite bind_lift_raise. cbn [self stdout].
  unfold response_banner. rewrite <- !app_assoc. reflexivity.
Qed.

(** X11. The two structures of [response_raw] agree on a tool-use block
    and differ on a text block: for a tool-use block in attribute form
    whose input is a mapping, the preview entry is the serialized block,
    field for field; for a text block with a string text, the preview
    holds the number of characters where the serialized block holds the
    text. *)
Theorem response_preview_and_dump :
  forall text_block tool_block text input,
    getattr text_block (lit "type") (VStr (lit "unknown")) = VStr (lit "text") ->
    getattr text_block (lit "text") (VStr []) = VStr text ->
    getattr tool_block (lit "type") (VStr (lit "unknown")) = VStr (lit "tool_use") ->
    getattr tool_block (lit "input") (VDict []) = VDict input ->
    response_block_entry text_block
      = Ok (VDict [ (lit "type", VStr (lit "text"));
                    (lit "text", VStr (lit "<" ++ dec_nat (length text) ++ lit " chars>")) ])
    /\ serialize_block text_block
       = Ok (VDict [ (lit "type", VStr (lit "text")); (lit "text", VStr text) ])
    /\ response_block_entry tool_block = serialize_block tool_block
    /\ serialize_block tool_block
       = Ok (VDict [ (lit "type", VStr (lit "tool_use"));
                     (lit "id", getattr tool_block (lit "id") (VStr []));
                     (lit "name", getattr tool_block (lit "name") (VStr []));
                     (lit "input", VDict input) ]).
Proof.
  intros text_block tool_block text input Ht1 Ht3 Hu1 Hu3.
  assert (Ht2 : is_dict text_block = false).
  { destruct text_block; try reflexivity. discriminate Ht1. }
  assert (Hu2 : is_dict tool_block = false).
  { destruct tool_block; try reflexivity. discriminate Hu1. }
  assert (Ht1' : getattr text_block (lit "type") VNone = VStr (lit "text")).
  { destruct text_block as [| | | | | | cls s r attrs]; try discriminate.
    cbn [getattr] in *. destruct (dict_find (lit "type") attrs); [exact Ht1|discriminate]. }
  assert (Hu1' : getattr tool_block (lit "type") VNone = VStr (lit "tool_use")).
  { destruct tool_block as [| | | | | | cls s r attrs]; try discriminate.
    cbn [getattr] in *. destruct (dict_find (lit "type") attrs); [exact Hu1|discriminate]. }
  assert (Hser : serialize_block tool_block
                 = Ok (VDict [ (lit "type", VStr (lit "tool_use"));
                               (lit "id", getattr tool_block (lit "id") (VStr []));
                               (lit "name", getattr tool_block (lit "name") (VStr []));
                               (lit "input", VDict input) ])).
  { unfold serialize_block. rewrite Hu2, Hu1', Hu3. reflexivity. }
  repeat match goal with |- _ /\ _ => split end.
  - unfold response_block_entry. rewrite Ht1, Ht3. reflexivity.
  - unfold serialize_block. rewrite Ht2, Ht1', Ht3. reflexivity.
  - rewrite Hser. unfold response_block_entry. rewrite Hu1, Hu3. reflexivity.
  - exact Hser.
Qed.

(** ** The snapshot on any list of messages *)

Lemma snapshot_message_dict_count : forall i d w,
  exists lines,
    snapshot_message i (VDict d) w
    = (Ok tt, {| self := self w; stdout := stdout w ++ lines |})
    /\ length lines = if snapshot_shown (VDict d) then 1 else 0.
Proof.
  intros i d w. unfold snapshot_message, snapshot_shown.
  cbn [get_method lift bind].
  destruct (dict_get d (lit "content") (VStr [])); cbn [print ret];
    try (exists []; rewrite app_nil_r, world_eta; split; reflexivity);
    eexists; split; reflexivity.
Qed.

Lemma snapshot_message_not_dict : forall i msg w,
  is_dict msg = false ->
  snapshot_message i msg w = (Raise (AttributeError (lit "get")), w).
Proof.
  intros i msg w H. destruct msg; try discriminate; reflexivity.
Qed.

Lemma snapshot_loop : forall messages i w,
  if forallb is_dict messages
  then outcome (for_enumerate i messages snapshot_message) w = Ok tt
       /\ length (stdout (exec (for_enumerate i messages snapshot_message) w))
          = length (stdout w) + length (filter snapshot_shown messages)
  else outcome (for_enumerate i messages snapshot_message) w
       = Raise (AttributeError (lit "get")).
Proof.
  induction messages as [|m messages IH]; intros i w.
  - cbn. split; [reflexivity|lia].
  - cbn [forallb for_enumerate]. unfold outcome, exec, bind.
    destruct (is_dict m) eqn:Hm.
    + destruct m as [| | | | | d |]; try discriminate.
      destruct (snapshot_message_dict_count i d w) as (lines & E & Hlen).
      rewrite E. cbn [andb].
      specialize (IH (S i) {| self := self w; stdout := stdout w ++ lines |}).
      unfold outcome, exec in IH.
      destruct (forallb is_dict messages).
      * destruct IH as [IH1 IH2]. split; [exact IH1|].
        rewrite IH2. cbn [stdout filter]. rewrite length_app, Hlen.
        destruct (snapshot_shown (VDict d)); cbn [length]; lia.
      * exact IH.
    + rewrite (snapshot_message_not_dict i m w Hm). reflexivity.
Qed.

(** X12. With [verbose] set, [messages_snapshot] returns normally
    exactly when every message is a mapping; it then prints its two
    heading lines and one line for each message whose content is a string
    or a list, skipping the others silently.  A message that is not a
    mapping makes it raise [AttributeError]. *)
Theorem messages_snapshot_outcome :
  forall messages title w,
    verbose (self w) = true ->
    if forallb is_dict messages
    then outcome (messages_snapshot messages title) w = Ok tt
         /\ length (stdout (exec (messages_snapshot messages title) w))
            = length (stdout w) + 2 + length (filter snapshot_shown messages)
    else outcome (messages_snapshot messages title) w
         = Raise (AttributeError (lit "get")).
Proof.
  intros messages title w Hv.
  unfold messages_snapshot, outcome, exec.
  rewrite bind_get_verbose, Hv. cbn [negb]. rewrite !bind_print.
  match goal with
  | |- context [for_enumerate 0 messages snapshot_message ?w0] =>
      pose proof (snapshot_loop messages 0 w0) as Hloop
  end.
  unfold outcome, exec in Hloop.
  destruct (forallb is_dict messages).
  - destruct Hloop as [H1 H2]. split; [exact H1|].
    rewrite H2. cbn [stdout]. rewrite !length_app. cbn [length]. lia.
  - exact Hloop.
Qed.

(** ** Tool calls and results: how much is shown *)

Lemma tool_call_item_line_bound : forall kv,
  length (tool_call_item_line kv) <= length (fst kv) + 79.
Proof.
  intros [k v]. unfold tool_call_item_line. rewrite color_dim_length.
  cbn [fst snd]. rewrite !length_app.
  destruct (60 <? length (to_str v)) eqn:E.
  - rewrite length_app, length_firstn. lit_lengths. lia.
  - apply Nat.ltb_ge in E. lit_lengths. lia.
Qed.

(** X13. [tool_call] prints three lines, one more when the id is not
    empty, and then one line per input field, in the order of the mapping;
    a field line never shows more than 63 characters of the value, so its
    length is bounded by the length of the field name plus 79. *)
Theorem tool_call_lines :
  forall name input_data tool_id w,
    exists head,
      stdout (exec (tool_call name input_data tool_id) w)
      = stdout w ++ head ++ map tool_call_item_line input_data
      /\ length head = 3 + match tool_id with Some (_ :: _) => 1 | _ => 0 end
      /\ Forall (fun kv => length (tool_call_item_line kv) <= length (fst kv) + 79)
           input_data.
Proof.
  intros name input_data tool_id w. unfold exec. rewrite tool_call_run.
  cbn [snd stdout].
  match goal with
  | |- exists head, _ ++ ?a ++ ?b ++ ?c ++ _ = _ /\ _ => exists (a ++ b ++ c)
  end.
  split; [|split].
  - rewrite <- !app_assoc. reflexivity.
  - destruct tool_id as [[|c id]|]; reflexivity.
  - apply Forall_forall. intros kv _. apply tool_call_item_line_bound.
Qed.

(** X14. [tool_result] always prints three lines; the third shows the
    content between quotes, whole when it has at most 300 characters and
    cut to its first 300 characters and an ellipsis when it is longer. *)
Theorem tool_result_content_300 :
  forall tool_id content is_error w,
    length (stdout (exec (tool_result tool_id content is_error) w))
      = length (stdout w) + 3
    /\ nth_error (stdout (exec (tool_result tool_id content is_error) w))
         (length (stdout w) + 2)
       = Some (lit "    "
                 ++ _color (lit "content:") (if is_error then lit "red" else lit "blue")
                 ++ lit " "
                 ++ _color ([34%N]
                              ++ (if 300 <? length content
                                  then firstn 300 content ++ lit "..."
                                  else content)
                              ++ [34%N])
                      (lit "dim")).
Proof.
  intros tool_id content is_error w. unfold exec. rewrite tool_result_run.
  cbn [snd stdout]. split.
  - rewrite length_app. reflexivity.
  - rewrite nth_error_app2 by lia.
    replace (length (stdout w) + 2 - length (stdout w)) with 2 by lia.
    cbn [nth_error]. f_equal.
    assert (Hp : firstn 300 content ++ (if 300 <? length content then lit "..." else [])
                 = if 300 <? length content then firstn 300 content ++ lit "..."
                   else content).
    { destruct (300 <? length content) eqn:E; [reflexivity|].
      apply Nat.ltb_ge in E. rewrite firstn_all2 by exact E. apply app_nil_r. }
    rewrite <- Hp. rewrite <- (app_assoc (firstn 300 content)). reflexivity.
Qed.

(** ** The content blocks of a response *)

Lemma section_run : forall text icon w,
  verbose (self w) = true ->
  section text icon w
  = (Ok tt,
     {| self := self w;
        stdout := stdout w ++ [_color (NL :: icon ++ lit " " ++ text) (lit "cyan")] |}).
Proof.
  intros text icon w Hv. unfold section. rewrite bind_get_verbose, Hv. reflexivity.
Qed.

Lemma content_block_line_text : forall i block text w,
  is_text block = true ->
  block_get block (lit "text") (VStr []) = VStr text ->
  content_block_line i block w
  = (Ok tt, {| self := self w; stdout := stdout w ++ [text_block_line i text] |}).
Proof.
  intros i block text w Ht Htext. unfold is_text in Ht.
  pose proof (eq_str_true _ _ Ht) as Htype.
  unfold content_block_line. cbv zeta beta.
  fold (block_get block (lit "type") (VStr (lit "unknown"))).
  fold (block_get block (lit "text") (VStr [])).
  rewrite Ht, Htext, Htype. cbn [slice_to len].
  rewrite !bind_lift_ok. cbv beta. cbn [add_str]. rewrite bind_lift_ok. cbv beta.
  rewrite key_value_run. unfold text_block_line.
  assert (Hp : firstn 100 text ++ (if 100 <? length text then lit "..." else [])
               = if 100 <? length text then firstn 100 text ++ lit "..." else text).
  { destruct (100 <? length text) eqn:E; [reflexivity|].
    apply Nat.ltb_ge in E. rewrite firstn_all2 by exact E. apply app_nil_r. }
  assert (Hk : (lit "Block [" ++ dec_nat i ++ lit "]") ++ lit ":"
               = lit "Block [" ++ dec_nat i ++ lit "]:").
  { rewrite <- (app_assoc (lit "Block [")), <- (app_assoc (dec_nat i)). reflexivity. }
  rewrite <- Hp. unfold key_value_line. rewrite color_then, Hk. reflexivity.
Qed.

Lemma content_block_line_other : forall i block w,
  is_text block = false ->
  exists lines,
    content_block_line i block w
    = (Ok tt, {| self := self w; stdout := stdout w ++ lines |})
    /\ length lines = if is_tool_use block then 1 else 0.
Proof.
  intros i block w Ht. unfold is_text in Ht. unfold is_tool_use.
  unfold content_block_line. cbv zeta beta.
  fold (block_get block (lit "type") (VStr (lit "unknown"))).
  rewrite Ht.
  destruct (eq_str (block_get block (lit "type") (VStr (lit "unknown"))) (lit "tool_use")).
  - rewrite key_value_run. eexists. split; reflexivity.
  - exists []. unfold ret. rewrite app_nil_r, world_eta. split; reflexivity.
Qed.

Lemma content_block_line_extends : forall i block w,
  exists lines, stdout (snd (content_block_line i block w)) = stdout w ++ lines.
Proof.
  intros i block w. destruct (is_text block) eqn:Ht.
  - unfold is_text in Ht. unfold content_block_line. cbv zeta beta.
    fold (block_get block (lit "type") (VStr (lit "unknown"))).
    fold (block_get block (lit "text") (VStr [])).
    rewrite Ht.
    destruct (slice_to 100 (block_get block (lit "text") (VStr []))) as [cut|e];
      [rewrite bind_lift_ok | exists []; rewrite bind_lift_raise, app_nil_r; reflexivity].
    destruct (len (block_get block (lit "text") (VStr []))) as [n|e];
      [rewrite bind_lift_ok | exists []; rewrite bind_lift_raise, app_nil_r; reflexivity].
    destruct (add_str cut (if 100 <? n then lit "..." else [])) as [pv|e];
      [rewrite bind_lift_ok | exists []; rewrite bind_lift_raise, app_nil_r; reflexivity].
    rewrite key_value_run. eexists. reflexivity.
  - destruct (content_block_line_other i block w Ht) as (lines & E & _).
    rewrite E. exists lines. reflexivity.
Qed.

Lemma content_blocks_extend : forall post i w,
  exists lines,
    stdout (exec (for_enumerate i post content_block_line) w) = stdout w ++ lines.
Proof.
  induction post as [|b post IH]; intros i w; simpl.
  - exists []. rewrite app_nil_r. reflexivity.
  - unfold exec, bind.
    destruct (content_block_line_extends i b w) as [l1 E1].
    destruct (content_block_line i b w) as [[[]|e] w1]; cbn [snd] in *.
    + destruct (IH (S i) w1) as [l2 E2]. unfold exec in E2. rewrite E2, E1.
      exists (l1 ++ l2). rewrite app_assoc. reflexivity.
    + exists l1. exact E1.
Qed.

(** One block that can be rendered adds its line, if it has one. *)
Lemma content_block_line_shown : forall i block w,
  text_is_str block = true ->
  exists lines,
    content_block_line i block w
    = (Ok tt, {| self := self w; stdout := stdout w ++ lines |})
    /\ length lines = if block_shown block then 1 else 0.
Proof.
  intros i block w Hok. unfold text_is_str in Hok. unfold block_shown.
  destruct (is_text block) eqn:Ht.
  - cbn [negb orb] in Hok.
    destruct (block_get block (lit "text") (VStr [])) as [| | | text | | |] eqn:Htext;
      try discriminate.
    rewrite (content_block_line_text i block text w Ht Htext).
    eexists. split; reflexivity.
  - cbn [orb]. apply content_block_line_other. exact Ht.
Qed.

Lemma content_blocks_shown : forall pre i w,
  forallb text_is_str pre = true ->
  exists lines,
    for_enumerate i pre content_block_line w
    = (Ok tt, {| self := self w; stdout := stdout w ++ lines |})
    /\ length lines = length (filter block_shown pre).
Proof.
  induction pre as [|b pre IH]; intros i w Hpre.
  - exists []. cbn. unfold ret. rewrite app_nil_r, world_eta. split; reflexivity.
  - cbn [forallb] in Hpre. apply andb_true_iff in Hpre. destruct Hpre as [Hb Hrest].
    destruct (content_block_line_shown i b w Hb) as (l1 & E1 & Hl1).
    cbn [for_enumerate]. unfold bind. rewrite E1.
    destruct (IH (S i) {| self := self w; stdout := stdout w ++ l1 |} Hrest)
      as (l2 & E2 & Hl2).
    rewrite E2. cbn [self stdout]. exists (l1 ++ l2). split.
    + rewrite app_assoc. reflexivity.
    + rewrite length_app, Hl1, Hl2. cbn [filter].
      destruct (block_shown b); cbn [length]; lia.
Qed.

(** X15. With [verbose] set, [response_content_blocks] prints its
    heading and then walks the blocks: a text block and a tool-use block
    get one line each, a block of any other type gets none.  A text block
    at any position of the list, in either form, whose text is a string
    gets its line as soon as the text blocks before it have string texts
    too: the line comes after the heading and the lines of the earlier
    blocks, and shows the text whole up to 100 characters and cut to 100
    characters and an ellipsis beyond.  The number in the line is the
    position of the block in the list, the blocks without a line
    included. *)
Theorem response_content_blocks_text :
  forall pre block text post w,
    verbose (self w) = true ->
    forallb text_is_str pre = true ->
    is_text block = true ->
    block_get block (lit "text") (VStr []) = VStr text ->
    nth_error (stdout (exec (response_content_blocks (pre ++ block :: post)) w))
      (length (stdout w))
    = Some (esc "[36m" ++ (NL :: [ICON_PACKAGE] ++ lit " Response Content Blocks")
              ++ esc "[0m")
    /\ nth_error (stdout (exec (response_content_blocks (pre ++ block :: post)) w))
         (length (stdout w) + 1 + length (filter block_shown pre))
       = Some (lit "    " ++ esc "[33m" ++ (lit "Block [" ++ dec_nat (length pre) ++ lit "]:")
                 ++ esc "[0m" ++ lit " type=text, text=" ++ [34%N]
                 ++ (if 100 <? length text then firstn 100 text ++ lit "..." else text)
                 ++ [34%N]).
Proof.
  intros pre block text post w Hv Hpre Ht Htext.
  assert (Hout : exists l1 l2,
            stdout (exec (response_content_blocks (pre ++ block :: post)) w)
            = stdout w
                ++ [esc "[36m" ++ (NL :: [ICON_PACKAGE] ++ lit " Response Content Blocks")
                      ++ esc "[0m"]
                ++ l1 ++ [text_block_line (length pre) text] ++ l2
            /\ length l1 = length (filter block_shown pre)).
  { unfold response_content_blocks, exec.
    rewrite bind_get_verbose, Hv. cbn [negb].
    erewrite bind_ok by (apply section_run; exact Hv).
    rewrite for_enumerate_app. unfold bind at 1.
    match goal with
    | |- context [for_enumerate 0 pre content_block_line ?w0] =>
        destruct (content_blocks_shown pre 0 w0 Hpre) as (l1 & E1 & Hl1)
    end.
    rewrite E1. cbn [for_enumerate self stdout]. unfold bind at 1.
    rewrite (content_block_line_text (0 + length pre) block text _ Ht Htext).
    cbn [self stdout].
    match goal with
    | |- context [for_enumerate ?i post content_block_line ?w0] =>
        destruct (content_blocks_extend post i w0) as [l2 E2]
    end.
    unfold exec in E2. rewrite E2. cbn [stdout].
    exists l1, l2. split; [|exact Hl1].
    rewrite <- !app_assoc. reflexivity. }
  destruct Hout as (l1 & l2 & Hout & Hl1). rewrite Hout. split.
  - rewrite nth_error_app2 by lia. rewrite Nat.sub_diag. reflexivity.
  - rewrite nth_error_app2 by lia.
    replace (length (stdout w) + 1 + length (filter block_shown pre) - length (stdout w))
      with (S (length l1)) by lia.
    cbn [app nth_error]. rewrite nth_error_app2 by lia.
    rewrite Nat.sub_diag. reflexivity.
Qed.

(** ** The request preview: tools and short system prompts *)

(** X16. The preview entry of a tool keeps its name, shows the first 50
    characters of its description followed by an ellipsis, which is added
    also to a description that was not cut, and drops every other key of
    the tool.  A description that is present but not a string makes the
    entry raise. *)
Theorem tool_summary_ellipsis :
  forall d name description d' name' other,
    dict_find (lit "name") d = Some name ->
    dict_find (lit "description") d = Some (VStr description) ->
    dict_find (lit "name") d' = Some name' ->
    dict_find (lit "description") d' = Some other ->
    is_str other = false ->
    tool_summary (VDict d)
      = Ok (VDict [ (lit "name", name);
                    (lit "description", VStr (firstn 50 description ++ lit "...")) ])
    /\ (length description <= 50 ->
        tool_summary (VDict d)
        = Ok (VDict [ (lit "name", name);
                      (lit "description", VStr (description ++ lit "...")) ]))
    /\ exists e, tool_summary (VDict d') = Raise e.
Proof.
  intros d name description d' name' other Hn Hd Hn' Hd' Hother.
  assert (H1 : tool_summary (VDict d)
               = Ok (VDict [ (lit "name", name);
                             (lit "description",
                              VStr (firstn 50 description ++ lit "...")) ])).
  { unfold tool_summary. cbn [getitem]. rewrite Hn, Hd. reflexivity. }
  split; [exact H1|]. split.
  - intro Hlen. rewrite H1. rewrite firstn_all2 by exact Hlen. reflexivity.
  - unfold tool_summary. cbn [getitem]. rewrite Hn', Hd'. cbn [rbind].
    destruct other; try discriminate; eexists; reflexivity.
Qed.

(** X17. A system prompt of at most 100 characters is shown whole in the
    preview of [request_raw], with no ellipsis: when the preview can be
    built and encoded, the eighth printed line is the JSON line of the
    system field with the prompt itself. *)
Theorem request_preview_short_system :
  forall model system messages tools max_tokens data preview w,
    show_raw (self w) = true ->
    length system <= 100 ->
    request_data model system messages tools max_tokens = Ok data ->
    json_dumps data 4 = Ok preview ->
    nth_error (stdout (exec (request_raw model system messages tools max_tokens) w))
      (length (stdout w) + 7)
    = Some (_color (lit "    "
                      ++ (lit "    " ++ json_string (lit "system") ++ lit ": "
                            ++ json_string system ++ lit ","))
              (lit "dim")).
Proof.
  intros model system messages tools max_tokens data preview w
         Hraw Hlen Hdata Hpreview.
  destruct (request_raw_preview model system messages tools max_tokens data w
              Hraw Hdata) as [more Hout].
  rewrite Hout. clear Hout.
  assert (Hd : exists tools_summary entries,
             data = VDict [ (lit "model", VStr model);
                            (lit "max_tokens", VInt max_tokens);
                            (lit "system", VStr system);
                            (lit "tools", VList tools_summary);
                            (lit "messages", VList entries) ]).
  { unfold request_data in Hdata.
    assert (E : (100 <? length system) = false) by (apply Nat.ltb_ge; exact Hlen).
    rewrite E in Hdata. cbv zeta in Hdata.
    destruct (rmap tool_summary tools) as [ts|]; [|discriminate].
    destruct (rmap message_entry messages) as [es|]; [|discriminate].
    cbn [rbind] in Hdata. injection Hdata as Hdata. exists ts, es.
    subst data. reflexivity. }
  destruct Hd as (ts & es & Hd).
  unfold structured_json_lines. rewrite Hpreview.
  rewrite Hd in Hpreview.
  destruct (request_json_lines 4 model max_tokens system (VList ts) (VList es)
              preview Hpreview) as [rest Hlines].
  rewrite Hlines.
  rewrite nth_error_app2 by lia.
  replace (length (stdout w) + 7 - length (stdout w)) with 7 by lia.
  reflexivity.
Qed.

(** ** The width of the separator *)

Lemma str_mul_single_length : forall c z, length (str_mul [c] z) = Z.to_nat z.
Proof.
  intros c z. unfold str_mul. induction (Z.to_nat z) as [|n IH]; [reflexivity|].
  cbn [repeat concat app length]. rewrite IH. reflexivity.
Qed.

(** X18. With [verbose] set and a rule character of one character, the
    rule that [separator] prints is exactly [width] characters wide,
    without a title and with a title of at most [width - 12] characters;
    a longer title is never cut, and the rule is then the title and its
    12 characters of decoration. *)
Theorem separator_width :
  forall title c width w,
    verbose (self w) = true ->
    (0 <= width)%Z ->
    exists rule,
      stdout (exec (separator title [c] width) w)
      = stdout w ++ [_color (NL :: rule) (lit "dim")]
      /\ length rule
         = match title with
           | [] => Z.to_nat width
           | _ :: _ => Nat.max (Z.to_nat width) (12 + length title)
           end.
Proof.
  intros title c width w Hv Hwidth.
  unfold separator, exec. rewrite bind_get_verbose, Hv. cbn [negb].
  unfold print. cbn [snd stdout]. eexists. split; [reflexivity|].
  destruct title as [|t title].
  - apply str_mul_single_length.
  - rewrite !length_app, !str_mul_single_length. lit_lengths. lia.
Qed.

(** ** The usage line of the response summary *)

(** X19. With [verbose] set, [llm_response_summary] prints four lines;
    token counts that the usage mapping does not hold are shown as 0, so
    an empty usage reads ["input=0, output=0"]. *)
Theorem response_summary_usage_defaults :
  forall stop_reason usage content_blocks w,
    verbose (self w) = true ->
    dict_find (lit "input_tokens") usage = None ->
    dict_find (lit "output_tokens") usage = None ->
    length (stdout (exec (llm_response_summary stop_reason usage content_blocks) w))
      = length (stdout w) + 4
    /\ nth_error (stdout (exec (llm_response_summary stop_reason usage content_blocks) w))
         (length (stdout w) + 3)
       = Some (lit "    " ++ _color (lit "usage:") (lit "magenta")
                 ++ lit " " ++ lit "input=0, output=0").
Proof.
  intros stop_reason usage content_blocks w Hv Hin Hout.
  unfold llm_response_summary, exec.
  rewrite bind_get_verbose, Hv. cbn [negb]. rewrite bind_print. cbv zeta.
  rewrite (dict_get_missing usage (lit "input_tokens") (VInt 0) Hin).
  rewrite (dict_get_missing usage (lit "output_tokens") (VInt 0) Hout).
  unfold bind. rewrite !key_value_run. cbn [snd self stdout].
  split.
  - rewrite !length_app. cbn [length]. lia.
  - rewrite <- !app_assoc. rewrite nth_error_app2 by lia.
    replace (length (stdout w) + 3 - length (stdout w)) with 3 by lia.
    reflexivity.
Qed.

(** ** The timestamp *)

Lemma all_below_sound : forall test bound,
  all_below test bound = true -> forall m, (m < bound)%N -> test m = true.
Proof.
  intros test bound. unfold all_below.
  assert (Hfst : forall n,
             fst (N.iter n (fun p => (N.succ (fst p), snd p && test (fst p)))
                    (0%N, true)) = n).
  { induction n as [|n IHn] using N.peano_ind; [reflexivity|].
    rewrite N.iter_succ. cbn [fst]. rewrite IHn. reflexivity. }
  induction bound as [|b IH] using N.peano_ind; intros H m Hm.
  - lia.
  - rewrite N.iter_succ in H. cbn [fst snd] in H.
    rewrite Hfst in H. apply andb_true_iff in H. destruct H as [H1 H2].
    destruct (N.eq_dec m b) as [->|Hne]; [exact H2|].
    apply IH; [exact H1|lia].
Qed.

Lemma milliseconds_all : all_below milliseconds_ok 1000000 = true.
Proof. vm_compute. reflexivity. Qed.

Lemma two_digits_all : all_below two_digits_ok 100 = true.
Proof. vm_compute. reflexivity. Qed.

Lemma two_digits_length : forall n, n < 100 -> length (zfill 2 (dec_nat n)) = 2.
Proof.
  intros n Hn. unfold dec_nat.
  assert (H : two_digits_ok (N.of_nat n) = true).
  { apply (all_below_sound _ 100 two_digits_all). lia. }
  unfold two_digits_ok in H. apply Nat.eqb_eq in H. exact H.
Qed.

Lemma milliseconds_digits : forall n,
  n < 1000 * 1000 ->
  firstn 3 (zfill 6 (dec_nat n)) = zfill 3 (dec_nat (n / 1000))
  /\ length (zfill 6 (dec_nat n)) = 6.
Proof.
  intros n Hn. unfold dec_nat.
  assert (H : milliseconds_ok (N.of_nat n) = true).
  { apply (all_below_sound _ 1000000 milliseconds_all). lia. }
  unfold milliseconds_ok in H. apply andb_true_iff in H. destruct H as [H1 H2].
  apply str_eqb_eq in H1. apply Nat.eqb_eq in H2.
  rewrite Nat2N.inj_div. split; [exact H1|exact H2].
Qed.

(** X20. For a clock reading within its ranges, [_timestamp] is the time
    as [HH:MM:SS.mmm], twelve characters in the dim color: cutting the last
    three of the six microsecond digits leaves the milliseconds, rounded
    down. *)
Theorem timestamp_milliseconds_format :
  forall now,
    hour now < 24 ->
    minute now < 60 ->
    second now < 60 ->
    microsecond now < 1000 * 1000 ->
    _timestamp now
      = _color (zfill 2 (dec_nat (hour now)) ++ lit ":"
                  ++ zfill 2 (dec_nat (minute now)) ++ lit ":"
                  ++ zfill 2 (dec_nat (second now)) ++ lit "."
                  ++ zfill 3 (dec_nat (microsecond now / 1000)))
          (lit "dim")
    /\ length (zfill 2 (dec_nat (hour now)) ++ lit ":"
                 ++ zfill 2 (dec_nat (minute now)) ++ lit ":"
                 ++ zfill 2 (dec_nat (second now)) ++ lit "."
                 ++ zfill 3 (dec_nat (microsecond now / 1000))) = 12.
Proof.
  intros now Hh Hm Hs Hu.
  pose proof (two_digits_length (hour now) ltac:(lia)) as Lh.
  pose proof (two_digits_length (minute now) ltac:(lia)) as Lm.
  pose proof (two_digits_length (second now) ltac:(lia)) as Ls.
  destruct (milliseconds_digits (microsecond now) Hu) as [Hms L6].
  assert (L3 : length (zfill 3 (dec_nat (microsecond now / 1000))) = 3).
  { rewrite <- Hms. rewrite firstn_length_le by lia. reflexivity. }
  split.
  - unfold _timestamp, strftime. cbv zeta. f_equal.
    set (H2 := zfill 2 (dec_nat (hour now))) in *.
    set (M2 := zfill 2 (dec_nat (minute now))) in *.
    set (S2 := zfill 2 (dec_nat (second now))) in *.
    set (U6 := zfill 6 (dec_nat (microsecond now))) in *.
    assert (Hlen : length (H2 ++ lit ":" ++ M2 ++ lit ":" ++ S2 ++ lit "." ++ U6) - 3 = 12).
    { rewrite !length_app, Lh, Lm, Ls, L6. lit_lengths. lia. }
    rewrite Hlen.
    replace (H2 ++ lit ":" ++ M2 ++ lit ":" ++ S2 ++ lit "." ++ U6)
      with ((H2 ++ lit ":" ++ M2 ++ lit ":" ++ S2 ++ lit ".") ++ U6)
      by (rewrite <- !app_assoc; reflexivity).
    rewrite firstn_app.
    assert (L9 : length (H2 ++ lit ":" ++ M2 ++ lit ":" ++ S2 ++ lit ".") = 9).
    { rewrite !length_app, Lh, Lm, Ls. lit_lengths. lia. }
    rewrite L9. rewrite firstn_all2 by lia.
    change (12 - 9) with 3. rewrite Hms. rewrite <- !app_assoc. reflexivity.
  - rewrite !length_app, Lh, Lm, Ls, L3. lit_lengths. lia.
Qed.

(** ** The user input and the size of the preview *)

(** X21. With [verbose] set, [user_input] prints two lines: a rule of
    exactly 80 characters that holds the words USER INPUT, and the query,
    whole and without color, after two spaces. *)
Theorem user_input_lines :
  forall query w,
    verbose (self w) = true ->
    exists rule,
      stdout (exec (user_input query) w)
      = stdout w ++ [_color (NL :: rule) (lit "dim"); lit "  " ++ query]
      /\ length rule = 80
      /\ infixb (lit " USER INPUT ") rule = true.
Proof.
  intros query w Hv. unfold user_input, separator, exec.
  unfold bind at 1. rewrite bind_get_verbose, Hv. cbn [negb].
  unfold print. cbn [snd self stdout].
  eexists. split; [rewrite <- app_assoc; reflexivity|].
  split; vm_compute; reflexivity.
Qed.

(** X22. The preview structure of [request_raw] holds one entry per tool
    and one entry per message: whenever it can be built, nothing of the
    request is left out of it and nothing is added. *)
Theorem request_preview_counts :
  forall model system messages tools max_tokens data,
    request_data model system messages tools max_tokens = Ok data ->
    exists tools_summary entries,
      block_field data (lit "tools") = Some (VList tools_summary)
      /\ block_field data (lit "messages") = Some (VList entries)
      /\ length tools_summary = length tools
      /\ length entries = length messages.
Proof.
  intros model system messages tools max_tokens data H.
  unfold request_data in H. cbv zeta in H.
  destruct (rmap tool_summary tools) as [ts|] eqn:Et; [|discriminate].
  destruct (rmap message_entry messages) as [es|] eqn:Em; [|discriminate].
  cbn [rbind] in H. injection H as H. subst data.
  exists ts, es.
  split; [reflexivity|]. split; [reflexivity|].
  split; [apply (rmap_length _ _ _ _ _ Et) | apply (rmap_length _ _ _ _ _ Em)].
Qed.

End Logger.

(** ** The theorems at sample inputs

    The renderers are run with [repr_printable] for the interpreter's
    [repr] on strings. *)

Definition sample_request_data : value :=
  result_or VNone
    (request_data repr_printable sample_model sample_system sample_messages sample_tools
       default_max_tokens).

Definition sample_preview : str := result_or [] (json_dumps sample_request_data 4).

Definition sample_full_request : value :=
  result_or VNone
    (full_request repr_printable sample_model sample_system sample_messages sample_tools
       default_max_tokens).

Definition sample_dump : str := result_or [] (json_dumps sample_full_request 2).

(** The failing inputs of C1: a tool without a name, a tool without a
    description and a message without a role. *)
Lemma request_raw_missing_field_raises_witness :
  (show_raw (self default_world) = true)
  /\   (dict_find (lit "name") sample_tool_without_name = None)
  /\   (dict_find (lit "name") sample_tool_without_description = Some (VStr (lit "bash")))
  /\   (dict_find (lit "description") sample_tool_without_description = None)
  /\   (dict_find (lit "role") sample_message_without_role = None)
  /\   (rmap tool_summary sample_tools = Ok sample_tools_summary)
  /\ (outcome (request_raw repr_printable sample_model sample_system sample_messages (VDict sample_tool_without_name :: sample_tools) default_max_tokens) default_world
      = Raise (KeyError (lit "name"))
    /\ outcome (request_raw repr_printable sample_model sample_system sample_messages (VDict sample_tool_without_description :: sample_tools) default_max_tokens) default_world
      = Raise (KeyError (lit "description"))
    /\ outcome (request_raw repr_printable sample_model sample_system (VDict sample_message_without_role :: sample_messages) sample_tools default_max_tokens) default_world
      = Raise (KeyError (lit "role"))
    /\ _serialize_messages repr_printable (VDict sample_message_without_role :: sample_messages) = Raise (KeyError (lit "role"))).
Proof.
  assert (H1 : show_raw (self default_world) = true).
  { vm_compute; reflexivity. }
  assert (H2 : dict_find (lit "name") sample_tool_without_name = None).
  { vm_compute; reflexivity. }
  assert (H3 : dict_find (lit "name") sample_tool_without_description = Some (VStr (lit "bash"))).
  { vm_compute; reflexivity. }
  assert (H4 : dict_find (lit "description") sample_tool_without_description = None).
  { vm_compute; reflexivity. }
  assert (H5 : dict_find (lit "role") sample_message_without_role = None).
  { vm_compute; reflexivity. }
  assert (H6 : rmap tool_summary sample_tools = Ok sample_tools_summary).
  { vm_compute; reflexivity. }
  exact (conj H1 (conj H2 (conj H3 (conj H4 (conj H5 (conj H6 (request_raw_missing_field_raises repr_printable sample_model sample_system sample_messages sample_tools default_max_tokens sample_tools_summary sample_tool_without_name sample_tool_without_description sample_message_without_role (VStr (lit "bash")) default_world H1 H2 H3 H4 H5 H6))))))).
Defined.

(** C2 on a logger built with [verbose=False]. *)
Lemma verbose_off_gating_witness :
  (verbose (self quiet_world) = false)
  /\ (stdout (exec (section (lit "Step") default_icon) quiet_world) = stdout quiet_world
    /\ stdout (exec (json_block repr_printable (lit "data") (VDict sample_usage) 2%Z (lit "magenta")) quiet_world) = stdout quiet_world
    /\ stdout (exec (loop_iteration 3%Z) quiet_world) = stdout quiet_world
    /\ stdout (exec (messages_snapshot repr_printable sample_messages default_title) quiet_world) = stdout quiet_world
    /\ stdout (exec (llm_request_summary repr_printable sample_now sample_model 3%Z 1%Z) quiet_world) = stdout quiet_world
    /\ stdout (exec (llm_response_summary repr_printable (lit "tool_use") sample_usage 2%Z) quiet_world) = stdout quiet_world
    /\ stdout (exec (response_content_blocks repr_printable sample_blocks) quiet_world) = stdout quiet_world
    /\ stdout (exec (separator (lit "USER INPUT") default_char default_width) quiet_world) = stdout quiet_world
    /\ (exists line more,
          stdout (exec (header (lit "Agent") (lit "s01")) quiet_world) = stdout quiet_world ++ line :: more)
    /\ (exists line more,
          stdout (exec (tool_call repr_printable (lit "read_file") sample_input (Some sample_id)) quiet_world) = stdout quiet_world ++ line :: more)
    /\ (exists line more,
          stdout (exec (tool_result repr_printable sample_id (lit "ok") false) quiet_world) = stdout quiet_world ++ line :: more)
    /\ (exists line more,
          stdout (exec (user_input (lit "hi")) quiet_world) = stdout quiet_world ++ line :: more)
    /\ stdout (exec (loop_end (lit "done")) quiet_world) = stdout quiet_world).
Proof.
  assert (H1 : verbose (self quiet_world) = false).
  { vm_compute; reflexivity. }
  exact (conj H1 (verbose_off_gating repr_printable quiet_world (lit "Step") default_icon (lit "data") (VDict sample_usage) 2%Z (lit "magenta") 3%Z sample_messages default_title sample_now sample_model 3%Z 1%Z (lit "tool_use") sample_usage 2%Z sample_blocks (lit "USER INPUT") default_char default_width (lit "Agent") (lit "s01") (lit "read_file") sample_input (Some sample_id) sample_id (lit "ok") false (lit "done") (lit "hi") H1)).
Defined.

(** C3 on a text block and on a tool-result block in attribute form. *)
Lemma serialize_representation_witness :
  (text_variant sample_text_attrs \/ tool_use_variant sample_text_attrs)
  /\   (dict_find (lit "type") sample_tool_result_attrs = Some (VStr (lit "tool_result")))
  /\ ((exists a b,
        _serialize_content repr_printable (VList [VObj (lit "TextBlock") (lit "TextBlock()") (lit "TextBlock()") sample_text_attrs]) = Ok (VList [a])
        /\ _serialize_content repr_printable (VList [as_mapping (VObj (lit "TextBlock") (lit "TextBlock()") (lit "TextBlock()") sample_text_attrs)]) = Ok (VList [b])
        /\ same_mapping a b)
    /\ _serialize_content repr_printable (VList [VObj (lit "ToolResultBlock") (lit "ToolResultBlock()") (lit "ToolResultBlock()") sample_tool_result_attrs])
       = Ok (VList [VDict [ (lit "type", VStr (lit "tool_result")) ]])
    /\ _serialize_content repr_printable (VList [as_mapping (VObj (lit "ToolResultBlock") (lit "ToolResultBlock()") (lit "ToolResultBlock()") sample_tool_result_attrs)])
       = Ok (VList [VDict sample_tool_result_attrs])).
Proof.
  assert (H1 : text_variant sample_text_attrs \/ tool_use_variant sample_text_attrs).
  { left. split; [reflexivity|]. split; [exists (VStr (lit "hello")); reflexivity|].
    intros k Htype Htext. unfold sample_text_attrs. cbn [dict_find].
    rewrite (str_eqb_neq _ _ Htype), (str_eqb_neq _ _ Htext). reflexivity. }
  assert (H2 : dict_find (lit "type") sample_tool_result_attrs = Some (VStr (lit "tool_result"))).
  { vm_compute; reflexivity. }
  exact (conj H1 (conj H2 (serialize_representation repr_printable (lit "TextBlock") (lit "TextBlock()") (lit "TextBlock()") sample_text_attrs (lit "ToolResultBlock") (lit "ToolResultBlock()") (lit "ToolResultBlock()") sample_tool_result_attrs H1 H2))).
Defined.

(** C4 on a system prompt of 150 letters. *)
Lemma request_raw_system_150_witness :
  (show_raw (self default_world) = true)
  /\   (length sample_system = 150)
  /\   (request_data repr_printable sample_model sample_system sample_messages sample_tools default_max_tokens = Ok sample_request_data)
  /\   (json_dumps sample_request_data 4 = Ok sample_preview)
  /\   (full_request repr_printable sample_model sample_system sample_messages sample_tools default_max_tokens = Ok sample_full_request)
  /\   (json_dumps sample_full_request 2 = Ok sample_dump)
  /\ (request_raw repr_printable sample_model sample_system sample_messages sample_tools default_max_tokens default_world
      = (Ok tt,
         {| self := self default_world;
            stdout :=
              stdout default_world ++ request_banner
                ++ [_color (NL :: lit "  " ++ [ICON_CHART] ++ lit " Request Structure:")
                      (lit "cyan")]
                ++ map (fun line => _color (lit "    " ++ line) (lit "dim"))
                     (split_on NL sample_preview)
                ++ [full_request_heading]
                ++ [_color (lit "  " ++ [BOX_TL] ++ str_mul [BOX_H] 76 ++ [BOX_TR])
                      (lit "dim")]
                ++ map code_block_line (split_on NL sample_dump)
                ++ [_color (lit "  " ++ [BOX_BL] ++ str_mul [BOX_H] 76 ++ [BOX_BR])
                      (lit "dim")] |})
    /\ nth_error (split_on NL sample_preview) 3
       = Some (lit "    " ++ json_string (lit "system") ++ lit ": "
                 ++ json_string (firstn 100 sample_system ++ lit "...") ++ lit ",")
    /\ block_field sample_full_request (lit "system") = Some (VStr sample_system)
    /\ nth_error (split_on NL sample_dump) 3
       = Some (lit "  " ++ json_string (lit "system") ++ lit ": "
                 ++ json_string sample_system ++ lit ",")
    /\ nth_error (map code_block_line (split_on NL sample_dump)) 3
       = Some (_color (lit "  " ++ [BOX_V] ++ lit " "
                         ++ ((lit "  " ++ json_string (lit "system") ++ lit ": " ++ [34%N])
                               ++ firstn 58 (flat_map json_escape_char sample_system)
                               ++ lit "...")
                         ++ lit " " ++ [BOX_V])
                 (lit "dim"))
    /\ (forall line, In line (code_block_lines repr_printable sample_full_request) -> infixb sample_system line = false)).
Proof.
  assert (H1 : show_raw (self default_world) = true).
  { vm_compute; reflexivity. }
  assert (H2 : length sample_system = 150).
  { vm_compute; reflexivity. }
  assert (H3 : request_data repr_printable sample_model sample_system sample_messages sample_tools default_max_tokens = Ok sample_request_data).
  { vm_compute; reflexivity. }
  assert (H4 : json_dumps sample_request_data 4 = Ok sample_preview).
  { vm_compute; reflexivity. }
  assert (H5 : full_request repr_printable sample_model sample_system sample_messages sample_tools default_max_tokens = Ok sample_full_request).
  { vm_compute; reflexivity. }
  assert (H6 : json_dumps sample_full_request 2 = Ok sample_dump).
  { vm_compute; reflexivity. }
  exact (conj H1 (conj H2 (conj H3 (conj H4 (conj H5 (conj H6 (request_raw_system_150 repr_printable sample_model sample_system sample_messages sample_tools default_max_tokens sample_request_data sample_preview sample_full_request sample_dump default_world H1 H2 H3 H4 H5 H6))))))).
Defined.

(** C5 on a logger built with [show_raw=False]. *)
Lemma show_raw_off_gating_witness :
  (show_raw (self raw_off_world) = false)
  /\   (verbose (self raw_off_world) = true)
  /\ (request_raw repr_printable sample_model sample_system sample_messages sample_tools default_max_tokens raw_off_world = (Ok tt, raw_off_world)
    /\ response_raw repr_printable sample_text_object raw_off_world = (Ok tt, raw_off_world)
    /\ (exists line more,
          stdout (exec (tool_call repr_printable (lit "read_file") sample_input (Some sample_id)) raw_off_world) = stdout raw_off_world ++ line :: more)
    /\ (exists line more,
          stdout (exec (tool_result repr_printable sample_id (lit "ok") false) raw_off_world) = stdout raw_off_world ++ line :: more)
    /\ (exists line more,
          stdout (exec (loop_end (lit "done")) raw_off_world) = stdout raw_off_world ++ line :: more)
    /\ (exists line more,
          stdout (exec (user_input (lit "hi")) raw_off_world) = stdout raw_off_world ++ line :: more)).
Proof.
  assert (H1 : show_raw (self raw_off_world) = false).
  { vm_compute; reflexivity. }
  assert (H2 : verbose (self raw_off_world) = true).
  { vm_compute; reflexivity. }
  exact (conj H1 (conj H2 (show_raw_off_gating repr_printable raw_off_world sample_model sample_system sample_messages sample_tools default_max_tokens sample_text_object (lit "read_file") sample_input (Some sample_id) sample_id (lit "ok") false (lit "done") (lit "hi") H1 H2))).
Defined.


(** C7 on an id of 26 characters, on an id of eight characters and on
    the empty id. *)
Lemma id_display_24_witness :
  nth_error (stdout (exec (tool_call repr_printable (lit "read_file") sample_input
                             (Some sample_long_id)) default_world)) 1
  = Some (lit "    " ++ esc "[32m" ++ lit "id:" ++ esc "[0m" ++ lit " "
            ++ esc "[2m" ++ lit "toolu_0123456789abcdefgh..." ++ esc "[0m")
  /\ nth_error (stdout (exec (tool_result repr_printable sample_long_id (lit "ok") false)
                            default_world)) 1
     = Some (lit "    " ++ esc "[34m" ++ lit "tool_use_id:" ++ esc "[0m"
               ++ lit " toolu_0123456789abcdefgh...")
  /\ length sample_id <= 24
  /\ nth_error (stdout (exec (tool_call repr_printable (lit "read_file") sample_input
                                (Some sample_id)) default_world)) 1
     = Some (lit "    " ++ esc "[32m" ++ lit "id:" ++ esc "[0m" ++ lit " "
               ++ esc "[2m" ++ lit "toolu_01..." ++ esc "[0m")
  /\ nth_error (stdout (exec (tool_result repr_printable [] (lit "failed") true)
                            default_world)) 1
     = Some (lit "    " ++ esc "[31m" ++ lit "tool_use_id:" ++ esc "[0m" ++ lit " ...").
Proof.
  assert (Hlong : sample_long_id <> []).
  { intro Hne. vm_compute in Hne. discriminate Hne. }
  assert (Hshort : sample_id <> []).
  { intro Hne. vm_compute in Hne. discriminate Hne. }
  assert (Hlen : length sample_id <= 24).
  { vm_compute. lia. }
  exact (conj
           (proj1 (proj2 (proj2 (proj2
              (id_display_24 repr_printable (lit "read_file") sample_input sample_long_id
                 (lit "ok") false default_world)))) Hlong)
        (conj
           (proj1 (proj2 (proj2
              (id_display_24 repr_printable (lit "read_file") sample_input sample_long_id
                 (lit "ok") false default_world))))
        (conj Hlen
        (conj
           (proj2 (proj2 (proj2 (proj2 (proj2
              (id_display_24 repr_printable (lit "read_file") sample_input sample_id
                 (lit "ok") false default_world)))) Hlen) Hshort)
           (proj1 (proj2 (proj2
              (id_display_24 repr_printable (lit "read_file") sample_input []
                 (lit "failed") true default_world)))))))).
Defined.

(** C8 on a message of 130 characters and on one of five, each the
    second of the list. *)
Lemma snapshot_preview_60_witness :
  verbose (self default_world) = true
  /\ Forall (fun m => is_dict m = true) [VDict sample_user_message]
  /\ dict_find (lit "content") sample_long_message = Some (VStr sample_long_text)
  /\ nth_error
       (stdout (exec (messages_snapshot repr_printable
                        ([VDict sample_user_message] ++ VDict sample_long_message
                           :: sample_messages) default_title) default_world)) 3
     = Some (lit "    [1] " ++ esc "[33m" ++ lit "assistant" ++ esc "[0m" ++ lit ": "
               ++ esc "[2m" ++ repeat 98%N 60 ++ lit "..." ++ esc "[0m")
  /\ dict_find (lit "content") sample_user_message = Some (VStr (lit "hello"))
  /\ nth_error
       (stdout (exec (messages_snapshot repr_printable
                        ([VDict sample_user_message] ++ VDict sample_user_message
                           :: sample_messages) default_title) default_world)) 3
     = Some (lit "    [1] " ++ esc "[32m" ++ lit "user" ++ esc "[0m" ++ lit ": "
               ++ esc "[2m" ++ lit "hello" ++ esc "[0m").
Proof.
  assert (H1 : verbose (self default_world) = true).
  { vm_compute; reflexivity. }
  assert (H2 : Forall (fun m => is_dict m = true) [VDict sample_user_message]).
  { repeat constructor. }
  assert (H3 : dict_find (lit "content") sample_long_message = Some (VStr sample_long_text)).
  { vm_compute; reflexivity. }
  assert (H4 : dict_find (lit "content") sample_user_message = Some (VStr (lit "hello"))).
  { vm_compute; reflexivity. }
  exact (conj H1 (conj H2 (conj H3
          (conj (snapshot_preview_60 repr_printable [VDict sample_user_message]
                   sample_long_message sample_long_text sample_messages default_title
                   default_world H1 H2 H3)
          (conj H4
                (snapshot_preview_60 repr_printable [VDict sample_user_message]
                   sample_user_message (lit "hello") sample_messages default_title
                   default_world H1 H2 H4)))))).
Defined.

(** C10 on a call with an id. *)
Lemma tool_call_id_line_witness :
  (sample_id <> [])
  /\ (tool_call repr_printable (lit "read_file") sample_input None default_world = tool_call repr_printable (lit "read_file") sample_input (Some []) default_world
    /\ (exists lines,
          stdout (exec (tool_call repr_printable (lit "read_file") sample_input (Some [])) default_world) = stdout default_world ++ lines
          /\ filter is_id_line lines = [])
    /\ (exists heading rest,
          stdout (exec (tool_call repr_printable (lit "read_file") sample_input (Some sample_id)) default_world)
          = stdout default_world ++ heading :: key_value_line repr_printable (lit "id")
                           (VStr (_color (firstn 24 sample_id ++ lit "...") (lit "dim")))
                           4 (lit "green") :: rest
          /\ filter is_id_line
               (heading :: key_value_line repr_printable (lit "id")
                             (VStr (_color (firstn 24 sample_id ++ lit "...") (lit "dim")))
                             4 (lit "green") :: rest)
             = [key_value_line repr_printable (lit "id")
                  (VStr (_color (firstn 24 sample_id ++ lit "...") (lit "dim")))
                  4 (lit "green")])).
Proof.
  assert (H1 : sample_id <> []).
  { intro Hne. vm_compute in Hne. discriminate Hne. }
  exact (conj H1 (tool_call_id_line repr_printable (lit "read_file") sample_input sample_id default_world H1)).
Defined.

(** ** Where the claims as stated fail *)

(** C2 as stated fails for [loop_end]: with [verbose] off it prints
    nothing at all. *)
Lemma loop_end_silent_without_verbose :
  ~ (exists line more,
        stdout (exec (loop_end (lit "done")) quiet_world)
        = stdout quiet_world ++ line :: more).
Proof.
  intros (line & more & H). vm_compute in H. discriminate H.
Qed.

(** C3 as stated fails for the tool-result variant: the block in
    attribute form is serialized without its [tool_use_id], which the
    block in mapping form keeps. *)
Lemma tool_result_object_loses_fields :
  ~ (exists a b,
        _serialize_content repr_printable (VList [sample_tool_result_object])
        = Ok (VList [a])
        /\ _serialize_content repr_printable (VList [as_mapping sample_tool_result_object])
           = Ok (VList [b])
        /\ same_mapping a b).
Proof.
  intros (a & b & Ha & Hb & Hsame).
  vm_compute in Ha. vm_compute in Hb.
  injection Ha as Ha. injection Hb as Hb. subst a b.
  specialize (Hsame (lit "tool_use_id")). vm_compute in Hsame. discriminate Hsame.
Qed.

(** C4 as stated fails: after a call of [request_raw] with a system
    prompt of 150 characters, the prompt occurs nowhere in the output,
    neither in a printed line nor across the text sent to the terminal. *)
Lemma full_dump_cuts_system_prompt :
  length sample_system = 150
  /\ outcome (request_raw repr_printable sample_model sample_system sample_messages
                sample_tools default_max_tokens) default_world = Ok tt
  /\ existsb (infixb sample_system)
       (stdout (exec (request_raw repr_printable sample_model sample_system sample_messages
                        sample_tools default_max_tokens) default_world)) = false
  /\ infixb sample_system
       (stdout_text
          (stdout (exec (request_raw repr_printable sample_model sample_system
                           sample_messages sample_tools default_max_tokens)
                     default_world))) = false.
Proof. repeat split; vm_compute; reflexivity. Qed.

(** ** The example of the specification *)

(** [tool_call("read_file", {"path": "/tmp/x.txt"})] prints the tool name
    and the path, and no id line. *)
Example tool_call_read_file :
  outcome (tool_call repr_printable (lit "read_file") sample_input None) default_world = Ok tt
  /\ existsb (infixb (lit "read_file"))
       (stdout (exec (tool_call repr_printable (lit "read_file") sample_input None)
                  default_world)) = true
  /\ existsb (infixb (lit "/tmp/x.txt"))
       (stdout (exec (tool_call repr_printable (lit "read_file") sample_input None)
                  default_world)) = true
  /\ filter is_id_line
       (stdout (exec (tool_call repr_printable (lit "read_file") sample_input None)
                  default_world)) = [].
Proof. repeat split; vm_compute; reflexivity. Qed.

(** The clock reading 09:05:07.004567 is shown as 09:05:07.004. *)
Example timestamp_milliseconds :
  _timestamp sample_now = _color (lit "09:05:07.004") (lit "dim").
Proof. vm_compute. reflexivity. Qed.

(** ** The further properties at sample inputs *)

Definition sample_short_request_data : value :=
  result_or VNone
    (request_data repr_printable sample_model sample_short_system sample_messages
       sample_tools default_max_tokens).

Definition sample_short_preview : str :=
  result_or [] (json_dumps sample_short_request_data 4).

(** X1 on a mapping that holds a tool-use block in attribute form. *)
Lemma encoder_error_is_caught_witness :
  first_object_class sample_unencodable = Some (lit "ToolUseBlock")
  /\ (forall n,
        json_dumps sample_unencodable n
        = Raise (TypeError (lit "Object of type ToolUseBlock is not JSON serializable")))
  /\ outcome (json_block repr_printable (lit "data") sample_unencodable 2%Z (lit "magenta"))
       default_world = Ok tt
  /\ outcome (_print_structured_json repr_printable sample_unencodable (lit "Request"))
       default_world = Ok tt
  /\ outcome (_print_code_block repr_printable sample_unencodable) default_world = Ok tt
  /\ stdout (exec (_print_structured_json repr_printable sample_unencodable (lit "Request"))
               default_world)
     = [ esc "[36m" ++ (NL :: lit "  " ++ [ICON_CHART] ++ lit " Request:") ++ esc "[0m";
         esc "[31m"
           ++ lit "    Error formatting: Object of type ToolUseBlock is not JSON serializable"
           ++ esc "[0m" ]
  /\ stdout (exec (_print_code_block repr_printable sample_unencodable) default_world)
     = [ esc "[31m"
           ++ lit "    Error: Object of type ToolUseBlock is not JSON serializable"
           ++ esc "[0m" ].
Proof.
  assert (H1 : first_object_class sample_unencodable = Some (lit "ToolUseBlock")).
  { vm_compute; reflexivity. }
  exact (conj H1 (encoder_error_is_caught repr_printable sample_unencodable
                    (lit "ToolUseBlock") (lit "Request") 2%Z (lit "magenta")
                    default_world H1)).
Defined.

(** X2 on a mapping of two numbers. *)
Lemma json_block_fallback_witness :
  (verbose (self default_world) = true)
  /\ (if has_object (VDict sample_usage)
    then stdout (exec (json_block repr_printable (lit "usage") (VDict sample_usage) 2%Z (lit "magenta")) default_world)
         = stdout default_world
             ++ [ str_mul (lit " ") 2%Z ++ _color ((lit "usage") ++ lit ":") (lit "magenta");
                  _color (str_mul (lit " ") 2%Z ++ lit "  " ++ to_str repr_printable (VDict sample_usage)) (lit "dim") ]
    else exists formatted,
           json_dumps (VDict sample_usage) (2%Z + 2) = Ok formatted
           /\ stdout (exec (json_block repr_printable (lit "usage") (VDict sample_usage) 2%Z (lit "magenta")) default_world)
              = stdout default_world
                  ++ (str_mul (lit " ") 2%Z ++ _color ((lit "usage") ++ lit ":") (lit "magenta"))
                  :: map (fun line =>
                            _color (str_mul (lit " ") 2%Z ++ lit "  " ++ line) (lit "dim"))
                       (split_on NL formatted)).
Proof.
  assert (H1 : verbose (self default_world) = true).
  { vm_compute; reflexivity. }
  exact (conj H1 (json_block_fallback repr_printable (lit "usage") (VDict sample_usage) 2%Z (lit "magenta") default_world H1)).
Defined.

(** X4 on a text block in attribute form, a tool-result block given as
    a mapping and an object without a type. *)
Lemma serialize_content_idempotent_witness :
  (_serialize_content repr_printable (VList sample_mixed_blocks) = Ok sample_mixed_serialized)
  /\ (exists serialized,
      sample_mixed_serialized = VList serialized
      /\ length serialized = length sample_mixed_blocks
      /\ forallb is_dict serialized = true
      /\ (forall i block,
            nth_error sample_mixed_blocks i = Some block ->
            exists d,
              nth_error serialized i = Some (VDict d)
              /\ (is_dict block = true -> VDict d = block)
              /\ (is_dict block = false ->
                  dict_find (lit "type") d
                  = Some (VStr (to_str repr_printable (getattr block (lit "type") VNone)))
                  /\ (eq_str (getattr block (lit "type") VNone) (lit "text") = true ->
                      dict_find (lit "text") d
                      = Some (getattr block (lit "text") (VStr [])))))
      /\ _serialize_content repr_printable sample_mixed_serialized
         = Ok sample_mixed_serialized).
Proof.
  assert (H1 : _serialize_content repr_printable (VList sample_mixed_blocks)
               = Ok sample_mixed_serialized).
  { vm_compute; reflexivity. }
  exact (conj H1 (serialize_content_idempotent repr_printable sample_mixed_blocks
                    sample_mixed_serialized H1)).
Defined.

(** X5 on a text message and a tool-result message. *)
Lemma serialize_messages_plain_witness :
  (forallb plain_message sample_plain_messages = true)
  /\ (_serialize_messages repr_printable sample_plain_messages = Ok (VList sample_plain_messages)).
Proof.
  assert (H1 : forallb plain_message sample_plain_messages = true).
  { vm_compute; reflexivity. }
  exact (conj H1 (serialize_messages_plain repr_printable sample_plain_messages H1)).
Defined.

(** X6 on a message that has a role only. *)
Lemma missing_content_defaults_witness :
  (dict_find (lit "role") sample_role_only = Some (VStr (lit "user")))
  /\   (dict_find (lit "content") sample_role_only = None)
  /\ (message_entry repr_printable (VDict sample_role_only)
      = Ok (VDict [ (lit "role", (VStr (lit "user"))); (lit "content", VStr (lit "<text: 0 chars>")) ])
    /\ serialize_message repr_printable (VDict sample_role_only)
       = Ok (VDict [ (lit "role", (VStr (lit "user"))); (lit "content", VStr []) ])
    /\ snapshot_message repr_printable 0 (VDict sample_role_only) default_world
       = (Ok tt,
          {| self := self default_world;
             stdout := stdout default_world
               ++ [ lit "    [" ++ dec_nat 0 ++ lit "] "
                      ++ _color (to_str repr_printable (VStr (lit "user"))) (role_color (VStr (lit "user")))
                      ++ lit ": " ++ _color [] (lit "dim") ] |})).
Proof.
  assert (H1 : dict_find (lit "role") sample_role_only = Some (VStr (lit "user"))).
  { vm_compute; reflexivity. }
  assert (H2 : dict_find (lit "content") sample_role_only = None).
  { vm_compute; reflexivity. }
  exact (conj H1 (conj H2 (missing_content_defaults repr_printable sample_role_only (VStr (lit "user")) 0 default_world H1 H2))).
Defined.

(** X7 on a message whose content is [None]. *)
Lemma content_none_three_ways_witness :
  (show_raw (self default_world) = true)
  /\   (rmap tool_summary sample_tools = Ok sample_tools_summary)
  /\   (dict_find (lit "role") sample_none_content = Some (VStr (lit "user")))
  /\   (dict_find (lit "content") sample_none_content = Some VNone)
  /\ (message_entry repr_printable (VDict sample_none_content) = Raise (TypeError (lit "object is not iterable"))
    /\ request_raw repr_printable sample_model sample_system (VDict sample_none_content :: sample_messages) sample_tools default_max_tokens default_world
       = (Raise (TypeError (lit "object is not iterable")),
          {| self := self default_world; stdout := stdout default_world ++ request_banner |})
    /\ serialize_message repr_printable (VDict sample_none_content)
       = Ok (VDict [ (lit "role", (VStr (lit "user"))); (lit "content", VStr (lit "None")) ])
    /\ snapshot_message repr_printable 0 (VDict sample_none_content) default_world = (Ok tt, default_world)).
Proof.
  assert (H1 : show_raw (self default_world) = true).
  { vm_compute; reflexivity. }
  assert (H2 : rmap tool_summary sample_tools = Ok sample_tools_summary).
  { vm_compute; reflexivity. }
  assert (H3 : dict_find (lit "role") sample_none_content = Some (VStr (lit "user"))).
  { vm_compute; reflexivity. }
  assert (H4 : dict_find (lit "content") sample_none_content = Some VNone).
  { vm_compute; reflexivity. }
  exact (conj H1 (conj H2 (conj H3 (conj H4 (content_none_three_ways repr_printable sample_model sample_system sample_messages sample_tools default_max_tokens sample_tools_summary sample_none_content (VStr (lit "user")) 0 default_world H1 H2 H3 H4))))).
Defined.

(** X8 on a block without a type, in both forms. *)
Lemma untagged_block_stand_ins_witness :
  (is_dict sample_untagged_object = false)
  /\   (block_field sample_untagged_object (lit "type") = None)
  /\   (dict_find (lit "type") sample_untagged_mapping = None)
  /\ (serialize_block repr_printable sample_untagged_object = Ok (VDict [ (lit "type", VStr (lit "None")) ])
    /\ block_summary repr_printable sample_untagged_object = Ok (VStr (lit "unknown"))
    /\ block_summary_attr repr_printable sample_untagged_object = Ok (VStr (lit "unknown"))
    /\ response_block_entry sample_untagged_object = Ok (VDict [ (lit "type", VStr (lit "unknown")) ])
    /\ block_tag sample_untagged_object = VStr (lit "unknown")
    /\ serialize_block repr_printable (VDict sample_untagged_mapping) = Ok (VDict sample_untagged_mapping)
    /\ block_summary repr_printable (VDict sample_untagged_mapping) = Ok (VStr (lit "unknown"))
    /\ block_tag (VDict sample_untagged_mapping) = VStr (lit "unknown")).
Proof.
  assert (H1 : is_dict sample_untagged_object = false).
  { vm_compute; reflexivity. }
  assert (H2 : block_field sample_untagged_object (lit "type") = None).
  { vm_compute; reflexivity. }
  assert (H3 : dict_find (lit "type") sample_untagged_mapping = None).
  { vm_compute; reflexivity. }
  exact (conj H1 (conj H2 (conj H3 (untagged_block_stand_ins repr_printable sample_untagged_object sample_untagged_mapping H1 H2 H3)))).
Defined.

(** X9 on a request whose tool-use block has a number for input: the preview is printed, the full dump raises. *)
Lemma request_raw_stages_witness :
  (show_raw (self default_world) = true)
  /\ (request_raw repr_printable sample_model sample_short_system sample_bad_messages sample_tools default_max_tokens default_world
    = match request_data repr_printable sample_model sample_short_system sample_bad_messages sample_tools default_max_tokens with
      | Raise e => (Raise e, {| self := self default_world; stdout := stdout default_world ++ request_banner |})
      | Ok data =>
          match full_request repr_printable sample_model sample_short_system sample_bad_messages sample_tools default_max_tokens with
          | Raise e =>
              (Raise e,
               {| self := self default_world;
                  stdout := stdout default_world ++ request_banner
                              ++ structured_json_lines repr_printable data (lit "Request Structure")
                              ++ [full_request_heading] |})
          | Ok full =>
              (Ok tt,
               {| self := self default_world;
                  stdout := stdout default_world ++ request_banner
                              ++ structured_json_lines repr_printable data (lit "Request Structure")
                              ++ [full_request_heading] ++ code_block_lines repr_printable full |})
          end
      end).
Proof.
  assert (H1 : show_raw (self default_world) = true).
  { vm_compute; reflexivity. }
  exact (conj H1 (request_raw_stages repr_printable sample_model sample_short_system sample_bad_messages sample_tools default_max_tokens default_world H1)).
Defined.

(** X10 on a response given as a mapping. *)
Lemma response_raw_needs_attributes_witness :
  (show_raw (self default_world) = true)
  /\   ((forall cls s r attrs, (VDict sample_usage) = VObj cls s r attrs -> dict_find (lit "id") attrs = None))
  /\ (response_raw repr_printable (VDict sample_usage) default_world
    = (Raise (AttributeError (lit "id")),
       {| self := self default_world; stdout := stdout default_world ++ response_banner |})).
Proof.
  assert (H1 : show_raw (self default_world) = true).
  { vm_compute; reflexivity. }
  assert (H2 : (forall cls s r attrs, (VDict sample_usage) = VObj cls s r attrs -> dict_find (lit "id") attrs = None)).
  { intros cls s r attrs Hresponse. discriminate Hresponse. }
  exact (conj H1 (conj H2 (response_raw_needs_attributes repr_printable (VDict sample_usage) default_world H1 H2))).
Defined.

(** X11 on a text block and a tool-use block. *)
Lemma response_preview_and_dump_witness :
  (getattr sample_text_object (lit "type") (VStr (lit "unknown")) = VStr (lit "text"))
  /\   (getattr sample_text_object (lit "text") (VStr []) = VStr (lit "hello"))
  /\   (getattr sample_tool_use_object (lit "type") (VStr (lit "unknown")) = VStr (lit "tool_use"))
  /\   (getattr sample_tool_use_object (lit "input") (VDict []) = VDict [ (lit "command", VStr (lit "ls")) ])
  /\ (response_block_entry sample_text_object
      = Ok (VDict [ (lit "type", VStr (lit "text"));
                    (lit "text", VStr (lit "<" ++ dec_nat (length (lit "hello")) ++ lit " chars>")) ])
    /\ serialize_block repr_printable sample_text_object
       = Ok (VDict [ (lit "type", VStr (lit "text")); (lit "text", VStr (lit "hello")) ])
    /\ response_block_entry sample_tool_use_object = serialize_block repr_printable sample_tool_use_object
    /\ serialize_block repr_printable sample_tool_use_object
       = Ok (VDict [ (lit "type", VStr (lit "tool_use"));
                     (lit "id", getattr sample_tool_use_object (lit "id") (VStr []));
                     (lit "name", getattr sample_tool_use_object (lit "name") (VStr []));
                     (lit "input", VDict [ (lit "command", VStr (lit "ls")) ]) ])).
Proof.
  assert (H1 : getattr sample_text_object (lit "type") (VStr (lit "unknown")) = VStr (lit "text")).
  { vm_compute; reflexivity. }
  assert (H2 : getattr sample_text_object (lit "text") (VStr []) = VStr (lit "hello")).
  { vm_compute; reflexivity. }
  assert (H3 : getattr sample_tool_use_object (lit "type") (VStr (lit "unknown")) = VStr (lit "tool_use")).
  { vm_compute; reflexivity. }
  assert (H4 : getattr sample_tool_use_object (lit "input") (VDict []) = VDict [ (lit "command", VStr (lit "ls")) ]).
  { vm_compute; reflexivity. }
  exact (conj H1 (conj H2 (conj H3 (conj H4 (response_preview_and_dump repr_printable sample_text_object sample_tool_use_object (lit "hello") [ (lit "command", VStr (lit "ls")) ] H1 H2 H3 H4))))).
Defined.

(** X12 on three messages. *)
Lemma messages_snapshot_outcome_witness :
  (verbose (self default_world) = true)
  /\ (if forallb is_dict sample_messages
    then outcome (messages_snapshot repr_printable sample_messages default_title) default_world = Ok tt
         /\ length (stdout (exec (messages_snapshot repr_printable sample_messages default_title) default_world))
            = length (stdout default_world) + 2 + length (filter snapshot_shown sample_messages)
    else outcome (messages_snapshot repr_printable sample_messages default_title) default_world
         = Raise (AttributeError (lit "get"))).
Proof.
  assert (H1 : verbose (self default_world) = true).
  { vm_compute; reflexivity. }
  exact (conj H1 (messages_snapshot_outcome repr_printable sample_messages default_title default_world H1)).
Defined.

(** X15 on a text block of 130 characters, the second text block of a
    list and its fourth block. *)
Lemma response_content_blocks_text_witness :
  verbose (self default_world) = true
  /\ forallb text_is_str [sample_text_object; sample_tool_use_object; sample_untagged_object]
     = true
  /\ is_text (VDict sample_long_text_block) = true
  /\ block_get (VDict sample_long_text_block) (lit "text") (VStr []) = VStr sample_long_text
  /\ nth_error
       (stdout (exec (response_content_blocks repr_printable
                        ([sample_text_object; sample_tool_use_object; sample_untagged_object]
                           ++ VDict sample_long_text_block :: [sample_text_object]))
                  default_world)) 0
     = Some (esc "[36m" ++ (NL :: [ICON_PACKAGE] ++ lit " Response Content Blocks")
               ++ esc "[0m")
  /\ nth_error
       (stdout (exec (response_content_blocks repr_printable
                        ([sample_text_object; sample_tool_use_object; sample_untagged_object]
                           ++ VDict sample_long_text_block :: [sample_text_object]))
                  default_world)) 3
     = Some (lit "    " ++ esc "[33m" ++ lit "Block [3]:" ++ esc "[0m"
               ++ lit " type=text, text=" ++ [34%N] ++ repeat 98%N 100 ++ lit "..."
               ++ [34%N]).
Proof.
  assert (H1 : verbose (self default_world) = true).
  { vm_compute; reflexivity. }
  assert (H2 : forallb text_is_str
                 [sample_text_object; sample_tool_use_object; sample_untagged_object]
               = true).
  { vm_compute; reflexivity. }
  assert (H3 : is_text (VDict sample_long_text_block) = true).
  { vm_compute; reflexivity. }
  assert (H4 : block_get (VDict sample_long_text_block) (lit "text") (VStr [])
               = VStr sample_long_text).
  { vm_compute; reflexivity. }
  exact (conj H1 (conj H2 (conj H3 (conj H4
          (response_content_blocks_text repr_printable
             [sample_text_object; sample_tool_use_object; sample_untagged_object]
             (VDict sample_long_text_block) sample_long_text [sample_text_object]
             default_world H1 H2 H3 H4))))).
Defined.

(** X16 on a tool with a short description and on one whose description is [None]. *)
Lemma tool_summary_ellipsis_witness :
  (dict_find (lit "name") sample_tool = Some (VStr (lit "bash")))
  /\   (dict_find (lit "description") sample_tool = Some (VStr (lit "Run a shell command.")))
  /\   (dict_find (lit "name") sample_tool_none_description = Some (VStr (lit "bash")))
  /\   (dict_find (lit "description") sample_tool_none_description = Some VNone)
  /\   (is_str VNone = false)
  /\ (tool_summary (VDict sample_tool)
      = Ok (VDict [ (lit "name", (VStr (lit "bash")));
                    (lit "description", VStr (firstn 50 (lit "Run a shell command.") ++ lit "...")) ])
    /\ (length (lit "Run a shell command.") <= 50 ->
        tool_summary (VDict sample_tool)
        = Ok (VDict [ (lit "name", (VStr (lit "bash")));
                      (lit "description", VStr ((lit "Run a shell command.") ++ lit "...")) ]))
    /\ exists e, tool_summary (VDict sample_tool_none_description) = Raise e).
Proof.
  assert (H1 : dict_find (lit "name") sample_tool = Some (VStr (lit "bash"))).
  { vm_compute; reflexivity. }
  assert (H2 : dict_find (lit "description") sample_tool = Some (VStr (lit "Run a shell command."))).
  { vm_compute; reflexivity. }
  assert (H3 : dict_find (lit "name") sample_tool_none_description = Some (VStr (lit "bash"))).
  { vm_compute; reflexivity. }
  assert (H4 : dict_find (lit "description") sample_tool_none_description = Some VNone).
  { vm_compute; reflexivity. }
  assert (H5 : is_str VNone = false).
  { vm_compute; reflexivity. }
  exact (conj H1 (conj H2 (conj H3 (conj H4 (conj H5 (tool_summary_ellipsis sample_tool (VStr (lit "bash")) (lit "Run a shell command.") sample_tool_none_description (VStr (lit "bash")) VNone H1 H2 H3 H4 H5)))))).
Defined.

(** X17 on a system prompt of 23 characters. *)
Lemma request_preview_short_system_witness :
  (show_raw (self default_world) = true)
  /\   (length sample_short_system <= 100)
  /\   (request_data repr_printable sample_model sample_short_system sample_messages sample_tools default_max_tokens = Ok sample_short_request_data)
  /\   (json_dumps sample_short_request_data 4 = Ok sample_short_preview)
  /\ (nth_error (stdout (exec (request_raw repr_printable sample_model sample_short_system sample_messages sample_tools default_max_tokens) default_world))
      (length (stdout default_world) + 7)
    = Some (_color (lit "    "
                      ++ (lit "    " ++ json_string (lit "system") ++ lit ": "
                            ++ json_string sample_short_system ++ lit ","))
              (lit "dim"))).
Proof.
  assert (H1 : show_raw (self default_world) = true).
  { vm_compute; reflexivity. }
  assert (H2 : length sample_short_system <= 100).
  { vm_compute. lia. }
  assert (H3 : request_data repr_printable sample_model sample_short_system sample_messages sample_tools default_max_tokens = Ok sample_short_request_data).
  { vm_compute; reflexivity. }
  assert (H4 : json_dumps sample_short_request_data 4 = Ok sample_short_preview).
  { vm_compute; reflexivity. }
  exact (conj H1 (conj H2 (conj H3 (conj H4 (request_preview_short_system repr_printable sample_model sample_short_system sample_messages sample_tools default_max_tokens sample_short_request_data sample_short_preview default_world H1 H2 H3 H4))))).
Defined.

(** X18 on the rule of [user_input]. *)
Lemma separator_width_witness :
  (verbose (self default_world) = true)
  /\   ((0 <= 80%Z)%Z)
  /\ (exists rule,
      stdout (exec (separator (lit "USER INPUT") [BOX_H] 80%Z) default_world)
      = stdout default_world ++ [_color (NL :: rule) (lit "dim")]
      /\ length rule
         = match (lit "USER INPUT") with
           | [] => Z.to_nat 80%Z
           | _ :: _ => Nat.max (Z.to_nat 80%Z) (12 + length (lit "USER INPUT"))
           end).
Proof.
  assert (H1 : verbose (self default_world) = true).
  { vm_compute; reflexivity. }
  assert (H2 : (0 <= 80%Z)%Z).
  { lia. }
  exact (conj H1 (conj H2 (separator_width (lit "USER INPUT") BOX_H 80%Z default_world H1 H2))).
Defined.

(** X19 on an empty usage. *)
Lemma response_summary_usage_defaults_witness :
  (verbose (self default_world) = true)
  /\   (dict_find (lit "input_tokens") [] = None)
  /\   (dict_find (lit "output_tokens") [] = None)
  /\ (length (stdout (exec (llm_response_summary repr_printable (lit "end_turn") [] 1%Z) default_world))
      = length (stdout default_world) + 4
    /\ nth_error (stdout (exec (llm_response_summary repr_printable (lit "end_turn") [] 1%Z) default_world))
         (length (stdout default_world) + 3)
       = Some (lit "    " ++ _color (lit "usage:") (lit "magenta")
                 ++ lit " " ++ lit "input=0, output=0")).
Proof.
  assert (H1 : verbose (self default_world) = true).
  { vm_compute; reflexivity. }
  assert (H2 : dict_find (lit "input_tokens") [] = None).
  { vm_compute; reflexivity. }
  assert (H3 : dict_find (lit "output_tokens") [] = None).
  { vm_compute; reflexivity. }
  exact (conj H1 (conj H2 (conj H3 (response_summary_usage_defaults repr_printable (lit "end_turn") [] 1%Z default_world H1 H2 H3)))).
Defined.

(** X20 on the reading 09:05:07.004567. *)
Lemma timestamp_milliseconds_format_witness :
  (hour sample_now < 24)
  /\   (minute sample_now < 60)
  /\   (second sample_now < 60)
  /\   (microsecond sample_now < 1000 * 1000)
  /\ (_timestamp sample_now
      = _color (zfill 2 (dec_nat (hour sample_now)) ++ lit ":"
                  ++ zfill 2 (dec_nat (minute sample_now)) ++ lit ":"
                  ++ zfill 2 (dec_nat (second sample_now)) ++ lit "."
                  ++ zfill 3 (dec_nat (microsecond sample_now / 1000)))
          (lit "dim")
    /\ length (zfill 2 (dec_nat (hour sample_now)) ++ lit ":"
                 ++ zfill 2 (dec_nat (minute sample_now)) ++ lit ":"
                 ++ zfill 2 (dec_nat (second sample_now)) ++ lit "."
                 ++ zfill 3 (dec_nat (microsecond sample_now / 1000))) = 12).
Proof.
  assert (H1 : hour sample_now < 24).
  { unfold sample_now; cbn [hour minute second microsecond]; lia. }
  assert (H2 : minute sample_now < 60).
  { unfold sample_now; cbn [hour minute second microsecond]; lia. }
  assert (H3 : second sample_now < 60).
  { unfold sample_now; cbn [hour minute second microsecond]; lia. }
  assert (H4 : microsecond sample_now < 1000 * 1000).
  { unfold sample_now; cbn [hour minute second microsecond]; lia. }
  exact (conj H1 (conj H2 (conj H3 (conj H4 (timestamp_milliseconds_format sample_now H1 H2 H3 H4))))).
Defined.

(** X21 on a short query. *)
Lemma user_input_lines_witness :
  (verbose (self default_world) = true)
  /\ (exists rule,
      stdout (exec (user_input (lit "hi")) default_world)
      = stdout default_world ++ [_color (NL :: rule) (lit "dim"); lit "  " ++ (lit "hi")]
      /\ length rule = 80
      /\ infixb (lit " USER INPUT ") rule = true).
Proof.
  assert (H1 : verbose (self default_world) = true).
  { vm_compute; reflexivity. }
  exact (conj H1 (user_input_lines (lit "hi") default_world H1)).
Defined.

(** X22 on a request of three messages and one tool. *)
Lemma request_preview_counts_witness :
  (request_data repr_printable sample_model sample_system sample_messages sample_tools default_max_tokens = Ok sample_request_data)
  /\ (exists tools_summary entries,
      block_field sample_request_data (lit "tools") = Some (VList tools_summary)
      /\ block_field sample_request_data (lit "messages") = Some (VList entries)
      /\ length tools_summary = length sample_tools
      /\ length entries = length sample_messages).
Proof.
  assert (H1 : request_data repr_printable sample_model sample_system sample_messages sample_tools default_max_tokens = Ok sample_request_data).
  { vm_compute; reflexivity. }
  exact (conj H1 (request_preview_counts repr_printable sample_model sample_system sample_messages sample_tools default_max_tokens sample_request_data H1)).
Defined.

(** The request of X9 does end in its second way: the banner, the preview
    and the heading are printed, then the serializer raises. *)
Example request_raw_raises_after_preview :
  outcome (request_raw repr_printable sample_model sample_short_system sample_bad_messages
             sample_tools default_max_tokens) default_world
    = Raise (TypeError (lit "object is not iterable"))
  /\ length (stdout (exec (request_raw repr_printable sample_model sample_short_system
                             sample_bad_messages sample_tools default_max_tokens)
                       default_world)) = 24.
Proof. split; vm_compute; reflexivity. Qed.
